(** * The Amazon backend model of connector-amazon

    A shallow embedding of [models/amazon_backend/common.py]: the class
    [AmazonBackend] (model ['amazon.backend']), its scheduled jobs and the
    methods they dispatch to.

    The methods are orchestration code: they read and write fields of
    backend records and hand work to collaborators (binding models, the job
    queue, the component registry).  The embedding keeps

    - the tables the methods read or write, as lists of rows in id order;
    - every call handed to a collaborator, as an event of a trace;
    - the system clock, as the list of its readings;
    - Python exceptions, as the error results of a state-and-error monad.

    What lies outside the file is taken as follows.  A collaborator's call
    returns normally and touches no field of a backend; the one answer a
    method looks at, that of the report import, is a component of the
    world.  The ORM stores a Datetime field as text to the second.  The
    attributes the class has beyond the methods embedded here, the
    [ilike] operator, and the marketplaces and region of a backend, are
    variables of the development. *)

From Stdlib Require Import ZArith String List Bool Lia Sorted Permutation.
From stdpp Require Import gmap strings list.
Import ListNotations.

Local Open Scope string_scope.
Local Open Scope list_scope.
Local Open Scope Z_scope.
Set Warnings "-register-all".

(** ** Dates and times *)

(** A naive [datetime] is the count of microseconds on its time line. *)
Definition datetime := Z.

Definition MICRO : Z := 1000000.

(** [timedelta(minutes=m)] *)
Definition timedelta_minutes (m : Z) : Z := m * 60 * MICRO.

(** [datetime.strptime(t.strftime('%Y-%m-%d %H:%M:%S'), '%Y-%m-%d %H:%M:%S')]:
    the format has no sub-second part, so the round trip drops it. *)
Definition strftime_strptime (t : datetime) : datetime := t / MICRO * MICRO.

(** A Datetime field holds [False] ([None] here) or the text
    ['%Y-%m-%d %H:%M:%S'] of one second, kept as the count of that second. *)
Definition field_datetime := option Z.

(** [fields.Datetime.to_string]: what the ORM stores for a [datetime]. *)
Definition to_string (t : datetime) : Z := t / MICRO.

(** [datetime.strptime(text, '%Y-%m-%d %H:%M:%S')] on a stored text. *)
Definition strptime_text (s : Z) : datetime := s * MICRO.

(** ** Python values that travel in [filters] dictionaries *)

Inductive pyval :=
| PNone
| PBool (b : bool)
| PInt (z : Z)
| PStr (s : string)
| PIso (t : datetime)            (* the text [t.isoformat()] *)
| PList (l : list pyval).

Definition truthy (v : pyval) : bool :=
  match v with
  | PNone => false
  | PBool b => b
  | PInt z => negb (z =? 0)
  | PStr s => negb (String.eqb s "")
  | PIso _ => true
  | PList l => match l with [] => false | _ => true end
  end.

Abbreviation pydict := (gmap string pyval).

(** ** Rows of the tables *)

(** ['amazon.backend'].  [user_tech_id] is what the path
    [warehouse_id.company_id.user_tech_id] reads. *)
Record backend_row := {
  bk_id : Z;
  bk_name : string;
  user_tech_id : option Z;
  import_sales_from_date : field_datetime;
  import_updated_sales_from_date : field_datetime;
  sqs_account_id : option Z;
}.

(** States of a queue job ([odoo.addons.queue_job.job]). *)
Inductive job_state := PENDING | ENQUEUED | STARTED | DONE | FAILED.

(** ['queue.job'] *)
Record job_row := {
  channel : string;
  state : job_state;
  func_string : string;
  job_model_name : string;
}.

(** ['amazon.config.sqs.message'].  [msg_backend_id] is what the path
    [sqs_account_id.backend_id] reads. *)
Record message_row := {
  msg_id : Z;
  msg_backend_id : option Z;
  processed : bool;
  create_date : Z;
}.

(** ['amazon.product.product.detail'].  [det_backend_id] is what the path
    [product_id.backend_id] reads. *)
Record detail_row := {
  det_id : Z;
  det_backend_id : option Z;
}.

(** ** Collaborators and the trace of what is handed to them *)

(** A binding model as the methods hold it: [self.env[name]], possibly
    [.sudo(user)], possibly [.with_delay(priority, eta)] with a
    [description] set on the delayable. *)
Record binding := {
  model_name : string;
  su : option Z;
  delay : option (Z * datetime);
  description : option string;
}.

Definition env_model (name : string) : binding :=
  {| model_name := name; su := None; delay := None; description := None |}.

Definition sudo (user : Z) (m : binding) : binding :=
  {| model_name := model_name m; su := Some user;
     delay := delay m; description := description m |}.

Definition with_delay (priority : Z) (eta : datetime) (m : binding) : binding :=
  {| model_name := model_name m; su := su m;
     delay := Some (priority, eta); description := description m |}.

Definition set_description (d : string) (m : binding) : binding :=
  {| model_name := model_name m; su := su m;
     delay := delay m; description := Some d |}.

(** [work.component(model_name=..., usage=...)] inside [backend.work_on(...)] *)
Record component := {
  work_backend : Z;
  work_model : string;
  component_model : string;
  usage : string;
}.

Inductive event :=
| EvCall (callback : string) (records : list Z)
| EvLogInfo (fmt : string) (args : list pyval)
| EvPrint (number message : Z) (date : datetime)
| EvImportBatch (m : binding) (backend : Z) (filters : pydict)
| EvExportBatch (m : binding) (backend : Z)
| EvRunDelayedJobs (m : binding) (backend : Z)
| EvProcessPriceMessage (m : binding) (filters : pydict)
| EvWrite (backend : Z) (field : string) (value : field_datetime)
| EvAmazonAPIEnter (backend : Z)
| EvAmazonAPIExit (backend : Z)
| EvWorkOnEnter (backend : Z) (model : string)
| EvWorkOnExit (backend : Z) (model : string)
| EvSubmitFeeds (c : component).

(** ** The world a method runs in *)

(** [clock] lists the readings the system clock gives, in the order they
    are taken; [reads] counts the readings taken so far.
    [report_import_batch] is the answer of
    [self.env['amazon.report'].import_batch(backend, filters=...)]: [None]
    for a falsy answer, [Some v] for a mapping whose ['report_ids'] is [v]. *)
Record world := {
  uid : Z;
  pid : Z;
  clock : nat -> datetime;
  reads : nat;
  amazon_backend : list backend_row;
  queue_job : list job_row;
  amazon_config_sqs_message : list message_row;
  amazon_product_product_detail : list detail_row;
  report_import_batch : Z -> pydict -> option pyval;
  trace : list event;
}.

Definition set_reads (n : nat) (w : world) : world :=
  {| uid := uid w; pid := pid w; clock := clock w; reads := n;
     amazon_backend := amazon_backend w; queue_job := queue_job w;
     amazon_config_sqs_message := amazon_config_sqs_message w;
     amazon_product_product_detail := amazon_product_product_detail w;
     report_import_batch := report_import_batch w; trace := trace w |}.

Definition set_amazon_backend (t : list backend_row) (w : world) : world :=
  {| uid := uid w; pid := pid w; clock := clock w; reads := reads w;
     amazon_backend := t; queue_job := queue_job w;
     amazon_config_sqs_message := amazon_config_sqs_message w;
     amazon_product_product_detail := amazon_product_product_detail w;
     report_import_batch := report_import_batch w; trace := trace w |}.

Definition set_trace (t : list event) (w : world) : world :=
  {| uid := uid w; pid := pid w; clock := clock w; reads := reads w;
     amazon_backend := amazon_backend w; queue_job := queue_job w;
     amazon_config_sqs_message := amazon_config_sqs_message w;
     amazon_product_product_detail := amazon_product_product_detail w;
     report_import_batch := report_import_batch w; trace := t |}.

(** ** State and exceptions *)

Inductive exn :=
| AttributeError (name : string)
| TypeError
| ValueError
| MissingError (id : Z).

(** A run ends with a value or with an exception; either way the world it
    reached is kept. *)
Inductive result (A : Type) :=
| Ok (a : A) (w : world)
| Err (e : exn) (w : world).
Arguments Ok {A} a w.
Arguments Err {A} e w.

Definition M (A : Type) := world -> result A.

Definition ret {A} (a : A) : M A := fun w => Ok a w.

Definition bind {A B} (m : M A) (k : A -> M B) : M B :=
  fun w => match m w with
           | Ok a w' => k a w'
           | Err e w' => Err e w'
           end.

Definition raise {A} (e : exn) : M A := fun w => Err e w.

Notation "x <- m ;; k" := (bind m (fun x => k))
  (at level 100, m at next level, right associativity).
Notation "m ;; k" := (bind m (fun _ => k))
  (at level 100, right associativity).

(** [try: body finally: fin], as a context manager leaves its block. *)
Definition finally {A} (body : M A) (fin : M unit) : M A :=
  fun w => match body w with
           | Ok a w' => match fin w' with
                        | Ok _ w'' => Ok a w''
                        | Err e w'' => Err e w''
                        end
           | Err e w' => match fin w' with
                         | Ok _ w'' => Err e w''
                         | Err e' w'' => Err e' w''
                         end
           end.

Definition gets {A} (f : world -> A) : M A := fun w => Ok (f w) w.

Definition emit (e : event) : M unit :=
  fun w => Ok tt (set_trace (trace w ++ [e]) w).

(** [datetime.today()] and [datetime.now()]: one reading of the clock. *)
Definition datetime_now : M datetime :=
  fun w => Ok (clock w (reads w)) (set_reads (S (reads w)) w).

(** ** The ORM on ['amazon.backend'] *)

Definition find_row (b : Z) (t : list backend_row) : option backend_row :=
  List.find (fun r => bk_id r =? b) t.

(** The record with id [b], when the table has it. *)
Definition browse (b : Z) (w : world) : option backend_row :=
  find_row b (amazon_backend w).

(** [backend.f]: reading a field of the record [b]. *)
Definition field {A} (b : Z) (f : backend_row -> A) : M A :=
  fun w => match browse b w with
           | Some r => Ok (f r) w
           | None => Err (MissingError b) w
           end.

Definition update_row (b : Z) (f : backend_row -> backend_row)
    (t : list backend_row) : list backend_row :=
  map (fun r => if bk_id r =? b then f r else r) t.

Definition set_import_sales_from_date (v : field_datetime) (r : backend_row)
    : backend_row :=
  {| bk_id := bk_id r; bk_name := bk_name r; user_tech_id := user_tech_id r;
     import_sales_from_date := v;
     import_updated_sales_from_date := import_updated_sales_from_date r;
     sqs_account_id := sqs_account_id r |}.

Definition set_import_updated_sales_from_date (v : field_datetime)
    (r : backend_row) : backend_row :=
  {| bk_id := bk_id r; bk_name := bk_name r; user_tech_id := user_tech_id r;
     import_sales_from_date := import_sales_from_date r;
     import_updated_sales_from_date := v;
     sqs_account_id := sqs_account_id r |}.

(** [backend.write({name: v})] and [backend.name = v] on a Datetime field:
    the row is updated and the write is logged in the trace. *)
Definition write (b : Z) (name : string)
    (set : field_datetime -> backend_row -> backend_row)
    (v : field_datetime) : M unit :=
  fun w => match browse b w with
           | Some _ =>
               Ok tt (set_trace (trace w ++ [EvWrite b name v])
                        (set_amazon_backend
                           (update_row b (set v) (amazon_backend w)) w))
           | None => Err (MissingError b) w
           end.

(** A search domain, each leaf taken as the test it denotes on a row; the
    leaves of a list are joined by the implicit ['&']. *)
Definition domain := list (backend_row -> bool).

Definition matches (d : domain) (r : backend_row) : bool :=
  forallb (fun leaf => leaf r) d.

(** [if domain is None: domain = []] *)
Definition default_domain (d : option domain) : domain :=
  match d with
  | Some d => d
  | None => []
  end.

(** [self.search(domain)]: the ids of the matching rows, in id order. *)
Definition search (d : domain) : M (list Z) :=
  gets (fun w => map bk_id (List.filter (matches d) (amazon_backend w))).

(** [self.ensure_one()] *)
Definition ensure_one (self : list Z) : M Z :=
  match self with
  | [b] => ret b
  | _ => raise ValueError
  end.

(** The lines every job starts an iteration with:
    [user = backend.warehouse_id.company_id.user_tech_id]
    [if not user: user = self.env['res.users'].browse(self.env.uid)] *)
Definition tech_user (backend : Z) : M Z :=
  user <- field backend user_tech_id;;
  match user with
  | Some u => ret u
  | None => gets uid
  end.

(** [if user != self.env.user: m = m.sudo(user)] *)
Definition as_user (user : Z) (m : binding) : M binding :=
  env_user <- gets uid;;
  if user =? env_user then ret m else ret (sudo user m).

Definition _name : string := "amazon.backend".

(** The end of the import window when the caller gives none: the clock
    reading cut to its second, two minutes earlier. *)
Definition default_import_end_time : M datetime :=
  today <- datetime_now;;
  ret (strftime_strptime today - timedelta_minutes 2).

(** [datetime.strptime(v, '%Y-%m-%d %H:%M:%S')] on a field value: [False]
    is no string. *)
Definition strptime (v : field_datetime) : M datetime :=
  match v with
  | Some s => ret (strptime_text s)
  | None => raise TypeError
  end.

Definition is_set (v : field_datetime) : bool :=
  match v with Some _ => true | None => false end.

(** [self.env['amazon.report'].import_batch(backend, filters=filters)],
    whose answer the caller uses. *)
Definition report_import (m : binding) (backend : Z) (filters : pydict)
    : M (option pyval) :=
  emit (EvImportBatch m backend filters);;
  gets (fun w => report_import_batch w backend filters).

(** ** [_import_sale_orders] *)

(** One turn of [for backend in self]; the two time variables are locals
    of the method, so what a turn assigns is what the next turn finds. *)
Definition _import_sale_orders_body (backend : Z)
    (import_start_time import_end_time : option datetime)
    (generate_report update_import_date : bool)
    : M (option datetime * option datetime) :=
  user <- tech_user backend;;
  updated <- field backend import_updated_sales_from_date;;
  (if negb (is_set updated)
   then (from <- field backend import_sales_from_date;;
         write backend "import_updated_sales_from_date"
           set_import_updated_sales_from_date from)
   else ret tt);;
  import_end_time <-
    match import_end_time with
    | Some t => ret t
    | None => default_import_end_time
    end;;
  import_start_time <-
    match import_start_time with
    | Some t => ret t
    | None =>
        from <- field backend import_sales_from_date;;
        match from with
        | Some s => ret (strptime_text s)
        | None => ret import_end_time
        end
    end;;
  (if generate_report
   then (let report_binding_model := env_model "amazon.report" in
         let filters : pydict :=
           <["date_end" := PIso import_end_time]>
             (<["date_start" := PIso import_start_time]>
                {["method" := PStr "submit_sales_request"]}) in
         report_id <- report_import report_binding_model backend filters;;
         match report_id with
         | Some report_ids =>
             now <- datetime_now;;
             let delayable :=
               with_delay 3 (now + timedelta_minutes 5) report_binding_model in
             let filters : pydict :=
               <["report_id" := PList [report_ids]]>
                 {["method" := PStr "get_sales"]} in
             name <- field backend bk_name;;
             let delayable :=
               set_description
                 (String.append "Generate sales report to: " name) delayable in
             emit (EvImportBatch delayable backend filters)
         | None => ret tt
         end)
   else (sale_binding_model <- as_user user (env_model "amazon.sale.order");;
         let filters : pydict :=
           <["date_end" := PIso import_end_time]>
             {["date_start" := PIso import_start_time]} in
         emit (EvImportBatch sale_binding_model backend filters)));;
  (if update_import_date
   then write backend "import_sales_from_date" set_import_sales_from_date
          (Some (to_string import_end_time))
   else ret tt);;
  ret (Some import_start_time, Some import_end_time).

Fixpoint _import_sale_orders_loop (self : list Z)
    (import_start_time import_end_time : option datetime)
    (generate_report update_import_date : bool) : M unit :=
  match self with
  | [] => ret tt
  | backend :: rest =>
      times <- _import_sale_orders_body backend import_start_time
                 import_end_time generate_report update_import_date;;
      _import_sale_orders_loop rest (fst times) (snd times)
        generate_report update_import_date
  end.

Definition _import_sale_orders (self : list Z)
    (import_start_time import_end_time : option datetime)
    (generate_report update_import_date : bool) : M bool :=
  _import_sale_orders_loop self import_start_time import_end_time
    generate_report update_import_date;;
  ret true.

(** ** [_import_updated_sales] *)

Definition _import_updated_sales_body (backend : Z)
    (import_start_time import_end_time : option datetime)
    (update_import_date : bool)
    : M (option datetime * option datetime) :=
  user <- tech_user backend;;
  sale_binding_model <- as_user user (env_model "amazon.sale.order");;
  import_end_time <-
    match import_end_time with
    | Some t => ret t
    | None => default_import_end_time
    end;;
  import_start_time <-
    match import_start_time with
    | Some t => ret t
    | None =>
        from <- field backend import_sales_from_date;;
        if is_set from
        then (updated <- field backend import_updated_sales_from_date;;
              strptime updated)
        else ret import_end_time
    end;;
  (let filters : pydict :=
     <["update_sales_flag" := PBool true]>
       (<["update_end" := PIso import_end_time]>
          {["update_start" := PIso import_start_time]}) in
   emit (EvImportBatch sale_binding_model backend filters));;
  (if update_import_date
   then write backend "import_updated_sales_from_date"
          set_import_updated_sales_from_date
          (Some (to_string import_end_time))
   else ret tt);;
  ret (Some import_start_time, Some import_end_time).

Fixpoint _import_updated_sales (self : list Z)
    (import_start_time import_end_time : option datetime)
    (update_import_date : bool) : M unit :=
  match self with
  | [] => ret tt
  | backend :: rest =>
      times <- _import_updated_sales_body backend import_start_time
                 import_end_time update_import_date;;
      _import_updated_sales rest (fst times) (snd times) update_import_date
  end.

(** ** [_update_product_stock_qty_prices] *)

Fixpoint _update_product_stock_qty_prices (self : list Z) : M unit :=
  match self with
  | [] => ret tt
  | backend :: rest =>
      user <- tech_user backend;;
      product_binding_model <-
        as_user user (env_model "amazon.product.product");;
      emit (EvExportBatch product_binding_model backend);;
      _update_product_stock_qty_prices rest
  end.

(** ** [_fix_amazon_data] *)

(** The [for] body ends in [break]: only a first backend gets a turn. *)
Definition _fix_amazon_data (self : list Z) : M bool :=
  match self with
  | [] => ret tt
  | backend :: _ =>
      user <- tech_user backend;;
      fix_data_model <- as_user user (env_model "amazon.fix.data");;
      emit (EvRunDelayedJobs fix_data_model backend)
  end;;
  ret true.

(** ** [work_on] and [_throw_feeds] *)

(** What [with backend.work_on(model_name) as work] yields. *)
Record work := {
  w_backend : Z;
  w_model : string;
}.

Definition work_component (k : work) (model usage_ : string) : component :=
  {| work_backend := w_backend k; work_model := w_model k;
     component_model := model; usage := usage_ |}.

(** The context manager [work_on]: [ensure_one], then the Amazon API client
    is built and entered, then the framework's own [work_on]; both are left
    again when the block ends, however it ends. *)
Definition work_on {A} (self : list Z) (model : string) (block : work -> M A)
    : M A :=
  backend <- ensure_one self;;
  emit (EvAmazonAPIEnter backend);;
  finally
    (emit (EvWorkOnEnter backend model);;
     finally
       (block {| w_backend := backend; w_model := model |})
       (emit (EvWorkOnExit backend model)))
    (emit (EvAmazonAPIExit backend)).

Fixpoint _throw_feeds (self : list Z) : M unit :=
  match self with
  | [] => ret tt
  | backend :: rest =>
      name <- field backend bk_name;;
      p <- gets pid;;
      emit (EvLogInfo
              "connector_amazon [%s][%s] log: Throw feeds init with %s backend"
              [PInt p; PStr "_throw_feeds"; PStr name]);;
      user <- tech_user backend;;
      work_on [backend] _name
        (fun work =>
           let exporter_stock :=
             work_component work "amazon.feed" "amazon.submit.feeds" in
           emit (EvSubmitFeeds exporter_stock));;
      _throw_feeds rest
  end.

(** ** Searches on the message and detail tables *)

Definition same_backend (o : option Z) (b : Z) : bool :=
  match o with Some x => x =? b | None => false end.

(** [search_count([('product_id.backend_id', '=', backend.id)])] *)
Definition detail_search_count (backend : Z) : M nat :=
  gets (fun w =>
          length (List.filter (fun d => same_backend (det_backend_id d) backend)
                    (amazon_product_product_detail w))).

Fixpoint insert_by_create_date (m : message_row) (l : list message_row)
    : list message_row :=
  match l with
  | [] => [m]
  | x :: l' =>
      if create_date m <=? create_date x then m :: l
      else x :: insert_by_create_date m l'
  end.

(** [order='create_date asc']; rows of one date stay in table order. *)
Definition order_by_create_date (l : list message_row) : list message_row :=
  fold_right insert_by_create_date [] l.

(** [limit=n]: the ORM takes a zero limit as no limit. *)
Definition limit {A} (n : nat) (l : list A) : list A :=
  match n with
  | O => l
  | _ => firstn n l
  end.

(** [search([('sqs_account_id.backend_id', '=', backend.id),
             ('processed', '=', False)], order='create_date asc', limit=n)] *)
Definition message_search (backend : Z) (n : nat) : M (list message_row) :=
  gets (fun w =>
          limit n
            (order_by_create_date
               (List.filter
                  (fun m => same_backend (msg_backend_id m) backend
                            && negb (processed m))
                  (amazon_config_sqs_message w)))).

Section AmazonBackend.

(** The constant of [models/config/common.py] that caps the messages taken
    in one run. *)
Variable AMAZON_NUMBER_MESSAGES_CHANGE_PRICE_RECOVER : nat.

(** ** [_throw_delayed_jobs_for_price_changess] *)

Fixpoint throw_messages (messages : list message_row) (i : Z) : M unit :=
  match messages with
  | [] => ret tt
  | message :: rest =>
      date <- datetime_now;;
      emit (EvPrint i (msg_id message) date);;
      let i := i + 1 in
      eta <- datetime_now;;
      let delayable :=
        with_delay 7 eta (env_model "amazon.config.sqs.message") in
      let filters : pydict := {["message" := PInt (msg_id message)]} in
      let delayable :=
        set_description
          (String.append _name (String.append "." "process_price_message()"))
          delayable in
      emit (EvProcessPriceMessage delayable filters);;
      throw_messages rest i
  end.

Fixpoint throw_backends (backends : list Z) : M unit :=
  match backends with
  | [] => ret tt
  | backend :: rest =>
      number_messages <- detail_search_count backend;;
      let number_messages :=
        if (AMAZON_NUMBER_MESSAGES_CHANGE_PRICE_RECOVER <? number_messages)%nat
        then AMAZON_NUMBER_MESSAGES_CHANGE_PRICE_RECOVER
        else number_messages in
      messages <- message_search backend number_messages;;
      throw_messages messages 0;;
      throw_backends rest
  end.

(** The method the source defines, its name ending in a doubled [s].  It
    does not look at [self]. *)
Definition _throw_delayed_jobs_for_price_changess (self : list Z) : M unit :=
  backends <- search [fun r => is_set (sqs_account_id r)];;
  throw_backends backends.

(** ** Dispatch by name *)

Definition method := list Z -> M unit.

(** What [getattr] finds under a name that is none of the methods above:
    the rest of the class and of the framework classes it inherits from. *)
Variable other_attr : string -> option method.

(** [getattr(backends, callback)]; the call that follows passes no
    argument, so each method runs with its defaults. *)
Definition getattr (callback : string) : M method :=
  if String.eqb callback "_import_sale_orders" then
    ret (fun self => _import_sale_orders self None None false true;; ret tt)
  else if String.eqb callback "_import_updated_sales" then
    ret (fun self => _import_updated_sales self None None true)
  else if String.eqb callback "_update_product_stock_qty_prices" then
    ret _update_product_stock_qty_prices
  else if String.eqb callback "_fix_amazon_data" then
    ret (fun self => _fix_amazon_data self;; ret tt)
  else if String.eqb callback "_throw_delayed_jobs_for_price_changess" then
    ret _throw_delayed_jobs_for_price_changess
  else if String.eqb callback "_throw_feeds" then
    ret _throw_feeds
  else match other_attr callback with
       | Some m => ret m
       | None => raise (AttributeError callback)
       end.

(** [_amazon_backend(callback, domain=None)].  The call
    [getattr(backends, callback)()] leaves [EvCall] in the trace. *)
Definition _amazon_backend (callback : string) (d : option domain) : M unit :=
  let d := default_domain d in
  backends <- search d;;
  match backends with
  | [] => ret tt
  | _ =>
      m <- getattr callback;;
      emit (EvCall callback backends);;
      m backends
  end.

(** ** The scheduled jobs *)

Definition _scheduler_import_sale_orders (d : option domain) : M unit :=
  _amazon_backend "_import_sale_orders" d;;
  _amazon_backend "_import_updated_sales" d.

Definition _scheduler_update_product_prices_stock_qty (d : option domain)
    : M unit :=
  _amazon_backend "_update_product_stock_qty_prices" d.

Definition _scheduler_connector_amazon_fix_data (d : option domain) : M unit :=
  _amazon_backend "_fix_amazon_data" d.

Definition _scheduler_throw_jobs_for_price_changes (d : option domain)
    : M unit :=
  _amazon_backend "_throw_delayed_jobs_for_price_changes" d.

Definition _scheduler_throw_feeds (d : option domain) : M unit :=
  _amazon_backend "_throw_feeds" d.

(** ** [check_same_import_jobs] *)

(** The ORM's [ilike] on a text column, and [str] of a record set. *)
Variable ilike : string -> string -> bool.
Variable str : list Z -> string.

Definition state_in (s : job_state) (l : list job_state) : bool :=
  existsb (fun x => match s, x with
                    | PENDING, PENDING | ENQUEUED, ENQUEUED
                    | STARTED, STARTED | DONE, DONE | FAILED, FAILED => true
                    | _, _ => false
                    end) l.

(** The five leaves of the search domain on ['queue.job']. *)
Definition same_import_job (backend : list Z) (model key : string)
    (j : job_row) : bool :=
  String.eqb (channel j) "root.amazon"
  && state_in (state j) [STARTED; ENQUEUED; PENDING]
  && ilike (func_string j) (str backend)
  && ilike (job_model_name j) model
  && ilike (func_string j) key.

Definition check_same_import_jobs (self : list Z) (model key : string)
    (backend : option (list Z)) : M bool :=
  let backend :=
    match backend with
    | Some (b :: l) => b :: l
    | _ => self
    end in
  job <- gets (fun w =>
                 List.filter (same_import_job backend model key) (queue_job w));;
  match job with
  | _ :: _ => ret true
  | [] => ret false
  end.

(** ** [_get_marketplace_default] *)

(** ['amazon.config.marketplace'], the fields the class reads. *)
Record marketplace_row := {
  mp_id : Z;
  id_mws : string;
  country_id : option Z;
}.

(** [self.marketplace_ids] and [self.region.id] of a backend. *)
Variable marketplace_ids : Z -> list marketplace_row.
Variable region : Z -> option Z.

(** [x.id == y.id] on two links: the id of an empty link is [False], which
    Python takes as equal to itself and to 0. *)
Definition id_eq (a b : option Z) : bool :=
  match a, b with
  | Some x, Some y => x =? y
  | Some x, None | None, Some x => x =? 0
  | None, None => true
  end.

(** The [for] loop with its [return] inside; [self.region] is read anew
    at each turn. *)
Fixpoint first_market (backend : Z) (markets : list marketplace_row)
    : M (option marketplace_row) :=
  match markets with
  | [] => ret None
  | market :: rest =>
      region_id <- field backend (fun _ => region backend);;
      if id_eq (country_id market) region_id then ret (Some market)
      else first_market backend rest
  end.

Definition _get_marketplace_default (self : list Z)
    : M (option marketplace_row) :=
  backend <- ensure_one self;;
  markets <- field backend (fun _ => marketplace_ids backend);;
  first_market backend markets.


(** ** What a statement needs to name *)

(** The binding a job holds for [backend]: the model [name], under the
    technical user of the backend's company when one is set and differs
    from the user of the environment. *)
Definition binding_for (w : world) (name : string) (backend : Z) : binding :=
  match browse backend w with
  | Some r =>
      match user_tech_id r with
      | Some u => if u =? uid w then env_model name else sudo u (env_model name)
      | None => env_model name
      end
  | None => env_model name
  end.

(** Every record of a record set is a row of the table. *)
Definition exist (self : list Z) (w : world) : Prop :=
  Forall (fun b => is_Some (browse b w)) self.

(** The value a field of the record [b] has, if the record exists. *)
Definition stored {A} (f : backend_row -> A) (w : world) (b : Z) : option A :=
  option_map f (browse b w).

(** How often [_amazon_backend] called [callback] in a trace. *)
Definition calls (callback : string) (t : list event) : nat :=
  length (List.filter (fun e => match e with
                                | EvCall c _ => String.eqb c callback
                                | _ => false
                                end) t).

(** The events a run adds to the trace it starts from. *)
Definition added (w w' : world) : list event :=
  skipn (length (trace w)) (trace w').

Definition world_of {A} (r : result A) : world :=
  match r with
  | Ok _ w => w
  | Err _ w => w
  end.

Definition is_call (e : event) : bool :=
  match e with
  | EvCall _ _ => true
  | _ => false
  end.

(** [quiet m]: whatever [m] does, it only adds events to the trace, and
    none of them is an [EvCall]. *)
Definition quiet {A} (m : M A) : Prop :=
  forall w, exists evs,
    trace (world_of (m w)) = trace w ++ evs
    /\ Forall (fun e => is_call e = false) evs.

Definition backend_name (w : world) (b : Z) : string :=
  match browse b w with
  | Some r => bk_name r
  | None => ""
  end.

(** What one turn of [_throw_feeds] leaves in the trace for backend [b]. *)
Definition feed_events (w : world) (b : Z) : list event :=
  [ EvLogInfo
      "connector_amazon [%s][%s] log: Throw feeds init with %s backend"
      [PInt (pid w); PStr "_throw_feeds"; PStr (backend_name w b)];
    EvAmazonAPIEnter b;
    EvWorkOnEnter b "amazon.backend";
    EvSubmitFeeds {| work_backend := b; work_model := "amazon.backend";
                     component_model := "amazon.feed";
                     usage := "amazon.submit.feeds" |};
    EvWorkOnExit b "amazon.backend";
    EvAmazonAPIExit b ].

Definition is_submit_feeds (e : event) : bool :=
  match e with
  | EvSubmitFeeds _ => true
  | _ => false
  end.

(** The end of the import window a turn works with. *)
Definition effective_end (import_end_time : option datetime) (w : world)
    : datetime :=
  match import_end_time with
  | Some t => t
  | None => strftime_strptime (clock w (reads w)) - timedelta_minutes 2
  end.

(** The world [w] with its clock count, backend table and trace replaced.
    Every world a method reaches from [w] has this form. *)
Definition world_with (n : nat) (tb : list backend_row) (t : list event)
    (w : world) : world :=
  set_reads n (set_amazon_backend tb (set_trace t w)).

(** The row of [b] after the first lines of a turn: an unset
    [import_updated_sales_from_date] takes the value of
    [import_sales_from_date]. *)
Definition synced (r : backend_row) : backend_row :=
  if is_set (import_updated_sales_from_date r) then r
  else set_import_updated_sales_from_date (import_sales_from_date r) r.

Definition synced_table (b : Z) (r : backend_row) (tb : list backend_row)
    : list backend_row :=
  if is_set (import_updated_sales_from_date r) then tb
  else update_row b
         (set_import_updated_sales_from_date (import_sales_from_date r)) tb.

Definition synced_events (b : Z) (r : backend_row) : list event :=
  if is_set (import_updated_sales_from_date r) then []
  else [EvWrite b "import_updated_sales_from_date" (import_sales_from_date r)].

(** The end and the start of the import window a turn works with, [now]
    being what the clock reads when the turn asks it. *)
Definition end_at (import_end_time : option datetime) (now : datetime)
    : datetime :=
  match import_end_time with
  | Some t => t
  | None => strftime_strptime now - timedelta_minutes 2
  end.

Definition effective_start (import_start_time : option datetime)
    (from : field_datetime) (import_end_time : datetime) : datetime :=
  match import_start_time with
  | Some t => t
  | None => match from with
            | Some s => strptime_text s
            | None => import_end_time
            end
  end.

(** The filters of the two ways to import sales. *)
Definition report_filters (ST E : datetime) : pydict :=
  <["date_end" := PIso E]>
    (<["date_start" := PIso ST]> {["method" := PStr "submit_sales_request"]}).

Definition sale_filters (ST E : datetime) : pydict :=
  <["date_end" := PIso E]> {["date_start" := PIso ST]}.

(** What the import step of a turn hands over: with [generate_report] the
    report request and, when it is answered, the delayed report import;
    without it the import of the sale orders.  [n] counts the clock
    readings taken before the step. *)
Definition import_events (gr : bool) (w : world) (n : nat) (b : Z)
    (name : string) (m : binding) (ST E : datetime) : list event :=
  if gr
  then EvImportBatch (env_model "amazon.report") b (report_filters ST E)
       :: match report_import_batch w b (report_filters ST E) with
          | Some ids =>
              [EvImportBatch
                 (set_description
                    (String.append "Generate sales report to: " name)
                    (with_delay 3 (clock w n + timedelta_minutes 5)
                       (env_model "amazon.report")))
                 b (<["report_id" := PList [ids]]>
                      {["method" := PStr "get_sales"]})]
          | None => []
          end
  else [EvImportBatch m b (sale_filters ST E)].

Definition import_reads (gr : bool) (w : world) (n : nat) (b : Z)
    (ST E : datetime) : nat :=
  if gr
  then match report_import_batch w b (report_filters ST E) with
       | Some _ => S n
       | None => n
       end
  else n.

Definition update_table (upd : bool) (b : Z) (E : datetime)
    (tb : list backend_row) : list backend_row :=
  if upd
  then update_row b (set_import_sales_from_date (Some (to_string E))) tb
  else tb.

Definition update_events (upd : bool) (b : Z) (E : datetime) : list event :=
  if upd then [EvWrite b "import_sales_from_date" (Some (to_string E))]
  else [].

(** The stored [import_sales_from_date] of the record [b] of a table. *)
Definition from_date (tb : list backend_row) (b : Z) : option field_datetime :=
  option_map import_sales_from_date (find_row b tb).

(** In the events [evs], an [import_batch] on [b] comes before a write of
    [v] to [import_sales_from_date] of [b]. *)
Definition import_then_write (b : Z) (v : field_datetime) (evs : list event)
    : Prop :=
  exists l1 m f l2 l3,
    evs = l1 ++ EvImportBatch m b f
             :: l2 ++ EvWrite b "import_sales_from_date" v :: l3.

Definition is_import (e : event) : bool :=
  match e with
  | EvImportBatch _ _ _ => true
  | _ => false
  end.

Definition window_filters (gr : bool) (ST E : datetime) : pydict :=
  if gr then report_filters ST E else sale_filters ST E.

(** The start of the update window a turn works with; [None] when the turn
    hands [False] to [strptime]. *)
Definition updated_start (st : option datetime) (r : backend_row)
    (E : datetime) : option datetime :=
  match st with
  | Some s => Some s
  | None =>
      if is_set (import_sales_from_date r)
      then option_map strptime_text (import_updated_sales_from_date r)
      else Some E
  end.

Definition updated_filters (ST E : datetime) : pydict :=
  <["update_sales_flag" := PBool true]>
    (<["update_end" := PIso E]> {["update_start" := PIso ST]}).

Definition updated_table (upd : bool) (b : Z) (E : datetime)
    (tb : list backend_row) : list backend_row :=
  if upd
  then update_row b
         (set_import_updated_sales_from_date (Some (to_string E))) tb
  else tb.

Definition updated_events (upd : bool) (b : Z) (E : datetime) : list event :=
  if upd
  then [EvWrite b "import_updated_sales_from_date" (Some (to_string E))]
  else [].

(** The record set a domain matches in a world. *)
Definition matched (d : option domain) (w : world) : list Z :=
  map bk_id (List.filter (matches (default_domain d)) (amazon_backend w)).

(** The call [_amazon_backend] leaves in the trace for a matched set. *)
Definition call_events (cb : string) (backends : list Z) : list event :=
  match backends with
  | [] => []
  | _ => [EvCall cb backends]
  end.

(** ** Sample data *)

(** A clock that reads 1000.5 s at its first reading and moves on by a
    microsecond at each reading. *)
Definition sample_clock (n : nat) : datetime := 1000500000 + Z.of_nat n.

Definition sample_world (rows : list backend_row) : world :=
  {| uid := 1; pid := 4242; clock := sample_clock; reads := 0;
     amazon_backend := rows; queue_job := [];
     amazon_config_sqs_message := []; amazon_product_product_detail := [];
     report_import_batch := fun _ _ => None; trace := [] |}.

(** A backend that never imported: both dates unset. *)
Definition row_new : backend_row :=
  {| bk_id := 2; bk_name := "us"; user_tech_id := None;
     import_sales_from_date := None;
     import_updated_sales_from_date := None; sqs_account_id := None |}.

(** A backend with [import_sales_from_date] at second 100 and no
    [import_updated_sales_from_date], run by the technical user 7. *)
Definition row_started : backend_row :=
  {| bk_id := 1; bk_name := "eu"; user_tech_id := Some 7;
     import_sales_from_date := Some 100;
     import_updated_sales_from_date := None; sqs_account_id := None |}.

(** A backend whose [import_sales_from_date] is second 2000, later than
    the sample clock. *)
Definition row_ahead : backend_row :=
  {| bk_id := 1; bk_name := "eu"; user_tech_id := None;
     import_sales_from_date := Some 2000;
     import_updated_sales_from_date := Some 2000; sqs_account_id := None |}.

(** A backend with both dates set, [import_updated_sales_from_date] at
    second 50. *)
Definition row_both : backend_row :=
  {| bk_id := 1; bk_name := "eu"; user_tech_id := None;
     import_sales_from_date := Some 100;
     import_updated_sales_from_date := Some 50; sqs_account_id := None |}.

Definition w_two : world := sample_world [row_started; row_new].

Definition w_mixed : world := sample_world [row_both; row_new].

Definition w_new : world := sample_world [row_new].

Definition w_ahead : world := sample_world [row_ahead].

(** A class with no attribute beyond the methods of the embedding. *)
Definition no_other_attr : string -> option method := fun _ => None.

(** A backend with an SQS account. *)
Definition row_sqs : backend_row :=
  {| bk_id := 1; bk_name := "eu"; user_tech_id := None;
     import_sales_from_date := None;
     import_updated_sales_from_date := None; sqs_account_id := Some 5 |}.

(** Backend 1 has two product details and four messages, one of them
    processed; backend 2 has one detail and one message; backend 3 has a
    message and no detail. *)
Definition w_messages : world :=
  {| uid := 1; pid := 4242; clock := sample_clock; reads := 0;
     amazon_backend := [row_sqs; row_new]; queue_job := [];
     amazon_config_sqs_message :=
       [ {| msg_id := 11; msg_backend_id := Some 1; processed := false;
            create_date := 30 |};
         {| msg_id := 12; msg_backend_id := Some 1; processed := false;
            create_date := 10 |};
         {| msg_id := 13; msg_backend_id := Some 1; processed := true;
            create_date := 5 |};
         {| msg_id := 14; msg_backend_id := Some 2; processed := false;
            create_date := 1 |};
         {| msg_id := 15; msg_backend_id := Some 1; processed := false;
            create_date := 20 |};
         {| msg_id := 16; msg_backend_id := Some 3; processed := false;
            create_date := 7 |} ];
     amazon_product_product_detail :=
       [ {| det_id := 1; det_backend_id := Some 1 |};
         {| det_id := 2; det_backend_id := Some 1 |};
         {| det_id := 3; det_backend_id := Some 2 |} ];
     report_import_batch := fun _ _ => None; trace := [] |}.

(** [w_messages] without product details. *)
Definition w_no_details : world :=
  {| uid := uid w_messages; pid := pid w_messages;
     clock := clock w_messages; reads := reads w_messages;
     amazon_backend := amazon_backend w_messages;
     queue_job := queue_job w_messages;
     amazon_config_sqs_message := amazon_config_sqs_message w_messages;
     amazon_product_product_detail := [];
     report_import_batch := report_import_batch w_messages;
     trace := trace w_messages |}.

(** [w_two] with a report model that answers every request with a
    mapping whose ['report_ids'] is 9. *)
Definition w_report : world :=
  {| uid := 1; pid := 4242; clock := sample_clock; reads := 0;
     amazon_backend := [row_started; row_new]; queue_job := [];
     amazon_config_sqs_message := []; amazon_product_product_detail := [];
     report_import_batch := fun _ _ => Some (PInt 9); trace := [] |}.

(** ** The claims that do not hold as they are worded *)

(** C4 as worded, its middle part: every backend of the record set whose
    [import_sales_from_date] is unset gets an update window that starts
    where it ends. *)
Definition unset_start_is_end (self : list Z) (w : world) : Prop :=
  forall b r w' m f ST E,
    In b self ->
    browse b w = Some r ->
    import_sales_from_date r = None ->
    _import_updated_sales self None None true w = Ok tt w' ->
    In (EvImportBatch m b f) (added w w') ->
    f !! "update_start" = Some (PIso ST) ->
    f !! "update_end" = Some (PIso E) ->
    ST = E.

(** C6 as worded: the window [_import_sale_orders] defaults for a backend
    always has its start not after its end. *)
Definition default_window_ordered (b : Z) (w : world) : Prop :=
  forall w' m f ST E,
    _import_sale_orders [b] None None false true w = Ok true w' ->
    In (EvImportBatch m b f) (added w w') ->
    f !! "date_start" = Some (PIso ST) ->
    f !! "date_end" = Some (PIso E) ->
    ST <= E.

(** C7 as worded: whatever the callback name, [_amazon_backend] calls the
    callback exactly once if and only if the domain matches a backend. *)
Definition called_once_iff_matched (cb : string) (d : option domain)
    (w : world) : Prop :=
  calls cb (added w (world_of (_amazon_backend cb d w))) = 1%nat
  <-> matched d w <> [].

(** ** Further names for statements *)

(** Leaving the two contexts of [work_on], inner first. *)
Definition leave (b : Z) (model : string) (w : world) : world :=
  set_trace (trace w ++ [EvWorkOnExit b model; EvAmazonAPIExit b]) w.


(** The unprocessed messages of a backend, oldest first: what the message
    search of [_throw_delayed_jobs_for_price_changess] finds before its
    limit. *)
Definition pending_messages (backend : Z) (w : world) : list message_row :=
  order_by_create_date
    (List.filter
       (fun m => same_backend (msg_backend_id m) backend && negb (processed m))
       (amazon_config_sqs_message w)).

(** [number_messages] as the method computes it for a backend. *)
Definition messages_limit (backend : Z) (w : world) : nat :=
  let count :=
    length (List.filter (fun d => same_backend (det_backend_id d) backend)
              (amazon_product_product_detail w)) in
  if (AMAZON_NUMBER_MESSAGES_CHANGE_PRICE_RECOVER <? count)%nat
  then AMAZON_NUMBER_MESSAGES_CHANGE_PRICE_RECOVER
  else count.

(** The messages one run takes for a backend. *)
Definition taken (backend : Z) (w : world) : list message_row :=
  limit (messages_limit backend w) (pending_messages backend w).

(** The backends the method runs over: those with an SQS account. *)
Definition sqs_backends (w : world) : list Z :=
  map bk_id (List.filter (fun r => is_set (sqs_account_id r)) (amazon_backend w)).

(** The [filters] of the jobs thrown in a trace, in order. *)
Definition thrown (evs : list event) : list pydict :=
  flat_map (fun e => match e with
                     | EvProcessPriceMessage _ f => [f]
                     | _ => []
                     end) evs.

(** What [throw_messages] leaves in the trace, [n] clock readings having
    been taken before. *)
Fixpoint job_events (clk : nat -> datetime) (n : nat) (i : Z)
    (messages : list message_row) : list event :=
  match messages with
  | [] => []
  | m :: rest =>
      EvPrint i (msg_id m) (clk n)
      :: EvProcessPriceMessage
           (set_description "amazon.backend.process_price_message()"
              (with_delay 7 (clk (S n)) (env_model "amazon.config.sqs.message")))
           {["message" := PInt (msg_id m)]}
      :: job_events clk (S (S n)) (i + 1) rest
  end.

Definition by_create_date (a b : message_row) : Prop :=
  create_date a <= create_date b.


(** The row of a backend after its turn of [_import_sale_orders]. *)
Definition finished (upd : bool) (E : datetime) (r : backend_row)
    : backend_row :=
  if upd then set_import_sales_from_date (Some (to_string E)) (synced r)
  else synced r.

(** What a turn of [_import_sale_orders] without report leaves in the
    trace for backend [b], the window being from [ST] to [E]. *)
Definition sale_turn_events (w : world) (upd : bool) (ST E : datetime) (b : Z)
    : list event :=
  match browse b w with
  | Some r =>
      synced_events b r
      ++ EvImportBatch (binding_for w "amazon.sale.order" b) b
           (sale_filters ST E)
         :: update_events upd b E
  | None => []
  end.

(** The start of the window of a whole call: the one given, else the
    stored date of the first backend of the set, else the end. *)
Definition window_start (st : option datetime) (self : list Z) (w : world)
    (E : datetime) : datetime :=
  effective_start st
    (match self with
     | b :: _ => match browse b w with
                 | Some r => import_sales_from_date r
                 | None => None
                 end
     | [] => None
     end) E.


(** What a turn of [_import_updated_sales] leaves in the trace for backend
    [b], the window being from [ST] to [E]. *)
Definition updated_turn_events (w : world) (upd : bool) (ST E : datetime)
    (b : Z) : list event :=
  EvImportBatch (binding_for w "amazon.sale.order" b) b (updated_filters ST E)
  :: updated_events upd b E.

(** The row of a backend after its turn of [_import_updated_sales]. *)
Definition updated_row (upd : bool) (E : datetime) (r : backend_row)
    : backend_row :=
  if upd then set_import_updated_sales_from_date (Some (to_string E)) r else r.


(** * Properties *)

(** ** Running the primitives *)

Lemma field_run {A} (f : backend_row -> A) b r w :
  browse b w = Some r -> field b f w = Ok (f r) w.
Proof. intros H. unfold field. now rewrite H. Qed.

Lemma tech_user_run b r w :
  browse b w = Some r ->
  tech_user b w = Ok (match user_tech_id r with Some u => u | None => uid w end) w.
Proof.
  intros H. unfold tech_user, bind. rewrite (field_run _ _ _ _ H).
  now destruct (user_tech_id r).
Qed.

Lemma as_user_run user m w :
  as_user user m w = Ok (if user =? uid w then m else sudo user m) w.
Proof. unfold as_user, bind, gets. now destruct (user =? uid w). Qed.

(** The two lines together give the binding [binding_for] names. *)
Lemma binding_run b r name w :
  browse b w = Some r ->
  (user <- tech_user b;; as_user user (env_model name)) w
  = Ok (binding_for w name b) w.
Proof.
  intros H. unfold bind. rewrite (tech_user_run _ _ _ H), as_user_run.
  unfold binding_for. rewrite H. destruct (user_tech_id r) as [u|]; [easy|].
  now rewrite Z.eqb_refl.
Qed.

Lemma binding_for_model w name b : model_name (binding_for w name b) = name.
Proof.
  unfold binding_for. destruct (browse b w) as [r|]; [|easy].
  destruct (user_tech_id r) as [u|]; [|easy]. now destruct (u =? uid w).
Qed.

Lemma search_exist d w backends :
  search d w = Ok backends w -> exist backends w.
Proof.
  unfold search, gets. intros [= <-]. unfold exist, browse, find_row.
  apply List.Forall_forall. intros b Hb. apply in_map_iff in Hb as (r & <- & Hr).
  apply filter_In in Hr as [Hr _].
  destruct (List.find (fun r0 => bk_id r0 =? bk_id r) (amazon_backend w)) eqn:E;
    [eauto|].
  apply (find_none _ _ E) in Hr. now rewrite Z.eqb_refl in Hr.
Qed.

(** ** Worlds that differ in their trace only *)

Lemma set_trace_id w : set_trace (trace w) w = w.
Proof. now destruct w. Qed.

Lemma set_trace_nil w : set_trace (trace w ++ []) w = w.
Proof. rewrite app_nil_r. apply set_trace_id. Qed.

Lemma exist_set_trace t self w : exist self w -> exist self (set_trace t w).
Proof. exact (fun H => H). Qed.

(** ** [_fix_amazon_data] *)

(** C10: on any record set whose records exist, [_fix_amazon_data] hands
    [run_delayed_jobs] of ['amazon.fix.data'] the first backend and nothing
    else -- the backends after the first get no turn, and an empty set gets
    none at all -- it changes no table, and it returns [True]. *)
Theorem fix_amazon_data_first_backend_only (self : list Z) (w : world) :
  exist self w ->
  exists w',
    _fix_amazon_data self w = Ok true w'
    /\ trace w'
       = trace w
         ++ match self with
            | [] => []
            | backend :: _ =>
                [EvRunDelayedJobs (binding_for w "amazon.fix.data" backend)
                   backend]
            end
    /\ amazon_backend w' = amazon_backend w
    /\ _fix_amazon_data self w = _fix_amazon_data (firstn 1 self) w.
Proof.
  intros Hex. destruct self as [|b rest].
  - exists w. repeat split. cbn. now rewrite app_nil_r.
  - inversion Hex as [|? ? [r Hr] _]; subst.
    eexists. unfold _fix_amazon_data. cbn [firstn].
    unfold bind at 1 2.
    pose proof (binding_run b r "amazon.fix.data" w Hr) as Hb.
    unfold bind in Hb. unfold bind. 
    destruct (tech_user b w) as [u w1|e w1]; [|discriminate].
    destruct (as_user u (env_model "amazon.fix.data") w1) as [m w2|e w2];
      [|discriminate].
    injection Hb as -> ->. cbn. repeat split.
Qed.

(** ** [_update_product_stock_qty_prices] *)

Lemma update_product_stock_qty_prices_run (self : list Z) (w : world) :
  exist self w ->
  _update_product_stock_qty_prices self w
  = Ok tt (set_trace
             (trace w
              ++ map (fun b =>
                        EvExportBatch
                          (binding_for w "amazon.product.product" b) b) self)
             w).
Proof.
  revert w. induction self as [|b rest IH]; intros w Hex.
  - cbn. unfold ret. now rewrite set_trace_nil.
  - inversion Hex as [|? ? [r Hr] Hrest]; subst.
    cbn [_update_product_stock_qty_prices].
    pose proof (binding_run b r "amazon.product.product" w Hr) as Hb.
    unfold bind in Hb. unfold bind.
    destruct (tech_user b w) as [u w1|e w1]; [|discriminate].
    destruct (as_user u (env_model "amazon.product.product") w1)
      as [m w2|e w2]; [|discriminate].
    injection Hb as -> ->. cbn [emit].
    rewrite IH by (now apply exist_set_trace).
    cbn [map]. f_equal. cbn. now rewrite <- app_assoc.
Qed.


(** ** Runs that make no dispatch of their own *)

Lemma quiet_ret {A} (a : A) : quiet (ret a).
Proof. intros w. exists []. cbn. now rewrite app_nil_r. Qed.

Lemma quiet_raise {A} e : quiet (@raise A e).
Proof. intros w. exists []. cbn. now rewrite app_nil_r. Qed.

Lemma quiet_gets {A} (f : world -> A) : quiet (gets f).
Proof. intros w. exists []. cbn. now rewrite app_nil_r. Qed.

Lemma quiet_datetime_now : quiet datetime_now.
Proof. intros w. exists []. cbn. now rewrite app_nil_r. Qed.

Lemma quiet_emit e : is_call e = false -> quiet (emit e).
Proof. intros H w. exists [e]. cbn. split; [easy|]. now constructor. Qed.

Lemma quiet_bind {A B} (m : M A) (k : A -> M B) :
  quiet m -> (forall a, quiet (k a)) -> quiet (bind m k).
Proof.
  intros Hm Hk w. unfold bind. destruct (Hm w) as (e1 & H1 & F1).
  destruct (m w) as [a w1|e w1]; cbn in H1.
  - destruct (Hk a w1) as (e2 & H2 & F2). exists (e1 ++ e2).
    rewrite H2, H1, <- app_assoc. split; [easy|]. now apply Forall_app.
  - now exists e1.
Qed.

Lemma quiet_finally {A} (m : M A) (fin : M unit) :
  quiet m -> quiet fin -> quiet (finally m fin).
Proof.
  intros Hm Hf w. unfold finally. destruct (Hm w) as (e1 & H1 & F1).
  destruct (m w) as [a w1|e w1]; cbn in H1;
    destruct (Hf w1) as (e2 & H2 & F2); exists (e1 ++ e2);
    (split; [|now apply Forall_app]);
    destruct (fin w1) as [[] w2|e' w2]; cbn in *;
    now rewrite H2, H1, <- app_assoc.
Qed.

Lemma quiet_field {A} b (f : backend_row -> A) : quiet (field b f).
Proof.
  intros w. exists []. unfold field. rewrite app_nil_r.
  now destruct (browse b w).
Qed.

Lemma quiet_write b name set v : quiet (write b name set v).
Proof.
  intros w. unfold write. destruct (browse b w); cbn.
  - exists [EvWrite b name v]. split; [easy|]. now constructor.
  - exists []. now rewrite app_nil_r.
Qed.

Lemma quiet_if {A} (c : bool) (m1 m2 : M A) :
  quiet m1 -> quiet m2 -> quiet (if c then m1 else m2).
Proof. now destruct c. Qed.

Create HintDb quiet.
#[local] Hint Resolve quiet_ret quiet_raise quiet_gets quiet_datetime_now
  quiet_field quiet_write quiet_finally quiet_if : quiet.

Ltac quiet_step :=
  match goal with
  | |- quiet (bind _ _) => apply quiet_bind; [|intros ?]
  | |- quiet (finally _ _) => apply quiet_finally
  | |- quiet (emit _) => apply quiet_emit; reflexivity
  | |- quiet (match ?x with _ => _ end) => destruct x
  | |- quiet (let _ := _ in _) => cbv zeta
  | |- quiet _ => solve [auto with quiet]
  end.

Ltac quiet_tac := repeat quiet_step.

Lemma quiet_tech_user b : quiet (tech_user b).
Proof. unfold tech_user. quiet_tac. Qed.

Lemma quiet_as_user u m : quiet (as_user u m).
Proof. unfold as_user. quiet_tac. Qed.

Lemma quiet_strptime v : quiet (strptime v).
Proof. unfold strptime. quiet_tac. Qed.

Lemma quiet_default_import_end_time : quiet default_import_end_time.
Proof. unfold default_import_end_time. quiet_tac. Qed.

Lemma quiet_report_import m b f : quiet (report_import m b f).
Proof. unfold report_import. quiet_tac. Qed.

Lemma quiet_ensure_one self : quiet (ensure_one self).
Proof. unfold ensure_one. quiet_tac. Qed.

Lemma quiet_search d : quiet (search d).
Proof. unfold search. quiet_tac. Qed.

#[local] Hint Resolve quiet_tech_user quiet_as_user quiet_strptime
  quiet_default_import_end_time quiet_report_import quiet_ensure_one
  quiet_search : quiet.

Lemma quiet_import_sale_orders self st en gr upd :
  quiet (_import_sale_orders self st en gr upd).
Proof.
  unfold _import_sale_orders. apply quiet_bind; [|intros; quiet_tac].
  revert st en. induction self as [|b rest IH]; intros st en; cbn.
  - quiet_tac.
  - apply quiet_bind; [|intros; apply IH].
    unfold _import_sale_orders_body. quiet_tac.
Qed.

Lemma quiet_import_updated_sales self st en upd :
  quiet (_import_updated_sales self st en upd).
Proof.
  revert st en. induction self as [|b rest IH]; intros st en; cbn.
  - quiet_tac.
  - apply quiet_bind; [|intros; apply IH].
    unfold _import_updated_sales_body. quiet_tac.
Qed.

Lemma quiet_update_product_stock_qty_prices self :
  quiet (_update_product_stock_qty_prices self).
Proof.
  induction self as [|b rest IH]; cbn; quiet_tac.
Qed.

Lemma quiet_fix_amazon_data self : quiet (_fix_amazon_data self).
Proof. unfold _fix_amazon_data. quiet_tac. Qed.

Lemma quiet_work_on {A} self model (block : work -> M A) :
  (forall k, quiet (block k)) -> quiet (work_on self model block).
Proof. intros H. unfold work_on. quiet_tac. Qed.

Lemma quiet_throw_feeds self : quiet (_throw_feeds self).
Proof.
  induction self as [|b rest IH]; cbn; quiet_tac.
  apply quiet_work_on. intros k. quiet_tac.
Qed.

Lemma quiet_throw_messages messages i : quiet (throw_messages messages i).
Proof.
  revert i. induction messages as [|m rest IH]; intros i; cbn; quiet_tac.
Qed.

Lemma quiet_throw_delayed_jobs_for_price_changess self :
  quiet (_throw_delayed_jobs_for_price_changess self).
Proof.
  unfold _throw_delayed_jobs_for_price_changess.
  apply quiet_bind; [quiet_tac|]. intros backends.
  induction backends as [|b rest IH]; cbn; [quiet_tac|].
  apply quiet_bind; [unfold detail_search_count; quiet_tac|]. intros n.
  apply quiet_bind; [unfold message_search; quiet_tac|]. intros ms.
  apply quiet_bind; [apply quiet_throw_messages|]. intros _. apply IH.
Qed.


(** Every method of the embedding is quiet, and so is whatever [getattr]
    resolves when the other attributes are. *)
Lemma getattr_quiet cb m w :
  (forall name m' self, other_attr name = Some m' -> quiet (m' self)) ->
  getattr cb w = Ok m w ->
  forall self, quiet (m self).
Proof.
  intros Ho. unfold getattr.
  repeat match goal with
         | |- context [if ?c then _ else _] => destruct c
         end;
    try (intros [= <-] self;
         first [ apply quiet_update_product_stock_qty_prices
               | apply quiet_throw_delayed_jobs_for_price_changess
               | apply quiet_throw_feeds
               | apply quiet_import_updated_sales
               | apply quiet_bind;
                 [ first [apply quiet_import_sale_orders
                         |apply quiet_fix_amazon_data]
                 | intros; apply quiet_ret ] ]).
  destruct (other_attr cb) as [m'|] eqn:E; [|discriminate].
  intros [= <-] self. now apply (Ho cb).
Qed.

(** ** [_amazon_backend] *)

Lemma added_app w w' l : trace w' = trace w ++ l -> added w w' = l.
Proof. intros H. unfold added. rewrite H. apply drop_app_length. Qed.

Lemma calls_app cb l1 l2 : calls cb (l1 ++ l2) = (calls cb l1 + calls cb l2)%nat.
Proof. unfold calls. now rewrite List.filter_app, length_app. Qed.

Lemma calls_quiet cb evs :
  Forall (fun e => is_call e = false) evs -> calls cb evs = 0%nat.
Proof.
  unfold calls. induction 1 as [|e l He _ IH]; [easy|]. cbn.
  destruct e; try discriminate; exact IH.
Qed.

Lemma amazon_backend_none cb d w :
  search (default_domain d) w = Ok [] w -> _amazon_backend cb d w = Ok tt w.
Proof. intros H. unfold _amazon_backend, bind. now rewrite H. Qed.

Lemma amazon_backend_call cb d w backends m :
  search (default_domain d) w = Ok backends w ->
  backends <> [] ->
  getattr cb w = Ok m w ->
  _amazon_backend cb d w
  = m backends (set_trace (trace w ++ [EvCall cb backends]) w).
Proof.
  intros Hs Hne Hg. unfold _amazon_backend, bind at 1. rewrite Hs.
  destruct backends as [|b rest]; [easy|]. unfold bind. now rewrite Hg.
Qed.

Lemma amazon_backend_missing cb d w backends e :
  search (default_domain d) w = Ok backends w ->
  backends <> [] ->
  getattr cb w = Err e w ->
  _amazon_backend cb d w = Err e w.
Proof.
  intros Hs Hne Hg. unfold _amazon_backend, bind at 1. rewrite Hs.
  destruct backends as [|b rest]; [easy|]. unfold bind. now rewrite Hg.
Qed.

(** C7: with no backend matched, [_amazon_backend] calls nothing and
    leaves the world as it was, whatever the callback name.  For a name
    that [getattr] resolves to a method (one that does no dispatch of its
    own), a non-empty match makes the run that one call on the whole
    matched set, and the callback is called exactly once if and only if the
    match is non-empty. *)
Theorem amazon_backend_dispatch (cb : string) (d : option domain) (w : world)
    (backends : list Z) :
  search (default_domain d) w = Ok backends w ->
  (backends = [] -> _amazon_backend cb d w = Ok tt w)
  /\ (forall m,
        getattr cb w = Ok m w ->
        (forall self, quiet (m self)) ->
        (backends <> [] ->
         _amazon_backend cb d w
         = m backends (set_trace (trace w ++ [EvCall cb backends]) w))
        /\ (calls cb (added w (world_of (_amazon_backend cb d w))) = 1%nat
            <-> backends <> [])).
Proof.
  intros Hs. split.
  - intros ->. now apply amazon_backend_none.
  - intros m Hg Hq. split; [intros Hne; now apply amazon_backend_call|].
    destruct backends as [|b rest].
    + rewrite (amazon_backend_none _ _ _ Hs). cbn. unfold added.
      rewrite skipn_all. cbn. split; [discriminate|easy].
    + split; [easy|intros _].
      rewrite (amazon_backend_call _ _ _ _ m Hs) by easy.
      destruct (Hq (b :: rest) (set_trace (trace w ++ [EvCall cb (b :: rest)]) w))
        as (evs & Ht & Hf).
      cbn [trace set_trace] in Ht. rewrite <- app_assoc in Ht.
      rewrite (added_app _ _ _ Ht), calls_app, (calls_quiet _ _ Hf).
      unfold calls. cbn. now rewrite String.eqb_refl.
Qed.

(** The callbacks the schedulers below name, as [getattr] finds them. *)
Lemma getattr_update_product_stock_qty_prices w :
  getattr "_update_product_stock_qty_prices" w
  = Ok _update_product_stock_qty_prices w.
Proof. reflexivity. Qed.

(** ** [_scheduler_throw_jobs_for_price_changes] *)

(** C1: the scheduled job names [_throw_delayed_jobs_for_price_changes];
    the class defines the method under a name with a doubled final [s].
    When no attribute of the job's spelling exists, every run that matches
    a backend ends in [AttributeError] before anything is called. *)
Theorem scheduler_throw_jobs_for_price_changes_raises (d : option domain)
    (w : world) (backends : list Z) :
  other_attr "_throw_delayed_jobs_for_price_changes" = None ->
  search (default_domain d) w = Ok backends w ->
  backends <> [] ->
  _scheduler_throw_jobs_for_price_changes d w
  = Err (AttributeError "_throw_delayed_jobs_for_price_changes") w
  /\ getattr "_throw_delayed_jobs_for_price_changess" w
     = Ok _throw_delayed_jobs_for_price_changess w.
Proof.
  intros Ho Hs Hne. split; [|reflexivity].
  unfold _scheduler_throw_jobs_for_price_changes.
  apply (amazon_backend_missing _ _ _ backends); [easy..|].
  unfold getattr. cbn. now rewrite Ho.
Qed.

(** ** [_scheduler_update_product_prices_stock_qty] *)

(** C2: when the domain matches a non-empty set of backends, the job calls
    [_update_product_stock_qty_prices] on that set, which hands
    [export_batch] of ['amazon.product.product'] each matched backend, once
    and in order, and nothing else; no table changes. *)
Theorem scheduler_update_product_prices_stock_qty_exports_each
    (d : option domain) (w : world) (backends : list Z) :
  search (default_domain d) w = Ok backends w ->
  backends <> [] ->
  exists w',
    _scheduler_update_product_prices_stock_qty d w = Ok tt w'
    /\ trace w'
       = trace w
         ++ EvCall "_update_product_stock_qty_prices" backends
            :: map (fun b =>
                      EvExportBatch
                        (binding_for w "amazon.product.product" b) b)
                 backends
    /\ amazon_backend w' = amazon_backend w
    /\ forall b, model_name (binding_for w "amazon.product.product" b)
                 = "amazon.product.product".
Proof.
  intros Hs Hne. eexists.
  unfold _scheduler_update_product_prices_stock_qty.
  rewrite (amazon_backend_call _ _ _ _ _ Hs Hne
             (getattr_update_product_stock_qty_prices w)).
  rewrite update_product_stock_qty_prices_run
    by (apply exist_set_trace; now apply (search_exist _ _ _ Hs)).
  repeat split.
  - cbn. now rewrite <- app_assoc.
  - intros b. apply binding_for_model.
Qed.


(** ** [_throw_feeds] *)

Lemma set_trace_twice t1 t2 w : set_trace t1 (set_trace t2 w) = set_trace t1 w.
Proof. reflexivity. Qed.

Lemma feed_events_set_trace t w l :
  flat_map (feed_events (set_trace t w)) l = flat_map (feed_events w) l.
Proof. reflexivity. Qed.

Lemma throw_feeds_run (self : list Z) (w : world) :
  exist self w ->
  _throw_feeds self w
  = Ok tt (set_trace (trace w ++ flat_map (feed_events w) self) w).
Proof.
  revert w. induction self as [|b rest IH]; intros w Hex.
  - cbn. unfold ret. now rewrite set_trace_nil.
  - inversion Hex as [|? ? [r Hr] Hrest]; subst.
    cbn [_throw_feeds]. unfold bind at 1. rewrite (field_run _ _ _ _ Hr).
    unfold bind at 1. cbn [gets]. unfold bind at 1. cbn [emit].
    unfold bind at 1. rewrite (tech_user_run b r) by exact Hr.
    unfold bind at 1. cbn -[_throw_feeds feed_events flat_map].
    rewrite !set_trace_twice.
    rewrite IH by (apply exist_set_trace; exact Hrest).
    rewrite set_trace_twice, feed_events_set_trace. cbn [trace set_trace].
    rewrite <- !app_assoc. cbn. unfold backend_name. now rewrite Hr.
Qed.

(** C8: on a record set whose records exist, [_throw_feeds] gives every
    backend one turn, in order: it opens the work context on that backend
    (entering the Amazon API client, then the framework's work context on
    ['amazon.backend']), calls [submit_feeds] once on the component of
    ['amazon.feed'] with usage ['amazon.submit.feeds'], and leaves both
    contexts.  So there are as many [submit_feeds] calls as backends. *)
Theorem throw_feeds_submits_once_per_backend (self : list Z) (w : world) :
  exist self w ->
  exists w',
    _throw_feeds self w = Ok tt w'
    /\ trace w' = trace w ++ flat_map (feed_events w) self
    /\ amazon_backend w' = amazon_backend w
    /\ length (List.filter is_submit_feeds (added w w')) = length self.
Proof.
  intros Hex. eexists. rewrite (throw_feeds_run _ _ Hex).
  split; [reflexivity|]. split; [reflexivity|]. split; [reflexivity|].
  rewrite (added_app w _ (flat_map (feed_events w) self)) by reflexivity.
  clear Hex. induction self as [|b rest IH]; [reflexivity|].
  cbn. now rewrite IH.
Qed.


(** ** [check_same_import_jobs] *)

Lemma state_in_active s :
  state_in s [STARTED; ENQUEUED; PENDING] = true
  <-> s = STARTED \/ s = ENQUEUED \/ s = PENDING.
Proof.
  clear other_attr AMAZON_NUMBER_MESSAGES_CHANGE_PRICE_RECOVER.
  destruct s; cbn; split; intros H; try discriminate; auto;
    destruct H as [H|[H|H]]; discriminate.
Qed.

Lemma same_import_job_spec target model key j :
  same_import_job target model key j = true
  <-> channel j = "root.amazon"
      /\ (state j = STARTED \/ state j = ENQUEUED \/ state j = PENDING)
      /\ ilike (func_string j) (str target) = true
      /\ ilike (job_model_name j) model = true
      /\ ilike (func_string j) key = true.
Proof.
  clear other_attr AMAZON_NUMBER_MESSAGES_CHANGE_PRICE_RECOVER.
  unfold same_import_job. rewrite !andb_true_iff, String.eqb_eq, state_in_active.
  tauto.
Qed.

(** C9: [check_same_import_jobs] answers a boolean and never raises; the
    answer is [True] exactly when the job table has a job on channel
    ['root.amazon'] whose state is STARTED, ENQUEUED or PENDING, whose
    function text matches the backend ([self] when none is given) and the
    key, and whose model name matches the model.  When every job is done or
    failed the answer is [False]. *)
Theorem check_same_import_jobs_iff (self : list Z) (model key : string)
    (backend : option (list Z)) (w : world) :
  let target := match backend with
                | Some (b :: l) => b :: l
                | _ => self
                end in
  exists v : bool,
    check_same_import_jobs self model key backend w = Ok v w
    /\ (v = true
        <-> exists j,
              In j (queue_job w)
              /\ channel j = "root.amazon"
              /\ (state j = STARTED \/ state j = ENQUEUED \/ state j = PENDING)
              /\ ilike (func_string j) (str target) = true
              /\ ilike (job_model_name j) model = true
              /\ ilike (func_string j) key = true)
    /\ ((forall j, In j (queue_job w) -> state j = DONE \/ state j = FAILED)
        -> v = false).
Proof.
  clear other_attr AMAZON_NUMBER_MESSAGES_CHANGE_PRICE_RECOVER.
  intros target. unfold check_same_import_jobs, bind, gets. fold target.
  destruct (List.filter (same_import_job target model key) (queue_job w))
    as [|j0 l] eqn:E.
  - exists false. split; [reflexivity|]. split; [|easy].
    split; [discriminate|]. intros (j & Hin & Hj).
    assert (In j (List.filter (same_import_job target model key) (queue_job w)))
      as Hf by (apply filter_In; split; [easy|now apply same_import_job_spec]).
    now rewrite E in Hf.
  - exists true. assert (In j0 (queue_job w)
                         /\ same_import_job target model key j0 = true)
      as [Hin Hj] by (apply filter_In; rewrite E; now left).
    apply same_import_job_spec in Hj. split; [reflexivity|]. split.
    + split; [intros _; now exists j0|easy].
    + intros Hall. destruct (Hall j0 Hin) as [Hd|Hd], Hj as (_ & [Hs|[Hs|Hs]] & _);
        congruence.
Qed.


(** ** Rows after a write *)

Lemma find_row_id b t r : find_row b t = Some r -> bk_id r = b.
Proof.
  unfold find_row. intros H. apply find_some in H as [_ H]. lia.
Qed.

Lemma find_row_update b b' f t :
  (forall r, bk_id (f r) = bk_id r) ->
  find_row b' (update_row b f t)
  = option_map (fun r => if bk_id r =? b then f r else r) (find_row b' t).
Proof.
  intros Hf. unfold find_row, update_row.
  induction t as [|r t IH]; [reflexivity|]. cbn.
  destruct (bk_id r =? b) eqn:E.
  - rewrite Hf. destruct (bk_id r =? b'); [cbn; now rewrite E|exact IH].
  - destruct (bk_id r =? b'); [cbn; now rewrite E|exact IH].
Qed.

Lemma find_row_update_same b f t r :
  (forall r, bk_id (f r) = bk_id r) ->
  find_row b t = Some r -> find_row b (update_row b f t) = Some (f r).
Proof.
  intros Hf H. rewrite find_row_update, H by exact Hf. cbn.
  apply find_row_id in H. now rewrite H, Z.eqb_refl.
Qed.

Lemma find_row_update_other b b' f t :
  (forall r, bk_id (f r) = bk_id r) ->
  b' <> b -> find_row b' (update_row b f t) = find_row b' t.
Proof.
  intros Hf Hne. rewrite find_row_update by exact Hf.
  destruct (find_row b' t) as [r|] eqn:E; [|reflexivity]. cbn.
  apply find_row_id in E. subst b'.
  destruct (bk_id r =? b) eqn:E'; [lia|reflexivity].
Qed.


(** ** Worlds in normal form *)

Lemma world_with_id w :
  world_with (reads w) (amazon_backend w) (trace w) w = w.
Proof. now destruct w. Qed.

Lemma bind_run {A B} (m : M A) (k : A -> M B) w a w1 :
  m w = Ok a w1 -> bind m k w = k a w1.
Proof. intros H. unfold bind. now rewrite H. Qed.

Lemma bind_err {A B} (m : M A) (k : A -> M B) w e w1 :
  m w = Err e w1 -> bind m k w = Err e w1.
Proof. intros H. unfold bind. now rewrite H. Qed.

Section Normal.

Variables (n : nat) (tb : list backend_row) (t : list event) (w0 : world).

Lemma field_ww {A} (f : backend_row -> A) b r :
  find_row b tb = Some r ->
  field b f (world_with n tb t w0) = Ok (f r) (world_with n tb t w0).
Proof. intros H. exact (field_run f b r (world_with n tb t w0) H). Qed.

Lemma write_ww b name set v r :
  find_row b tb = Some r ->
  write b name set v (world_with n tb t w0)
  = Ok tt (world_with n (update_row b (set v) tb) (t ++ [EvWrite b name v]) w0).
Proof.
  intros H. unfold write.
  change (browse b (world_with n tb t w0)) with (find_row b tb).
  now rewrite H.
Qed.

Lemma emit_ww e :
  emit e (world_with n tb t w0) = Ok tt (world_with n tb (t ++ [e]) w0).
Proof. reflexivity. Qed.

Lemma datetime_now_ww :
  datetime_now (world_with n tb t w0)
  = Ok (clock w0 n) (world_with (S n) tb t w0).
Proof. reflexivity. Qed.

Lemma tech_user_ww b r :
  find_row b tb = Some r ->
  tech_user b (world_with n tb t w0)
  = Ok (match user_tech_id r with Some u => u | None => uid w0 end)
      (world_with n tb t w0).
Proof. intros H. exact (tech_user_run b r (world_with n tb t w0) H). Qed.

Lemma as_user_ww user m :
  as_user user m (world_with n tb t w0)
  = Ok (if user =? uid w0 then m else sudo user m) (world_with n tb t w0).
Proof. exact (as_user_run user m (world_with n tb t w0)). Qed.

Lemma binding_for_ww name b :
  binding_for (world_with n tb t w0) name b
  = match find_row b tb with
    | Some r =>
        match user_tech_id r with
        | Some u => if u =? uid w0 then env_model name
                    else sudo u (env_model name)
        | None => env_model name
        end
    | None => env_model name
    end.
Proof. reflexivity. Qed.

End Normal.


(** ** One turn of [_import_sale_orders] *)

Lemma synced_find b r tb :
  find_row b tb = Some r ->
  find_row b (synced_table b r tb) = Some (synced r).
Proof.
  intros Hr. unfold synced_table, synced.
  destruct (is_set (import_updated_sales_from_date r)); [exact Hr|].
  now apply find_row_update_same.
Qed.

Lemma synced_import_sales_from_date r :
  import_sales_from_date (synced r) = import_sales_from_date r.
Proof. unfold synced. now destruct (is_set _). Qed.

Lemma synced_bk_name r : bk_name (synced r) = bk_name r.
Proof. unfold synced. now destruct (is_set _). Qed.

Section Turn.

Variables (n : nat) (tb : list backend_row) (t : list event) (w0 : world).
Variables (b : Z) (r : backend_row).
Hypothesis Hr : find_row b tb = Some r.

Lemma sync_ww :
  (if negb (is_set (import_updated_sales_from_date r))
   then (from <- field b import_sales_from_date;;
         write b "import_updated_sales_from_date"
           set_import_updated_sales_from_date from)
   else ret tt) (world_with n tb t w0)
  = Ok tt (world_with n (synced_table b r tb) (t ++ synced_events b r) w0).
Proof.
  unfold synced_table, synced_events.
  destruct (is_set (import_updated_sales_from_date r)); cbn [negb].
  - unfold ret. now rewrite app_nil_r.
  - rewrite (bind_run _ _ _ _ _ (field_ww n tb t w0 import_sales_from_date b r Hr)).
    now rewrite (write_ww n tb t w0 _ _ _ _ r Hr).
Qed.

Lemma end_time_ww (en : option datetime) :
  match en with
  | Some e => ret e
  | None => default_import_end_time
  end (world_with n tb t w0)
  = Ok (end_at en (clock w0 n))
      (world_with (match en with Some _ => n | None => S n end) tb t w0).
Proof. destruct en; reflexivity. Qed.

Lemma start_time_ww (st : option datetime) (E : datetime) :
  match st with
  | Some s => ret s
  | None =>
      from <- field b import_sales_from_date;;
      match from with
      | Some s => ret (strptime_text s)
      | None => ret E
      end
  end (world_with n tb t w0)
  = Ok (effective_start st (import_sales_from_date r) E) (world_with n tb t w0).
Proof.
  destruct st as [s|]; [reflexivity|].
  rewrite (bind_run _ _ _ _ _ (field_ww n tb t w0 import_sales_from_date b r Hr)).
  cbn. now destruct (import_sales_from_date r).
Qed.

Lemma import_ww (gr : bool) (user : Z) (ST E : datetime) :
  (if gr
   then (let report_binding_model := env_model "amazon.report" in
         let filters : pydict :=
           <["date_end" := PIso E]>
             (<["date_start" := PIso ST]>
                {["method" := PStr "submit_sales_request"]}) in
         report_id <- report_import report_binding_model b filters;;
         match report_id with
         | Some report_ids =>
             now <- datetime_now;;
             let delayable :=
               with_delay 3 (now + timedelta_minutes 5) report_binding_model in
             let filters : pydict :=
               <["report_id" := PList [report_ids]]>
                 {["method" := PStr "get_sales"]} in
             name <- field b bk_name;;
             let delayable :=
               set_description
                 (String.append "Generate sales report to: " name) delayable in
             emit (EvImportBatch delayable b filters)
         | None => ret tt
         end)
   else (sale_binding_model <- as_user user (env_model "amazon.sale.order");;
         let filters : pydict :=
           <["date_end" := PIso E]> {["date_start" := PIso ST]} in
         emit (EvImportBatch sale_binding_model b filters)))
    (world_with n tb t w0)
  = Ok tt
      (world_with (import_reads gr w0 n b ST E) tb
         (t ++ import_events gr w0 n b (bk_name r)
                 (if user =? uid w0 then env_model "amazon.sale.order"
                  else sudo user (env_model "amazon.sale.order")) ST E) w0).
Proof.
  unfold import_events, import_reads. destruct gr; cbv zeta.
  - fold (report_filters ST E). unfold report_import.
    rewrite (bind_run _ _ (world_with n tb t w0)
               (report_import_batch w0 b (report_filters ST E))
               (world_with n tb (t ++ [EvImportBatch (env_model "amazon.report")
                                         b (report_filters ST E)]) w0))
      by reflexivity.
    destruct (report_import_batch w0 b (report_filters ST E)) as [ids|].
    + rewrite (bind_run _ _ _ _ _ (datetime_now_ww _ _ _ _)).
      rewrite (bind_run _ _ _ _ _ (field_ww _ _ _ _ bk_name b r Hr)).
      rewrite emit_ww. now rewrite <- app_assoc.
    + reflexivity.
  - rewrite (bind_run _ _ _ _ _ (as_user_ww _ _ _ _ _ _)). now rewrite emit_ww.
Qed.

Lemma update_ww (upd : bool) (E : datetime) :
  (if upd
   then write b "import_sales_from_date" set_import_sales_from_date
          (Some (to_string E))
   else ret tt) (world_with n tb t w0)
  = Ok tt (world_with n (update_table upd b E tb)
             (t ++ update_events upd b E) w0).
Proof.
  unfold update_table, update_events. destruct upd.
  - now rewrite (write_ww n tb t w0 _ _ _ _ r Hr).
  - unfold ret. now rewrite app_nil_r.
Qed.

End Turn.

(** One turn of [_import_sale_orders] on an existing record, in full. *)
Lemma import_sale_orders_body_ww (b : Z) (r : backend_row)
    (st en : option datetime) (gr upd : bool)
    (n : nat) (tb : list backend_row) (t : list event) (w0 : world) :
  find_row b tb = Some r ->
  let E := end_at en (clock w0 n) in
  let ST := effective_start st (import_sales_from_date r) E in
  let n1 := match en with Some _ => n | None => S n end in
  _import_sale_orders_body b st en gr upd (world_with n tb t w0)
  = Ok (Some ST, Some E)
      (world_with (import_reads gr w0 n1 b ST E)
         (update_table upd b E (synced_table b r tb))
         (t ++ synced_events b r
          ++ import_events gr w0 n1 b (bk_name r)
               (binding_for (world_with n tb t w0) "amazon.sale.order" b) ST E
          ++ update_events upd b E) w0).
Proof.
  intros Hr E ST n1. unfold _import_sale_orders_body.
  pose proof (synced_find b r tb Hr) as Hr1.
  rewrite (bind_run _ _ _ _ _ (tech_user_ww n tb t w0 b r Hr)).
  rewrite (bind_run _ _ _ _ _
             (field_ww n tb t w0 import_updated_sales_from_date b r Hr)).
  rewrite (bind_run _ _ _ _ _ (sync_ww n tb t w0 b r Hr)).
  rewrite (bind_run _ _ _ _ _ (end_time_ww _ _ _ _ en)).
  rewrite (bind_run _ _ _ _ _ (start_time_ww _ _ _ _ b (synced r) Hr1 st _)).
  rewrite synced_import_sales_from_date.
  rewrite (bind_run _ _ _ _ _ (import_ww _ _ _ _ b (synced r) Hr1 gr _ _ _)).
  rewrite (bind_run _ _ _ _ _ (update_ww _ _ _ _ b (synced r) Hr1 upd _)).
  unfold ret. rewrite synced_bk_name, binding_for_ww, Hr.
  fold E. fold ST. fold n1. rewrite <- !app_assoc. do 4 f_equal.
  destruct (user_tech_id r) as [u|]; [reflexivity|].
  now rewrite Z.eqb_refl.
Qed.


(** ** The whole loop of [_import_sale_orders] *)

Lemma import_then_write_app_r b v evs more :
  import_then_write b v evs -> import_then_write b v (evs ++ more).
Proof.
  intros (l1 & m & f & l2 & l3 & ->). exists l1, m, f, l2, (l3 ++ more).
  rewrite <- app_assoc. cbn. now rewrite <- app_assoc.
Qed.

Lemma import_then_write_app_l b v evs before :
  import_then_write b v evs -> import_then_write b v (before ++ evs).
Proof.
  intros (l1 & m & f & l2 & l3 & ->). exists (before ++ l1), m, f, l2, l3.
  now rewrite <- app_assoc.
Qed.

Lemma find_row_update_is_Some b b' f tb :
  (forall r, bk_id (f r) = bk_id r) ->
  is_Some (find_row b' (update_row b f tb)) <-> is_Some (find_row b' tb).
Proof.
  intros Hf. rewrite find_row_update by exact Hf.
  destruct (find_row b' tb); cbn; split; intros [x Hx]; eauto; discriminate.
Qed.

Lemma turn_is_Some b r upd E tb b' :
  is_Some (find_row b' (update_table upd b E (synced_table b r tb)))
  <-> is_Some (find_row b' tb).
Proof.
  unfold update_table, synced_table.
  destruct upd, (is_set (import_updated_sales_from_date r));
    rewrite ?find_row_update_is_Some by (intros; reflexivity); reflexivity.
Qed.

Lemma from_date_synced b r tb b' :
  from_date (synced_table b r tb) b' = from_date tb b'.
Proof.
  unfold from_date, synced_table.
  destruct (is_set (import_updated_sales_from_date r)); [reflexivity|].
  rewrite find_row_update by (intros; reflexivity).
  destruct (find_row b' tb) as [x|]; [|reflexivity]. cbn.
  now destruct (bk_id x =? b).
Qed.

Lemma from_date_update_same b v tb :
  is_Some (find_row b tb) ->
  from_date (update_row b (set_import_sales_from_date v) tb) b = Some v.
Proof.
  intros [x Hx]. unfold from_date.
  now rewrite (find_row_update_same b _ tb x) by (try intros ?; easy).
Qed.

Lemma from_date_update_other b b' v tb :
  b' <> b ->
  from_date (update_row b (set_import_sales_from_date v) tb) b'
  = from_date tb b'.
Proof.
  intros Hne. unfold from_date.
  now rewrite find_row_update_other by (try intros ?; easy).
Qed.

Lemma import_events_head gr w n b name m ST E :
  exists m' f l,
    import_events gr w n b name m ST E = EvImportBatch m' b f :: l.
Proof. unfold import_events. destruct gr; eauto. Qed.

Lemma turn_import_then_write b r gr w n name m ST E :
  import_then_write b (Some (to_string E))
    (synced_events b r ++ import_events gr w n b name m ST E
     ++ update_events true b E).
Proof.
  destruct (import_events_head gr w n b name m ST E) as (m' & f & l & ->).
  now exists (synced_events b r), m', f, l, [].
Qed.

Lemma import_sale_orders_loop_ww (self : list Z) (gr upd : bool) (w0 : world) :
  forall (st en : option datetime) (n : nat) (tb : list backend_row)
         (t : list event),
    Forall (fun b => is_Some (find_row b tb)) self ->
    let E := end_at en (clock w0 n) in
    exists n' tb' t',
      _import_sale_orders_loop self st en gr upd (world_with n tb t w0)
      = Ok tt (world_with n' tb' (t ++ t') w0)
      /\ (forall b, is_Some (find_row b tb') <-> is_Some (find_row b tb))
      /\ (upd = true -> forall b, In b self ->
          from_date tb' b = Some (Some (to_string E))
          /\ import_then_write b (Some (to_string E)) t')
      /\ (forall b, upd = false \/ ~ In b self ->
          from_date tb' b = from_date tb b).
Proof.
  induction self as [|b rest IH]; intros st en n tb t Hex E.
  - exists n, tb, []. rewrite app_nil_r.
    split; [reflexivity|]. split; [reflexivity|].
    split; [intros _ b []|reflexivity].
  - inversion Hex as [|? ? [r Hr] Hrest]; subst.
    cbn [_import_sale_orders_loop].
    rewrite (bind_run _ _ _ _ _
               (import_sale_orders_body_ww b r st en gr upd n tb t w0 Hr)).
    cbn [fst snd]. fold E.
    set (ST := effective_start st (import_sales_from_date r) E).
    set (n1 := match en with Some _ => n | None => S n end).
    set (tb1 := update_table upd b E (synced_table b r tb)).
    set (tbody := synced_events b r
                  ++ import_events gr w0 n1 b (bk_name r)
                       (binding_for (world_with n tb t w0)
                          "amazon.sale.order" b) ST E
                  ++ update_events upd b E).
    assert (Forall (fun b0 => is_Some (find_row b0 tb1)) rest) as Hrest1.
    { eapply List.Forall_impl; [|exact Hrest]. intros b0 H0.
      now apply turn_is_Some. }
    destruct (IH (Some ST) (Some E) (import_reads gr w0 n1 b ST E) tb1
                (t ++ tbody) Hrest1)
      as (n' & tb' & t' & Hrun & Hsome & Hupd & Hframe).
    cbn [end_at] in Hupd.
    exists n', tb', (tbody ++ t'). rewrite app_assoc. split; [exact Hrun|].
    split; [|split].
    + intros b0. rewrite Hsome. apply turn_is_Some.
    + intros -> b0 Hin. destruct (in_dec Z.eq_dec b0 rest) as [Hr0|Hr0].
      * destruct (Hupd eq_refl b0 Hr0) as [H1 H2]. split; [exact H1|].
        now apply import_then_write_app_l.
      * destruct Hin as [<-|Hin]; [|easy]. split.
        -- rewrite (Hframe b (or_intror Hr0)). unfold tb1, update_table.
           apply from_date_update_same.
           apply (proj2 (turn_is_Some b r false E tb b)). now exists r.
        -- apply import_then_write_app_r. apply turn_import_then_write.
    + intros b0 Hb0.
      rewrite Hframe by (destruct Hb0 as [H|H]; [now left|right; intros H';
                                                   apply H; now right]).
      unfold tb1, update_table. destruct Hb0 as [->|Hb0].
      * apply from_date_synced.
      * destruct upd; [|apply from_date_synced].
        rewrite from_date_update_other; [apply from_date_synced|].
        intros ->. apply Hb0. now left.
Qed.


(** ** [_import_sale_orders] as a whole *)

Lemma added_world_with n tb t' w :
  added w (world_with n tb (trace w ++ t') w) = t'.
Proof. now apply added_app. Qed.

Lemma import_sale_orders_loop_run (self : list Z) (st en : option datetime)
    (gr upd : bool) (w : world) :
  exist self w ->
  let E := effective_end en w in
  exists n' tb' t',
    _import_sale_orders_loop self st en gr upd w
    = Ok tt (world_with n' tb' (trace w ++ t') w)
    /\ (forall b, is_Some (find_row b tb') <-> is_Some (browse b w))
    /\ (upd = true -> forall b, In b self ->
        from_date tb' b = Some (Some (to_string E))
        /\ import_then_write b (Some (to_string E)) t')
    /\ (forall b, upd = false \/ ~ In b self ->
        from_date tb' b = stored import_sales_from_date w b).
Proof.
  intros Hex E.
  pose proof (import_sale_orders_loop_ww self gr upd w st en (reads w)
                (amazon_backend w) (trace w) Hex) as H.
  rewrite world_with_id in H. exact H.
Qed.

Lemma default_end_whole_second now :
  strptime_text (to_string (strftime_strptime now - timedelta_minutes 2))
  = strftime_strptime now - timedelta_minutes 2.
Proof.
  unfold strptime_text, to_string, strftime_strptime, timedelta_minutes, MICRO.
  replace (now / 1000000 * 1000000 - 2 * 60 * 1000000)
    with ((now / 1000000 - 120) * 1000000) by lia.
  now rewrite Z.div_mul by lia.
Qed.

(** C3: on a record set whose records exist, [_import_sale_orders] returns
    [True].  With [update_import_date=True] every backend of the set ends
    with [import_sales_from_date] holding the end time of the import window
    (in the text form the ORM stores; for the defaulted end time that text
    reads back as the very same time), and the trace has that write after
    an [import_batch] on the same backend; the field of every other backend
    is as before.  With [update_import_date=False] the field of every
    backend is as before. *)
Theorem import_sale_orders_update_import_date (self : list Z)
    (st en : option datetime) (gr upd : bool) (w : world) :
  exist self w ->
  let E := effective_end en w in
  exists w',
    _import_sale_orders self st en gr upd w = Ok true w'
    /\ (upd = true -> forall b, In b self ->
        stored import_sales_from_date w' b = Some (Some (to_string E))
        /\ import_then_write b (Some (to_string E)) (added w w'))
    /\ (forall b, upd = false \/ ~ In b self ->
        stored import_sales_from_date w' b = stored import_sales_from_date w b)
    /\ (en = None -> strptime_text (to_string E) = E).
Proof.
  intros Hex E.
  destruct (import_sale_orders_loop_run self st en gr upd w Hex)
    as (n' & tb' & t' & Hrun & _ & Hupd & Hframe).
  exists (world_with n' tb' (trace w ++ t') w).
  unfold _import_sale_orders. rewrite (bind_run _ _ _ _ _ Hrun).
  split; [reflexivity|]. rewrite added_world_with.
  split; [exact Hupd|]. split; [exact Hframe|].
  intros ->. apply default_end_whole_second.
Qed.


(** ** The defaulted import window *)

Lemma window_filters_start gr ST E :
  window_filters gr ST E !! "date_start" = Some (PIso ST).
Proof. destruct gr; reflexivity. Qed.

Lemma window_filters_end gr ST E :
  window_filters gr ST E !! "date_end" = Some (PIso E).
Proof. destruct gr; reflexivity. Qed.

Lemma import_events_first gr w n b name m ST E :
  exists m' l,
    import_events gr w n b name m ST E
    = EvImportBatch m' b (window_filters gr ST E) :: l.
Proof. unfold import_events, window_filters. destruct gr; eauto. Qed.

Lemma synced_events_no_import b r :
  Forall (fun e => is_import e = false) (synced_events b r).
Proof.
  unfold synced_events. destruct (is_set _); repeat constructor.
Qed.

(** C6 (as amended): on a record set whose records exist,
    [_import_sale_orders] returns [True], and the first [import_batch] it
    makes is for the first backend.  The window of that import ends at the
    end time given and, with none given, at the clock reading cut to its
    second minus two minutes; it starts at the start time given and, with
    none given, at the stored [import_sales_from_date] of that backend
    when set and at the end time otherwise.  Each default hangs on its own
    argument only.  With no start time given, the start is not after the
    end exactly when the field is unset or its date is not after that end
    time. *)
Theorem import_sale_orders_default_window (b : Z) (rest : list Z)
    (r : backend_row) (st en : option datetime) (gr upd : bool) (w : world) :
  exist (b :: rest) w ->
  browse b w = Some r ->
  let E := match en with
           | Some e => e
           | None => strftime_strptime (clock w (reads w)) - timedelta_minutes 2
           end in
  let ST := match st with
            | Some s => s
            | None => match import_sales_from_date r with
                      | Some s => strptime_text s
                      | None => E
                      end
            end in
  exists w' l1 m f l2,
    _import_sale_orders (b :: rest) st en gr upd w = Ok true w'
    /\ added w w' = l1 ++ EvImportBatch m b f :: l2
    /\ Forall (fun e => is_import e = false) l1
    /\ f !! "date_start" = Some (PIso ST)
    /\ f !! "date_end" = Some (PIso E)
    /\ (st = None ->
        (ST <= E <-> match import_sales_from_date r with
                     | Some s => strptime_text s <= E
                     | None => True
                     end)).
Proof.
  intros Hex Hr E ST. inversion Hex as [|? ? _ Hrest]; subst.
  unfold _import_sale_orders. cbn [_import_sale_orders_loop].
  pose proof (import_sale_orders_body_ww b r st en gr upd (reads w)
                (amazon_backend w) (trace w) w Hr) as Hbody.
  rewrite world_with_id in Hbody. cbv zeta in Hbody.
  change (end_at en (clock w (reads w))) with E in Hbody.
  change (effective_start st (import_sales_from_date r) E) with ST in Hbody.
  set (n1 := match en with Some _ => reads w | None => S (reads w) end) in *.
  match type of Hbody with
  | _ = Ok _ (world_with ?n ?tb (_ ++ ?t) _) =>
      set (tbody := t) in *;
      destruct (import_sale_orders_loop_ww rest gr upd w (Some ST) (Some E)
                  n tb (trace w ++ tbody))
        as (n' & tb' & t' & Hrun & _)
  end.
  { eapply List.Forall_impl; [|exact Hrest]. intros b0 H0.
    now apply turn_is_Some. }
  rewrite (bind_run _ _ w tt
             (world_with n' tb' ((trace w ++ tbody) ++ t') w)).
  2:{ rewrite (bind_run _ _ _ _ _ Hbody). exact Hrun. }
  destruct (import_events_first gr w n1 b (bk_name r)
              (binding_for w "amazon.sale.order" b) ST E) as (m' & l & Hev).
  exists (world_with n' tb' ((trace w ++ tbody) ++ t') w).
  exists (synced_events b r), m', (window_filters gr ST E),
    (l ++ update_events upd b E ++ t').
  split; [reflexivity|]. split.
  - apply added_app. cbn [trace world_with set_reads set_trace
                          set_amazon_backend].
    unfold tbody. rewrite Hev. rewrite <- !app_assoc. reflexivity.
  - split; [apply synced_events_no_import|].
    split; [apply window_filters_start|]. split; [apply window_filters_end|].
    intros ->. unfold ST. destruct (import_sales_from_date r); [reflexivity|].
    split; [easy|intros _; lia].
Qed.


(** ** [_import_updated_sales] *)

Lemma updated_start_ww (st : option datetime) (b : Z) (r : backend_row)
    (E : datetime) n tb t w0 :
  find_row b tb = Some r ->
  match st with
  | Some s => ret s
  | None =>
      from <- field b import_sales_from_date;;
      if is_set from
      then (updated <- field b import_updated_sales_from_date;;
            strptime updated)
      else ret E
  end (world_with n tb t w0)
  = match updated_start st r E with
    | Some s => Ok s (world_with n tb t w0)
    | None => Err TypeError (world_with n tb t w0)
    end.
Proof.
  intros Hr. unfold updated_start. destruct st as [s|]; [reflexivity|].
  rewrite (bind_run _ _ _ _ _ (field_ww n tb t w0 import_sales_from_date b r Hr)).
  destruct (is_set (import_sales_from_date r)); [|reflexivity].
  rewrite (bind_run _ _ _ _ _
             (field_ww n tb t w0 import_updated_sales_from_date b r Hr)).
  now destruct (import_updated_sales_from_date r).
Qed.

Lemma updated_write_ww (upd : bool) (b : Z) (r : backend_row) (E : datetime)
    n tb t w0 :
  find_row b tb = Some r ->
  (if upd
   then write b "import_updated_sales_from_date"
          set_import_updated_sales_from_date (Some (to_string E))
   else ret tt) (world_with n tb t w0)
  = Ok tt (world_with n (updated_table upd b E tb)
             (t ++ updated_events upd b E) w0).
Proof.
  intros Hr. unfold updated_table, updated_events. destruct upd.
  - now rewrite (write_ww n tb t w0 _ _ _ _ r Hr).
  - unfold ret. now rewrite app_nil_r.
Qed.

(** One turn of [_import_updated_sales] on an existing record, in full. *)
Lemma import_updated_sales_body_ww (b : Z) (r : backend_row)
    (st en : option datetime) (upd : bool)
    (n : nat) (tb : list backend_row) (t : list event) (w0 : world) :
  find_row b tb = Some r ->
  let E := end_at en (clock w0 n) in
  let n1 := match en with Some _ => n | None => S n end in
  _import_updated_sales_body b st en upd (world_with n tb t w0)
  = match updated_start st r E with
    | Some ST =>
        Ok (Some ST, Some E)
          (world_with n1 (updated_table upd b E tb)
             (t ++ EvImportBatch
                     (binding_for (world_with n tb t w0) "amazon.sale.order" b)
                     b (updated_filters ST E)
                   :: updated_events upd b E) w0)
    | None => Err TypeError (world_with n1 tb t w0)
    end.
Proof.
  intros Hr E n1. unfold _import_updated_sales_body.
  rewrite (bind_run _ _ _ _ _ (tech_user_ww n tb t w0 b r Hr)).
  rewrite (bind_run _ _ _ _ _ (as_user_ww _ _ _ _ _ _)).
  rewrite (bind_run _ _ _ _ _ (end_time_ww _ _ _ _ en)).
  fold E. fold n1.
  pose proof (updated_start_ww st b r E n1 tb t w0 Hr) as Hst.
  destruct (updated_start st r E) as [ST|].
  - rewrite (bind_run _ _ _ _ _ Hst). cbv zeta.
    rewrite (bind_run _ _ _ _ _ (emit_ww _ _ _ _ _)).
    rewrite (bind_run _ _ _ _ _ (updated_write_ww upd b r E _ _ _ _ Hr)).
    unfold ret. rewrite binding_for_ww, Hr. rewrite <- app_assoc.
    do 4 f_equal. destruct (user_tech_id r) as [u|]; [reflexivity|].
    now rewrite Z.eqb_refl.
  - now rewrite (bind_err _ _ _ _ _ Hst).
Qed.

Lemma updated_is_Some b upd E tb b' :
  is_Some (find_row b' (updated_table upd b E tb)) <-> is_Some (find_row b' tb).
Proof.
  unfold updated_table. destruct upd; [|reflexivity].
  now apply find_row_update_is_Some.
Qed.

(** Once the start time is set, no later turn parses a date: the loop runs
    to its end. *)
Lemma import_updated_sales_started (self : list Z) (upd : bool) (w0 : world) :
  forall (s : datetime) (en : option datetime) (n : nat)
         (tb : list backend_row) (t : list event),
    Forall (fun b => is_Some (find_row b tb)) self ->
    exists n' tb' t',
      _import_updated_sales self (Some s) en upd (world_with n tb t w0)
      = Ok tt (world_with n' tb' (t ++ t') w0).
Proof.
  induction self as [|b rest IH]; intros s en n tb t Hex.
  - exists n, tb, []. now rewrite app_nil_r.
  - inversion Hex as [|? ? [r Hr] Hrest]; subst.
    cbn [_import_updated_sales].
    rewrite (bind_run _ _ _ _ _
               (import_updated_sales_body_ww b r (Some s) en upd n tb t w0 Hr)).
    cbn [fst snd].
    match goal with
    | |- context [world_with ?n1 ?tb1 (t ++ ?t1) w0] =>
        destruct (IH s (Some (end_at en (clock w0 n))) n1 tb1 (t ++ t1))
          as (n' & tb' & t' & Hrun);
        [|exists n', tb', (t1 ++ t'); rewrite app_assoc; exact Hrun]
    end.
    eapply List.Forall_impl; [|exact Hrest]. intros b0 H0.
    now apply updated_is_Some.
Qed.

(** The first turn of [_import_updated_sales] called with no start time on
    a record set whose records exist, [r] being the row of its first
    backend: the start time is chosen as the method's text says.  When
    [import_sales_from_date] of [r] is unset, the first import has its
    start equal to its end, whatever [import_updated_sales_from_date]
    holds.  When [import_sales_from_date] is set and
    [import_updated_sales_from_date] is not, the call raises [TypeError]
    with nothing imported and nothing written.  When both are set, the
    start is the stored [import_updated_sales_from_date]. *)
Theorem import_updated_sales_start_time (b : Z) (rest : list Z)
    (r : backend_row) (en : option datetime) (upd : bool) (w : world) :
  exist (b :: rest) w ->
  browse b w = Some r ->
  let E := effective_end en w in
  let run := _import_updated_sales (b :: rest) None en upd w in
  match import_sales_from_date r, import_updated_sales_from_date r with
  | None, _ =>
      exists w' m l,
        run = Ok tt w'
        /\ added w w' = EvImportBatch m b (updated_filters E E) :: l
  | Some _, None =>
      exists w',
        run = Err TypeError w'
        /\ amazon_backend w' = amazon_backend w
        /\ trace w' = trace w
  | Some _, Some u =>
      exists w' m l,
        run = Ok tt w'
        /\ added w w'
           = EvImportBatch m b (updated_filters (strptime_text u) E) :: l
  end.
Proof.
  intros Hex Hr E run. inversion Hex as [|? ? _ Hrest]; subst.
  unfold run. cbn [_import_updated_sales].
  pose proof (import_updated_sales_body_ww b r None en upd (reads w)
                (amazon_backend w) (trace w) w Hr) as Hbody.
  rewrite world_with_id in Hbody. cbn zeta in Hbody.
  change (end_at en (clock w (reads w))) with E in Hbody.
  unfold updated_start in Hbody.
  assert (forall ST,
            _import_updated_sales_body b None en upd w
            = Ok (Some ST, Some E)
                (world_with
                   (match en with Some _ => reads w | None => S (reads w) end)
                   (updated_table upd b E (amazon_backend w))
                   (trace w
                    ++ EvImportBatch (binding_for w "amazon.sale.order" b) b
                         (updated_filters ST E) :: updated_events upd b E) w) ->
            exists w' m l,
              (times <- _import_updated_sales_body b None en upd;;
               _import_updated_sales rest (fst times) (snd times) upd) w
              = Ok tt w'
              /\ added w w' = EvImportBatch m b (updated_filters ST E) :: l)
    as Hok.
  { intros ST H. rewrite (bind_run _ _ _ _ _ H). cbn [fst snd].
    match goal with
    | |- context [world_with ?n1 ?tb1 (trace w ++ ?t1) w] =>
        destruct (import_updated_sales_started rest upd w ST (Some E) n1 tb1
                    (trace w ++ t1)) as (n' & tb' & t' & Hrun)
    end.
    { eapply List.Forall_impl; [|exact Hrest]. intros b0 H0.
      now apply updated_is_Some. }
    eexists _, _, _. split; [exact Hrun|].
    apply added_app. cbn [trace world_with set_reads set_trace
                          set_amazon_backend].
    rewrite <- app_assoc. reflexivity. }
  destruct (import_sales_from_date r) as [s|];
    [destruct (import_updated_sales_from_date r) as [u|]|];
    cbn [is_set option_map] in Hbody.
  - now apply Hok.
  - eexists. rewrite (bind_err _ _ _ _ _ Hbody). now split.
  - destruct (import_updated_sales_from_date r); now apply Hok.
Qed.


(** ** [_scheduler_import_sale_orders] *)

Lemma search_matched d w : search (default_domain d) w = Ok (matched d w) w.
Proof. reflexivity. Qed.

Lemma getattr_import_sale_orders w :
  getattr "_import_sale_orders" w
  = Ok (fun self => _import_sale_orders self None None false true;; ret tt) w.
Proof. reflexivity. Qed.

Lemma getattr_import_updated_sales w :
  getattr "_import_updated_sales" w
  = Ok (fun self => _import_updated_sales self None None true) w.
Proof. reflexivity. Qed.

Lemma amazon_backend_trace cb d w m :
  getattr cb w = Ok m w ->
  (forall self, quiet (m self)) ->
  exists l,
    Forall (fun e => is_call e = false) l
    /\ trace (world_of (_amazon_backend cb d w))
       = trace w ++ call_events cb (matched d w) ++ l.
Proof.
  intros Hg Hq. pose proof (search_matched d w) as Hs.
  destruct (matched d w) as [|b rest] eqn:E.
  - rewrite (amazon_backend_none _ _ _ Hs). exists []. split; [constructor|].
    cbn. now rewrite app_nil_r.
  - rewrite (amazon_backend_call _ _ _ _ m Hs) by easy.
    destruct (Hq (b :: rest)
                (set_trace (trace w ++ [EvCall cb (b :: rest)]) w))
      as (l & Ht & Hf).
    exists l. split; [exact Hf|]. rewrite Ht. cbn [trace set_trace].
    now rewrite <- app_assoc.
Qed.

Lemma import_sale_orders_total (self : list Z) (w : world) :
  exist self w ->
  exists w', _import_sale_orders self None None false true w = Ok true w'.
Proof.
  intros Hex.
  destruct (import_sale_orders_loop_run self None None false true w Hex)
    as (n' & tb' & t' & Hrun & _).
  eexists. unfold _import_sale_orders. now rewrite (bind_run _ _ _ _ _ Hrun).
Qed.

(** The scheduled job as two dispatches, for every domain.  The first, the
    dispatch of [_import_sale_orders] on what the domain matches, always
    runs to its end; the second, the dispatch of [_import_updated_sales]
    on what the same domain matches then, starts from the world the first
    step left and is the rest of the job.  In the trace the events of the
    first step -- the one call of [_import_sale_orders] on the whole
    matched set, when it is not empty, and what that call does -- come
    before those of the second, and there is no other call. *)
Theorem scheduler_import_sale_orders_two_steps (d : option domain) (w : world) :
  exists w1 l1 l2,
    _amazon_backend "_import_sale_orders" d w = Ok tt w1
    /\ _scheduler_import_sale_orders d w
       = _amazon_backend "_import_updated_sales" d w1
    /\ match matched d w with
       | [] => w1 = w
       | backends =>
           _import_sale_orders backends None None false true
             (set_trace (trace w ++ [EvCall "_import_sale_orders" backends]) w)
           = Ok true w1
       end
    /\ _amazon_backend "_import_updated_sales" d w1
       = match matched d w1 with
         | [] => Ok tt w1
         | backends =>
             _import_updated_sales backends None None true
               (set_trace
                  (trace w1 ++ [EvCall "_import_updated_sales" backends]) w1)
         end
    /\ trace w1
       = trace w ++ call_events "_import_sale_orders" (matched d w) ++ l1
    /\ trace (world_of (_scheduler_import_sale_orders d w))
       = trace w1 ++ call_events "_import_updated_sales" (matched d w1) ++ l2
    /\ Forall (fun e => is_call e = false) l1
    /\ Forall (fun e => is_call e = false) l2.
Proof.
  assert (exists w1,
             _amazon_backend "_import_sale_orders" d w = Ok tt w1
             /\ match matched d w with
                | [] => w1 = w
                | backends =>
                    _import_sale_orders backends None None false true
                      (set_trace
                         (trace w ++ [EvCall "_import_sale_orders" backends]) w)
                    = Ok true w1
                end) as (w1 & Hstep & Hshape).
  { pose proof (search_matched d w) as Hs.
    pose proof (search_exist _ _ _ Hs) as Hex.
    destruct (matched d w) as [|b rest] eqn:E.
    - exists w. split; [now apply amazon_backend_none|reflexivity].
    - destruct (import_sale_orders_total (b :: rest)
                  (set_trace
                     (trace w ++ [EvCall "_import_sale_orders" (b :: rest)]) w))
        as (w1 & H1); [exact Hex|].
      exists w1. split; [|exact H1].
      rewrite (amazon_backend_call _ _ _ _ _ Hs ltac:(easy)
                 (getattr_import_sale_orders w)).
      now rewrite (bind_run _ _ _ _ _ H1). }
  destruct (amazon_backend_trace "_import_sale_orders" d w _
              (getattr_import_sale_orders w)) as (l1 & Hf1 & Ht1).
  { intros self. apply quiet_bind; [apply quiet_import_sale_orders|].
    intros; apply quiet_ret. }
  destruct (amazon_backend_trace "_import_updated_sales" d w1 _
              (getattr_import_updated_sales w1)) as (l2 & Hf2 & Ht2).
  { intros self. apply quiet_import_updated_sales. }
  rewrite Hstep in Ht1. cbn [world_of] in Ht1.
  assert (_scheduler_import_sale_orders d w
          = _amazon_backend "_import_updated_sales" d w1) as Hsched.
  { unfold _scheduler_import_sale_orders. now rewrite (bind_run _ _ _ _ _ Hstep). }
  exists w1, l1, l2. split; [exact Hstep|]. split; [exact Hsched|].
  split; [exact Hshape|]. split.
  - pose proof (search_matched d w1) as Hs1.
    destruct (matched d w1) as [|b rest] eqn:E.
    + now apply amazon_backend_none.
    + now apply (amazon_backend_call _ _ _ _ _ Hs1 ltac:(easy)
                   (getattr_import_updated_sales w1)).
  - split; [exact Ht1|]. rewrite Hsched. split; [exact Ht2|]. now split.
Qed.

(** * Further properties *)

(** ** [work_on] *)

(** X1: on a record set that is not one record, [work_on] raises
    [ValueError] at once: no client is built, no context is opened and the
    block is not run. *)
Theorem work_on_not_single {A} (self : list Z) (model : string)
    (block : work -> M A) (w : world) :
  length self <> 1%nat ->
  work_on self model block w = Err ValueError w.
Proof.
  intros Hlen. destruct self as [|b [|c l]]; [reflexivity| |reflexivity].
  now contradiction Hlen.
Qed.

(** X2: on one record, [work_on] enters the Amazon API client and then the
    work context, runs the block there, and leaves both, inner first,
    whether the block returns or raises; the outcome is the block's. *)
Theorem work_on_brackets {A} (b : Z) (model : string) (block : work -> M A)
    (w : world) :
  let k := {| w_backend := b; w_model := model |} in
  let w1 :=
    set_trace (trace w ++ [EvAmazonAPIEnter b; EvWorkOnEnter b model]) w in
  work_on [b] model block w
  = match block k w1 with
    | Ok a w2 => Ok a (leave b model w2)
    | Err e w2 => Err e (leave b model w2)
    end.
Proof.
  intros k w1. unfold work_on, ensure_one.
  rewrite (bind_run _ _ w b w) by reflexivity.
  rewrite (bind_run _ _ w tt (set_trace (trace w ++ [EvAmazonAPIEnter b]) w))
    by reflexivity.
  unfold finally at 1.
  rewrite (bind_run _ _ _ tt w1).
  2:{ unfold emit, w1. cbn [trace set_trace]. rewrite set_trace_twice.
      now rewrite <- app_assoc. }
  unfold finally, emit, leave. fold k.
  destruct (block k w1) as [a w2|e w2]; cbn [trace set_trace];
    rewrite set_trace_twice, <- app_assoc; reflexivity.
Qed.


(** ** The fix and feed jobs *)

Lemma fix_amazon_data_run (b : Z) (rest : list Z) (w : world) :
  is_Some (browse b w) ->
  _fix_amazon_data (b :: rest) w
  = Ok true
      (set_trace
         (trace w ++ [EvRunDelayedJobs (binding_for w "amazon.fix.data" b) b])
         w).
Proof.
  intros [r Hr]. unfold _fix_amazon_data.
  pose proof (binding_run b r "amazon.fix.data" w Hr) as Hb.
  unfold bind in Hb. unfold bind.
  destruct (tech_user b w) as [u w1|e w1]; [|discriminate].
  destruct (as_user u (env_model "amazon.fix.data") w1) as [m w2|e w2];
    [|discriminate].
  now injection Hb as -> ->.
Qed.

Lemma getattr_fix_amazon_data w :
  getattr "_fix_amazon_data" w
  = Ok (fun self => _fix_amazon_data self;; ret tt) w.
Proof. reflexivity. Qed.

Lemma getattr_throw_feeds w : getattr "_throw_feeds" w = Ok _throw_feeds w.
Proof. reflexivity. Qed.

(** X3: however many backends the domain matches, the scheduled fix job
    hands [run_delayed_jobs] the first of them only: after the call of
    [_fix_amazon_data] on the whole matched set the trace has one event,
    for the head of the set. *)
Theorem scheduler_fix_data_first_matched_only (d : option domain) (w : world)
    (b : Z) (rest : list Z) :
  search (default_domain d) w = Ok (b :: rest) w ->
  exists w',
    _scheduler_connector_amazon_fix_data d w = Ok tt w'
    /\ trace w'
       = trace w
         ++ [ EvCall "_fix_amazon_data" (b :: rest);
              EvRunDelayedJobs (binding_for w "amazon.fix.data" b) b ]
    /\ amazon_backend w' = amazon_backend w.
Proof.
  intros Hs. pose proof (search_exist _ _ _ Hs) as Hex.
  inversion Hex as [|? ? Hb _]; subst.
  unfold _scheduler_connector_amazon_fix_data.
  rewrite (amazon_backend_call _ _ _ _ _ Hs ltac:(easy)
             (getattr_fix_amazon_data w)).
  cbv beta.
  rewrite (bind_run _ _ _ _ _
             (fix_amazon_data_run b rest
                (set_trace (trace w ++ [EvCall "_fix_amazon_data" (b :: rest)])
                   w) Hb)).
  eexists. split; [reflexivity|]. split; [|reflexivity].
  cbn [trace set_trace]. now rewrite <- app_assoc.
Qed.

(** X4: the scheduled feed job submits the feeds of every matched backend,
    once each and in order, each inside its own work context; it changes
    no table. *)
Theorem scheduler_throw_feeds_each_matched (d : option domain) (w : world)
    (backends : list Z) :
  search (default_domain d) w = Ok backends w ->
  backends <> [] ->
  exists w',
    _scheduler_throw_feeds d w = Ok tt w'
    /\ trace w'
       = trace w ++ EvCall "_throw_feeds" backends
                    :: flat_map (feed_events w) backends
    /\ amazon_backend w' = amazon_backend w
    /\ length (List.filter is_submit_feeds (added w w')) = length backends.
Proof.
  intros Hs Hne. pose proof (search_exist _ _ _ Hs) as Hex.
  unfold _scheduler_throw_feeds.
  rewrite (amazon_backend_call _ _ _ _ _ Hs Hne (getattr_throw_feeds w)).
  rewrite throw_feeds_run by exact Hex.
  rewrite set_trace_twice, feed_events_set_trace. cbn [trace set_trace].
  eexists. split; [reflexivity|]. cbn [trace set_trace amazon_backend].
  rewrite <- app_assoc. split; [reflexivity|]. split; [reflexivity|].
  rewrite (added_app w _ (EvCall "_throw_feeds" backends
                          :: flat_map (feed_events w) backends))
    by reflexivity.
  cbn [List.filter is_submit_feeds]. clear.
  induction backends as [|b rest IH]; [reflexivity|]. cbn. now rewrite IH.
Qed.


(** ** [_throw_delayed_jobs_for_price_changess] *)

Lemma throw_messages_ww (messages : list message_row) (w0 : world)
    (tb : list backend_row) :
  forall (i : Z) (n : nat) (t : list event),
    throw_messages messages i (world_with n tb t w0)
    = Ok tt (world_with (n + 2 * length messages) tb
               (t ++ job_events (clock w0) n i messages) w0).
Proof.
  induction messages as [|m rest IH]; intros i n t.
  - cbn. unfold ret. now rewrite app_nil_r, Nat.add_0_r.
  - cbn [throw_messages job_events length].
    rewrite (bind_run _ _ _ _ _ (datetime_now_ww _ _ _ _)).
    rewrite (bind_run _ _ _ _ _ (emit_ww _ _ _ _ _)). cbv zeta.
    rewrite (bind_run _ _ _ _ _ (datetime_now_ww _ _ _ _)).
    rewrite (bind_run _ _ _ _ _ (emit_ww _ _ _ _ _)).
    rewrite IH. rewrite <- !app_assoc. cbn [app].
    replace (S (S n) + 2 * length rest)%nat with (n + 2 * S (length rest))%nat
      by lia.
    reflexivity.
Qed.

Lemma thrown_app l1 l2 : thrown (l1 ++ l2) = thrown l1 ++ thrown l2.
Proof. unfold thrown. apply flat_map_app. Qed.

Lemma thrown_job_events clk n i messages :
  thrown (job_events clk n i messages)
  = map (fun m => {["message" := PInt (msg_id m)]}) messages.
Proof.
  revert n i. induction messages as [|m rest IH]; intros n i; [reflexivity|].
  cbn. now rewrite IH.
Qed.

Lemma throw_backends_ww (backends : list Z) (w0 : world)
    (tb : list backend_row) :
  forall (n : nat) (t : list event),
    exists n' t',
      throw_backends backends (world_with n tb t w0)
      = Ok tt (world_with n' tb (t ++ t') w0)
      /\ thrown t'
         = map (fun m => {["message" := PInt (msg_id m)]})
             (flat_map (fun b => taken b w0) backends).
Proof.
  induction backends as [|b rest IH]; intros n t.
  - exists n, []. cbn. unfold ret. now rewrite app_nil_r.
  - cbn [throw_backends].
    rewrite (bind_run _ _ (world_with n tb t w0)
               (length (List.filter
                          (fun d => same_backend (det_backend_id d) b)
                          (amazon_product_product_detail w0)))
               (world_with n tb t w0)) by reflexivity.
    cbv zeta.
    rewrite (bind_run _ _ (world_with n tb t w0) (taken b w0)
               (world_with n tb t w0)) by reflexivity.
    rewrite (bind_run _ _ _ _ _ (throw_messages_ww _ _ _ _ _ _)).
    destruct (IH (n + 2 * length (taken b w0))%nat
                (t ++ job_events (clock w0) n 0 (taken b w0)))
      as (n' & t' & Hrun & Hthrown).
    exists n', (job_events (clock w0) n 0 (taken b w0) ++ t').
    rewrite app_assoc. split; [exact Hrun|].
    rewrite thrown_app, thrown_job_events, Hthrown. cbn [flat_map].
    now rewrite map_app.
Qed.

Lemma search_sqs_backends w :
  search [fun r => is_set (sqs_account_id r)] w = Ok (sqs_backends w) w.
Proof.
  unfold search, gets, sqs_backends. do 2 f_equal. apply filter_ext.
  intros r. cbn. apply andb_true_r.
Qed.

(** X5: whatever record set it is called on, the method runs over the
    backends that have an SQS account, in table order, and throws one
    delayed [process_price_message] job for each message it takes for
    them, in the order taken, the job's filters naming the message; it
    returns normally and changes no backend. *)
Theorem throw_delayed_jobs_one_per_taken_message (self : list Z) (w : world) :
  exists w',
    _throw_delayed_jobs_for_price_changess self w = Ok tt w'
    /\ thrown (added w w')
       = map (fun m => {["message" := PInt (msg_id m)]})
           (flat_map (fun b => taken b w) (sqs_backends w))
    /\ amazon_backend w' = amazon_backend w.
Proof.
  unfold _throw_delayed_jobs_for_price_changess.
  rewrite (bind_run _ _ w (sqs_backends w) w) by apply search_sqs_backends.
  destruct (throw_backends_ww (sqs_backends w) w (amazon_backend w) (reads w)
              (trace w)) as (n' & t' & Hrun & Hthrown).
  rewrite world_with_id in Hrun. rewrite Hrun.
  eexists. split; [reflexivity|]. split; [|reflexivity].
  now rewrite added_world_with.
Qed.


(** ** The messages taken for a backend *)

Lemma insert_by_create_date_perm m l :
  Permutation (insert_by_create_date m l) (m :: l).
Proof.
  induction l as [|x l IH]; [reflexivity|]. cbn.
  destruct (create_date m <=? create_date x); [reflexivity|].
  rewrite IH. apply perm_swap.
Qed.

Lemma order_by_create_date_perm l : Permutation (order_by_create_date l) l.
Proof.
  induction l as [|m l IH]; [reflexivity|]. cbn.
  rewrite insert_by_create_date_perm. now constructor.
Qed.

Lemma insert_by_create_date_sorted m l :
  StronglySorted by_create_date l ->
  StronglySorted by_create_date (insert_by_create_date m l).
Proof.
  induction 1 as [|x l Hs IH Hx]; cbn; [repeat constructor|].
  destruct (create_date m <=? create_date x) eqn:E.
  - apply Z.leb_le in E. constructor; [now constructor|].
    constructor; [exact E|].
    eapply List.Forall_impl; [|exact Hx]. unfold by_create_date. intros; lia.
  - apply Z.leb_gt in E. constructor; [exact IH|].
    apply List.Forall_forall. intros y Hy.
    apply (Permutation_in _ (insert_by_create_date_perm m l)) in Hy.
    destruct Hy as [<-|Hy]; [unfold by_create_date; lia|].
    now apply (proj1 (List.Forall_forall _ _) Hx).
Qed.

Lemma order_by_create_date_sorted l :
  StronglySorted by_create_date (order_by_create_date l).
Proof.
  induction l as [|m l IH]; [constructor|].
  cbn. now apply insert_by_create_date_sorted.
Qed.

Lemma limit_split {A} n (l : list A) : exists left, l = limit n l ++ left.
Proof.
  destruct n as [|n]; [exists []; cbn; now rewrite app_nil_r|].
  exists (skipn (S n) l). symmetry. apply firstn_skipn.
Qed.

Lemma limit_length {A} n (l : list A) :
  (0 < n)%nat -> (length (limit n l) <= n)%nat.
Proof.
  destruct n as [|n]; [lia|]. intros _. unfold limit. apply firstn_le_length.
Qed.

Lemma StronglySorted_app_inv {A} (R : A -> A -> Prop) l1 l2 :
  StronglySorted R (l1 ++ l2) ->
  StronglySorted R l1 /\ forall a b, In a l1 -> In b l2 -> R a b.
Proof.
  induction l1 as [|x l1 IH]; cbn; intros H.
  - split; [constructor|intros a b []].
  - inversion H as [|? ? Hs Hx]; subst. destruct (IH Hs) as [H1 H2].
    split.
    + constructor; [exact H1|].
      apply List.Forall_forall. intros y Hy.
      apply (proj1 (List.Forall_forall _ _) Hx). apply in_or_app. now left.
    + intros a b [<-|Ha] Hb; [|now apply H2].
      apply (proj1 (List.Forall_forall _ _) Hx). apply in_or_app. now right.
Qed.

(** Every message taken for a backend is a row of the message table that
    belongs to that backend and is not processed. *)
Lemma taken_In (backend : Z) (w : world)
    (m : message_row) :
  In m (taken backend w) ->
  In m (amazon_config_sqs_message w)
  /\ msg_backend_id m = Some backend
  /\ processed m = false.
Proof.
  unfold taken, pending_messages. intros Hin.
  destruct (limit_split (messages_limit backend w)
              (order_by_create_date
                 (List.filter
                    (fun m0 => same_backend (msg_backend_id m0) backend
                               && negb (processed m0))
                    (amazon_config_sqs_message w)))) as [left Hsplit].
  assert (In m (List.filter
                  (fun m0 => same_backend (msg_backend_id m0) backend
                             && negb (processed m0))
                  (amazon_config_sqs_message w))) as Hf.
  { apply (Permutation_in _ (order_by_create_date_perm _)).
    rewrite Hsplit. apply in_or_app. now left. }
  apply filter_In in Hf as [Hm Hc]. apply andb_true_iff in Hc as [Hb Hp].
  split; [exact Hm|]. split.
  - unfold same_backend in Hb. destruct (msg_backend_id m) as [x|]; [|easy].
    f_equal. lia.
  - now destruct (processed m).
Qed.

(** With at least one product detail the limit is positive and binds. *)
Lemma taken_length (backend : Z) (w : world) :
  (0 < AMAZON_NUMBER_MESSAGES_CHANGE_PRICE_RECOVER)%nat ->
  (0 < length (List.filter (fun d => same_backend (det_backend_id d) backend)
                 (amazon_product_product_detail w)))%nat ->
  (length (taken backend w) <= AMAZON_NUMBER_MESSAGES_CHANGE_PRICE_RECOVER)%nat
  /\ (length (taken backend w)
      <= length (List.filter (fun d => same_backend (det_backend_id d) backend)
                   (amazon_product_product_detail w)))%nat.
Proof.
  intros Hcap Hcount. unfold taken.
  assert (0 < messages_limit backend w)%nat as Hpos.
  { unfold messages_limit. cbv zeta. now destruct (_ <? _)%nat. }
  pose proof (limit_length (messages_limit backend w)
                (pending_messages backend w) Hpos) as Hlen.
  unfold messages_limit in Hlen at 2. cbv zeta in Hlen.
  destruct (AMAZON_NUMBER_MESSAGES_CHANGE_PRICE_RECOVER <? _)%nat eqn:E.
  - apply Nat.ltb_lt in E. lia.
  - apply Nat.ltb_ge in E. lia.
Qed.

(** Without product details the limit is 0, which is no limit. *)
Lemma taken_without_details (backend : Z) (w : world) :
  List.filter (fun d => same_backend (det_backend_id d) backend)
    (amazon_product_product_detail w) = [] ->
  taken backend w = pending_messages backend w
  /\ Permutation (taken backend w)
       (List.filter
          (fun m => same_backend (msg_backend_id m) backend
                    && negb (processed m))
          (amazon_config_sqs_message w)).
Proof.
  intros Hnone. assert (taken backend w = pending_messages backend w) as ->.
  { unfold taken, messages_limit. rewrite Hnone. cbn [length].
    now destruct (_ <? 0)%nat eqn:E; [apply Nat.ltb_lt in E; lia|]. }
  split; [reflexivity|apply order_by_create_date_perm].
Qed.

(** The messages taken come in ascending [create_date], and what is left
    is no older. *)
Lemma taken_sorted (backend : Z) (w : world) :
  exists left,
    Permutation (taken backend w ++ left)
      (List.filter
         (fun m => same_backend (msg_backend_id m) backend
                   && negb (processed m))
         (amazon_config_sqs_message w))
    /\ StronglySorted by_create_date (taken backend w)
    /\ forall m m', In m (taken backend w) -> In m' left ->
                    create_date m <= create_date m'.
Proof.
  unfold taken.
  destruct (limit_split (messages_limit backend w)
              (pending_messages backend w)) as [left Hsplit].
  exists left. rewrite <- Hsplit.
  split; [apply order_by_create_date_perm|].
  apply StronglySorted_app_inv. rewrite <- Hsplit.
  apply order_by_create_date_sorted.
Qed.


(** ** The jobs [_throw_delayed_jobs_for_price_changess] queues *)

Lemma throw_delayed_jobs_thrown (self : list Z) (w : world) :
  exists w',
    _throw_delayed_jobs_for_price_changess self w = Ok tt w'
    /\ thrown (added w w')
       = map (fun m => {["message" := PInt (msg_id m)]})
           (flat_map (fun b => taken b w) (sqs_backends w)).
Proof.
  unfold _throw_delayed_jobs_for_price_changess.
  rewrite (bind_run _ _ w (sqs_backends w) w) by apply search_sqs_backends.
  destruct (throw_backends_ww (sqs_backends w) w (amazon_backend w) (reads w)
              (trace w)) as (n' & t' & Hrun & Hthrown).
  rewrite world_with_id in Hrun. rewrite Hrun.
  eexists. split; [reflexivity|]. now rewrite added_world_with.
Qed.

Lemma sqs_backends_In b w :
  In b (sqs_backends w)
  <-> exists r, In r (amazon_backend w) /\ sqs_account_id r <> None
                /\ bk_id r = b.
Proof.
  unfold sqs_backends. rewrite in_map_iff. split.
  - intros (r & <- & Hr). apply filter_In in Hr as [Hr Hs]. exists r.
    split; [exact Hr|]. split; [|reflexivity].
    now destruct (sqs_account_id r).
  - intros (r & Hr & Hs & <-). exists r. split; [reflexivity|].
    apply filter_In. split; [exact Hr|]. now destruct (sqs_account_id r).
Qed.

(** X6: whatever record set the method is called on, it returns normally
    and every [process_price_message] job it queues names a message of the
    message table that is not processed and belongs to a backend of the
    table that has an SQS account. *)
Theorem throw_delayed_jobs_only_unprocessed (self : list Z) (w : world) :
  exists w',
    _throw_delayed_jobs_for_price_changess self w = Ok tt w'
    /\ forall f, In f (thrown (added w w')) ->
       exists m r,
         f = {["message" := PInt (msg_id m)]}
         /\ In m (amazon_config_sqs_message w)
         /\ processed m = false
         /\ In r (amazon_backend w)
         /\ sqs_account_id r <> None
         /\ msg_backend_id m = Some (bk_id r).
Proof.
  destruct (throw_delayed_jobs_thrown self w) as (w' & Hrun & Hthrown).
  exists w'. split; [exact Hrun|]. intros f Hf. rewrite Hthrown in Hf.
  apply in_map_iff in Hf as (m & <- & Hm).
  apply in_flat_map in Hm as (b & Hb & Hm).
  apply sqs_backends_In in Hb as (r & Hr & Hs & <-).
  destruct (taken_In _ _ _ Hm) as (Hin & Hback & Hproc).
  exists m, r. repeat split; assumption.
Qed.

Lemma flat_map_length_sum {A B} (f : A -> list B) (g : A -> nat)
    (l : list A) :
  Forall (fun a => (length (f a) <= g a)%nat) l ->
  (length (flat_map f l) <= list_sum (map g l))%nat.
Proof.
  induction 1 as [|a l Ha _ IH]; [reflexivity|].
  cbn [flat_map map list_sum fold_right]. rewrite length_app.
  cbv beta in Ha. unfold list_sum in IH. lia.
Qed.

(** X7: when the constant is positive and every backend with an SQS
    account has at least one product detail, one run of the method queues,
    over all these backends, at most as many jobs as the backends' own
    limits add up to, the limit of a backend being the smaller of the
    constant and the number of its product details; so at most the
    constant times the number of these backends. *)
Theorem throw_delayed_jobs_at_most_cap (self : list Z) (w : world) :
  (0 < AMAZON_NUMBER_MESSAGES_CHANGE_PRICE_RECOVER)%nat ->
  (forall r, In r (amazon_backend w) -> sqs_account_id r <> None ->
   (0 < length (List.filter
                  (fun d => same_backend (det_backend_id d) (bk_id r))
                  (amazon_product_product_detail w)))%nat) ->
  exists w',
    _throw_delayed_jobs_for_price_changess self w = Ok tt w'
    /\ (length (thrown (added w w'))
        <= list_sum
             (map (fun b =>
                     Nat.min AMAZON_NUMBER_MESSAGES_CHANGE_PRICE_RECOVER
                       (length (List.filter
                                  (fun d => same_backend (det_backend_id d) b)
                                  (amazon_product_product_detail w))))
                (sqs_backends w)))%nat
    /\ (length (thrown (added w w'))
        <= AMAZON_NUMBER_MESSAGES_CHANGE_PRICE_RECOVER
           * length (sqs_backends w))%nat.
Proof.
  intros Hcap Hdet.
  destruct (throw_delayed_jobs_thrown self w) as (w' & Hrun & Hthrown).
  exists w'. split; [exact Hrun|]. rewrite Hthrown, length_map.
  assert (Forall (fun b =>
                    (length (taken b w)
                     <= Nat.min AMAZON_NUMBER_MESSAGES_CHANGE_PRICE_RECOVER
                          (length (List.filter
                                     (fun d => same_backend (det_backend_id d) b)
                                     (amazon_product_product_detail w))))%nat)
            (sqs_backends w)) as Hall.
  { apply List.Forall_forall. intros b Hb.
    apply sqs_backends_In in Hb as (r & Hr & Hs & <-).
    destruct (taken_length (bk_id r) w Hcap (Hdet r Hr Hs)). lia. }
  pose proof (flat_map_length_sum _ _ _ Hall) as Hsum.
  split; [exact Hsum|].
  etransitivity; [exact Hsum|]. clear.
  induction (sqs_backends w) as [|b l IH]; [cbn; lia|].
  cbn [map list_sum fold_right length]. unfold list_sum in IH.
  rewrite Nat.mul_succ_r.
  match goal with
  | |- (Nat.min ?c ?x + _ <= _)%nat => pose proof (Nat.le_min_l c x)
  end.
  lia.
Qed.

(** X8: a backend with an SQS account and no product detail gets a job
    for every one of its unprocessed messages in one run, whatever the
    constant: the limit computed for it is 0, which the search reads as no
    limit. *)
Theorem throw_delayed_jobs_all_without_details (self : list Z) (w : world)
    (r : backend_row) (m : message_row) :
  In r (amazon_backend w) ->
  sqs_account_id r <> None ->
  List.filter (fun d => same_backend (det_backend_id d) (bk_id r))
    (amazon_product_product_detail w) = [] ->
  In m (amazon_config_sqs_message w) ->
  msg_backend_id m = Some (bk_id r) ->
  processed m = false ->
  exists w',
    _throw_delayed_jobs_for_price_changess self w = Ok tt w'
    /\ In {["message" := PInt (msg_id m)]} (thrown (added w w')).
Proof.
  intros Hr Hs Hnone Hm Hback Hproc.
  destruct (throw_delayed_jobs_thrown self w) as (w' & Hrun & Hthrown).
  exists w'. split; [exact Hrun|]. rewrite Hthrown.
  apply (in_map (fun m0 => {["message" := PInt (msg_id m0)]})).
  apply in_flat_map. exists (bk_id r). split.
  - apply sqs_backends_In. now exists r.
  - destruct (taken_without_details (bk_id r) w Hnone) as [_ Hperm].
    apply (Permutation_in _ (Permutation_sym Hperm)).
    apply filter_In. split; [exact Hm|].
    rewrite Hback, Hproc. cbn. now rewrite Z.eqb_refl.
Qed.

(** X9: the jobs of one run are queued backend by backend, the backends
    with an SQS account in table order, and for each backend oldest
    message first: its jobs are for messages in ascending [create_date],
    and every unprocessed message of the backend that gets no job in this
    run is no older than any that gets one. *)
Theorem throw_delayed_jobs_oldest_first (self : list Z) (w : world) :
  exists w' groups,
    _throw_delayed_jobs_for_price_changess self w = Ok tt w'
    /\ thrown (added w w')
       = map (fun m => {["message" := PInt (msg_id m)]}) (concat groups)
    /\ Forall2
         (fun b group =>
            exists left,
              Permutation (group ++ left)
                (List.filter
                   (fun m => same_backend (msg_backend_id m) b
                             && negb (processed m))
                   (amazon_config_sqs_message w))
              /\ StronglySorted by_create_date group
              /\ forall m m', In m group -> In m' left ->
                              create_date m <= create_date m')
         (sqs_backends w) groups.
Proof.
  destruct (throw_delayed_jobs_thrown self w) as (w' & Hrun & Hthrown).
  exists w', (map (fun b => taken b w) (sqs_backends w)).
  split; [exact Hrun|]. split.
  - rewrite Hthrown. now rewrite flat_map_concat_map.
  - clear. induction (sqs_backends w) as [|b l IH]; constructor;
      [apply taken_sorted|exact IH].
Qed.


(** ** [_import_sale_orders] without report, event by event *)

Lemma turn_find_other b r upd E tb b' :
  b' <> b ->
  find_row b' (update_table upd b E (synced_table b r tb)) = find_row b' tb.
Proof.
  intros Hne. unfold update_table, synced_table.
  destruct upd, (is_set (import_updated_sales_from_date r));
    rewrite ?find_row_update_other by (try intros ?; easy); reflexivity.
Qed.

Lemma turn_find_same b r upd E tb :
  find_row b tb = Some r ->
  find_row b (update_table upd b E (synced_table b r tb))
  = Some (finished upd E r).
Proof.
  intros Hr. pose proof (synced_find b r tb Hr) as H1.
  unfold update_table, finished. destruct upd; [|exact H1].
  now apply find_row_update_same.
Qed.

Lemma update_row_ids b f tb :
  (forall r, bk_id (f r) = bk_id r) ->
  map bk_id (update_row b f tb) = map bk_id tb.
Proof.
  intros Hf. unfold update_row. rewrite map_map. apply map_ext.
  intros r. destruct (bk_id r =? b); [apply Hf|reflexivity].
Qed.

Lemma turn_ids b r upd E tb :
  map bk_id (update_table upd b E (synced_table b r tb)) = map bk_id tb.
Proof.
  unfold update_table, synced_table.
  destruct upd, (is_set (import_updated_sales_from_date r));
    rewrite ?update_row_ids by (intros; reflexivity); reflexivity.
Qed.

Lemma flat_map_ext_In {A B} (f g : A -> list B) (l : list A) :
  (forall a, In a l -> f a = g a) -> flat_map f l = flat_map g l.
Proof.
  induction l as [|a l IH]; intros H; [reflexivity|]. cbn.
  rewrite (H a) by now left. rewrite IH; [reflexivity|].
  intros a' Ha'. apply H. now right.
Qed.

Lemma browse_world_with n tb t w b :
  browse b (world_with n tb t w) = find_row b tb.
Proof. reflexivity. Qed.

Lemma sale_turn_events_eq w w' upd ST E b :
  browse b w' = browse b w ->
  uid w' = uid w ->
  sale_turn_events w' upd ST E b = sale_turn_events w upd ST E b.
Proof.
  intros Hb Hu. unfold sale_turn_events, binding_for. now rewrite Hb, Hu.
Qed.

(** Once both times are set, the turns differ in the backend only. *)
Lemma import_sale_orders_started (self : list Z) (upd : bool)
    (ST E : datetime) (w0 : world) :
  NoDup self ->
  forall (n : nat) (tb : list backend_row) (t : list event),
    Forall (fun b => is_Some (find_row b tb)) self ->
    exists tb',
      _import_sale_orders_loop self (Some ST) (Some E) false upd
        (world_with n tb t w0)
      = Ok tt (world_with n tb'
                 (t ++ flat_map
                         (sale_turn_events (world_with n tb t w0) upd ST E)
                         self) w0)
      /\ map bk_id tb' = map bk_id tb
      /\ (forall b r, In b self -> find_row b tb = Some r ->
          find_row b tb' = Some (finished upd E r))
      /\ (forall b, ~ In b self -> find_row b tb' = find_row b tb).
Proof.
  induction 1 as [|b rest Hnotin Hnodup IH]; intros n tb t Hex.
  - exists tb. cbn. unfold ret. rewrite app_nil_r. repeat split; auto.
    intros b r [].
  - inversion Hex as [|? ? [r Hr] Hrest]; subst.
    cbn [_import_sale_orders_loop].
    rewrite (bind_run _ _ _ _ _
               (import_sale_orders_body_ww b r (Some ST) (Some E) false upd
                  n tb t w0 Hr)).
    cbn [fst snd end_at effective_start import_reads import_events].
    set (tb1 := update_table upd b E (synced_table b r tb)).
    set (ev1 := synced_events b r
                ++ [EvImportBatch
                      (binding_for (world_with n tb t w0) "amazon.sale.order" b)
                      b (sale_filters ST E)]
                ++ update_events upd b E).
    assert (Forall (fun b0 => is_Some (find_row b0 tb1)) rest) as Hrest1.
    { eapply List.Forall_impl; [|exact Hrest]. intros b0 H0.
      now apply turn_is_Some. }
    destruct (IH n tb1 (t ++ ev1) Hrest1) as (tb' & Hrun & Hids & Hin & Hout).
    exists tb'. split; [|split; [|split]].
    + rewrite Hrun. do 2 f_equal. rewrite <- app_assoc. f_equal.
      cbn [flat_map]. unfold sale_turn_events at 2.
      rewrite browse_world_with, Hr. unfold ev1. rewrite <- app_assoc.
      cbn [app]. rewrite <- app_assoc. cbn [app]. do 3 f_equal.
      apply flat_map_ext_In. intros b' Hb'.
      apply sale_turn_events_eq; [|reflexivity]. rewrite !browse_world_with.
      apply turn_find_other. intros ->. now apply Hnotin, list_elem_of_In.
    + rewrite Hids. apply turn_ids.
    + intros b' r' [<-|Hb'] Hr'.
      * rewrite Hout by (intros H'; now apply Hnotin, list_elem_of_In).
        rewrite Hr in Hr'. injection Hr' as <-. now apply turn_find_same.
      * apply Hin; [exact Hb'|]. unfold tb1. rewrite turn_find_other; [easy|].
        intros ->. now apply Hnotin, list_elem_of_In.
    + intros b' Hb'. rewrite Hout by (intros H'; apply Hb'; now right).
      apply turn_find_other. intros ->. apply Hb'. now left.
Qed.


Lemma sale_turn_events_imports w upd ST E b r :
  browse b w = Some r ->
  List.filter is_import (sale_turn_events w upd ST E b)
  = [EvImportBatch (binding_for w "amazon.sale.order" b) b (sale_filters ST E)].
Proof.
  intros Hr. unfold sale_turn_events, synced_events, update_events.
  rewrite Hr. destruct (is_set _), upd; reflexivity.
Qed.

Lemma sale_turn_events_all_imports w upd ST E self :
  exist self w ->
  List.filter is_import (flat_map (sale_turn_events w upd ST E) self)
  = map (fun b => EvImportBatch (binding_for w "amazon.sale.order" b) b
                    (sale_filters ST E)) self.
Proof.
  induction 1 as [|b rest [r Hr] _ IH]; [reflexivity|]. cbn [flat_map map].
  now rewrite List.filter_app, (sale_turn_events_imports w upd _ _ b r Hr), IH.
Qed.

(** The whole call without report, on a record set without repetition. *)
Lemma import_sale_orders_sales_run (self : list Z) (st en : option datetime)
    (upd : bool) (w : world) :
  NoDup self ->
  exist self w ->
  let E := effective_end en w in
  let ST := window_start st self w E in
  exists tb',
    _import_sale_orders self st en false upd w
    = Ok true
        (world_with
           (match self, en with
            | _ :: _, None => S (reads w)
            | _, _ => reads w
            end)
           tb' (trace w ++ flat_map (sale_turn_events w upd ST E) self) w)
    /\ map bk_id tb' = map bk_id (amazon_backend w)
    /\ (forall b r, In b self -> browse b w = Some r ->
        find_row b tb' = Some (finished upd E r))
    /\ (forall b, ~ In b self -> find_row b tb' = browse b w).
Proof.
  intros Hnd Hex E ST. unfold _import_sale_orders.
  destruct self as [|b rest].
  - exists (amazon_backend w). cbn. unfold ret. rewrite app_nil_r.
    destruct en; rewrite world_with_id; repeat split; auto; intros b r [].
  - inversion Hex as [|? ? [r Hr] Hrest]; subst.
    apply NoDup_cons in Hnd as [Hnotin Hnd].
    cbn [_import_sale_orders_loop].
    pose proof (import_sale_orders_body_ww b r st en false upd (reads w)
                  (amazon_backend w) (trace w) w Hr) as Hbody.
    rewrite world_with_id in Hbody.
    cbn [import_reads import_events] in Hbody.
    change (end_at en (clock w (reads w))) with E in Hbody.
    replace (effective_start st (import_sales_from_date r) E) with ST in Hbody
      by (unfold ST, window_start; now rewrite Hr).
    set (n1 := match en with Some _ => reads w | None => S (reads w) end) in *.
    set (tb1 := update_table upd b E (synced_table b r (amazon_backend w))) in *.
    match type of Hbody with
    | _ = Ok _ (world_with _ _ ?t _) => set (t1 := t) in *
    end.
    assert (Forall (fun b0 => is_Some (find_row b0 tb1)) rest) as Hrest1.
    { eapply List.Forall_impl; [|exact Hrest]. intros b0 H0.
      now apply turn_is_Some. }
    destruct (import_sale_orders_started rest upd ST E w Hnd n1 tb1 t1 Hrest1)
      as (tb' & Hrun & Hids & Hin & Hout).
    exists tb'. split; [|split; [|split]].
    + rewrite (bind_run _ _ w tt
                 (world_with n1 tb'
                    (t1 ++ flat_map
                             (sale_turn_events (world_with n1 tb1 t1 w) upd ST E)
                             rest) w)).
      2:{ rewrite (bind_run _ _ _ _ _ Hbody). exact Hrun. }
      unfold ret, n1. destruct en; do 2 f_equal.
      all: unfold t1; rewrite <- !app_assoc; f_equal; cbn [flat_map];
        unfold sale_turn_events at 2; rewrite Hr; rewrite <- app_assoc;
        cbn [app]; do 3 f_equal; apply flat_map_ext_In; intros b' Hb';
        (apply sale_turn_events_eq; [|reflexivity]);
        rewrite browse_world_with; apply turn_find_other; intros ->;
        now apply Hnotin, list_elem_of_In.
    + rewrite Hids. apply turn_ids.
    + intros b' r' [<-|Hb'] Hr'.
      * rewrite Hout by (intros H'; now apply Hnotin, list_elem_of_In).
        rewrite Hr in Hr'. injection Hr' as <-. now apply turn_find_same.
      * apply Hin; [exact Hb'|]. unfold tb1. rewrite turn_find_other; [easy|].
        intros ->. now apply Hnotin, list_elem_of_In.
    + intros b' Hb'. rewrite Hout by (intros H'; apply Hb'; now right).
      apply turn_find_other. intros ->. apply Hb'. now left.
Qed.

(** X10: without [generate_report], on a record set without repetition
    whose records exist, the call returns [True] and makes one import of
    ['amazon.sale.order'] per backend, in order, every one with the same
    window: its end is the end given or the defaulted one, its start the
    start given, else the stored [import_sales_from_date] of the first
    backend of the set, else the end.  The clock is read once when the end
    is defaulted and not at all otherwise. *)
Theorem import_sale_orders_one_window (self : list Z)
    (st en : option datetime) (upd : bool) (w : world) :
  NoDup self ->
  exist self w ->
  let E := effective_end en w in
  let ST := window_start st self w E in
  exists w',
    _import_sale_orders self st en false upd w = Ok true w'
    /\ added w w' = flat_map (sale_turn_events w upd ST E) self
    /\ List.filter is_import (added w w')
       = map (fun b => EvImportBatch (binding_for w "amazon.sale.order" b) b
                         (sale_filters ST E)) self
    /\ reads w' = match self, en with
                  | _ :: _, None => S (reads w)
                  | _, _ => reads w
                  end.
Proof.
  intros Hnd Hex E ST.
  destruct (import_sale_orders_sales_run self st en upd w Hnd Hex)
    as (tb' & Hrun & _).
  eexists. split; [exact Hrun|]. rewrite added_world_with.
  split; [reflexivity|]. split; [|reflexivity].
  now apply sale_turn_events_all_imports.
Qed.


Lemma finished_fields upd E r :
  finished upd E r
  = {| bk_id := bk_id r; bk_name := bk_name r;
       user_tech_id := user_tech_id r;
       import_sales_from_date :=
         if upd then Some (to_string E) else import_sales_from_date r;
       import_updated_sales_from_date :=
         if is_set (import_updated_sales_from_date r)
         then import_updated_sales_from_date r
         else import_sales_from_date r;
       sqs_account_id := sqs_account_id r |}.
Proof.
  unfold finished, synced. destruct r as [i nm u f [x|] q], upd; reflexivity.
Qed.

(** X11: without [generate_report], on a record set without repetition
    whose records exist, the call leaves each backend of the set with
    [import_updated_sales_from_date] as it was when set and equal to the
    former [import_sales_from_date] when unset, with
    [import_sales_from_date] at the end time when [update_import_date] and
    as it was otherwise, and with its other fields as they were; the
    backends outside the set keep their rows, and no row comes or goes. *)
Theorem import_sale_orders_rows (self : list Z) (st en : option datetime)
    (upd : bool) (w : world) :
  NoDup self ->
  exist self w ->
  let E := effective_end en w in
  exists w',
    _import_sale_orders self st en false upd w = Ok true w'
    /\ map bk_id (amazon_backend w') = map bk_id (amazon_backend w)
    /\ (forall b r, In b self -> browse b w = Some r ->
        browse b w'
        = Some {| bk_id := bk_id r; bk_name := bk_name r;
                  user_tech_id := user_tech_id r;
                  import_sales_from_date :=
                    if upd then Some (to_string E)
                    else import_sales_from_date r;
                  import_updated_sales_from_date :=
                    if is_set (import_updated_sales_from_date r)
                    then import_updated_sales_from_date r
                    else import_sales_from_date r;
                  sqs_account_id := sqs_account_id r |})
    /\ (forall b, ~ In b self -> browse b w' = browse b w).
Proof.
  intros Hnd Hex E.
  destruct (import_sale_orders_sales_run self st en upd w Hnd Hex)
    as (tb' & Hrun & Hids & Hin & Hout).
  eexists. split; [exact Hrun|]. split; [exact Hids|]. split.
  - intros b r Hb Hr. rewrite browse_world_with, <- finished_fields.
    now apply Hin.
  - intros b Hb. rewrite browse_world_with. now apply Hout.
Qed.

(** X12: two runs in a row on one backend, with the defaults: the second
    run imports from exactly where the first one ended.  The first run
    imports up to the first clock reading cut to its second minus two
    minutes and stores that time; the second run's window starts at that
    very time and ends at the second reading cut and shifted the same
    way. *)
Theorem import_sale_orders_runs_contiguous (b : Z) (r : backend_row)
    (w : world) :
  browse b w = Some r ->
  let E1 := strftime_strptime (clock w (reads w)) - timedelta_minutes 2 in
  let E2 := strftime_strptime (clock w (S (reads w))) - timedelta_minutes 2 in
  let ST1 := match import_sales_from_date r with
             | Some s => strptime_text s
             | None => E1
             end in
  let m := binding_for w "amazon.sale.order" b in
  exists w1 w2,
    _import_sale_orders [b] None None false true w = Ok true w1
    /\ _import_sale_orders [b] None None false true w1 = Ok true w2
    /\ List.filter is_import (added w w1)
       = [EvImportBatch m b (sale_filters ST1 E1)]
    /\ List.filter is_import (added w1 w2)
       = [EvImportBatch m b (sale_filters E1 E2)].
Proof.
  intros Hr E1 E2 ST1 m.
  assert (NoDup [b]) as Hnd by (apply NoDup_singleton).
  assert (exist [b] w) as Hex by (constructor; [now exists r|constructor]).
  destruct (import_sale_orders_sales_run [b] None None true w Hnd Hex)
    as (tb1 & Hrun1 & _ & Hin1 & _).
  specialize (Hin1 b r (or_introl eq_refl) Hr).
  cbn [effective_end] in Hrun1, Hin1. fold E1 in Hrun1, Hin1.
  match type of Hrun1 with _ = Ok true ?W => set (w1 := W) in * end.
  assert (browse b w1 = Some (finished true E1 r)) as Hr1 by exact Hin1.
  assert (exist [b] w1) as Hex1 by (constructor; [eauto|constructor]).
  destruct (import_sale_orders_sales_run [b] None None true w1 Hnd Hex1)
    as (tb2 & Hrun2 & _).
  exists w1. eexists. split; [exact Hrun1|]. split; [exact Hrun2|].
  rewrite added_world_with. unfold w1 at 1. rewrite added_world_with.
  rewrite !sale_turn_events_all_imports by assumption. cbn [map].
  split.
  - unfold window_start, effective_start. now rewrite Hr.
  - unfold window_start, effective_start. rewrite Hr1.
    change (effective_end None w1) with E2.
    rewrite finished_fields. cbn [import_sales_from_date].
    unfold E1. rewrite default_end_whole_second. fold E1.
    unfold m, binding_for. rewrite Hr1, Hr. now rewrite finished_fields.
Qed.


(** ** [_import_updated_sales], event by event *)

Lemma updated_find b upd E tb b' :
  find_row b' (updated_table upd b E tb)
  = option_map (fun r => if bk_id r =? b then updated_row upd E r else r)
      (find_row b' tb).
Proof.
  unfold updated_table, updated_row. destruct upd.
  - now apply find_row_update.
  - destruct (find_row b' tb) as [r|]; [|reflexivity]. cbn.
    now destruct (bk_id r =? b).
Qed.

Lemma updated_find_same b upd E tb r :
  find_row b tb = Some r ->
  find_row b (updated_table upd b E tb) = Some (updated_row upd E r).
Proof.
  intros Hr. rewrite updated_find, Hr. cbn.
  apply find_row_id in Hr. now rewrite Hr, Z.eqb_refl.
Qed.

Lemma updated_find_other b upd E tb b' :
  b' <> b -> find_row b' (updated_table upd b E tb) = find_row b' tb.
Proof.
  intros Hne. rewrite updated_find.
  destruct (find_row b' tb) as [r|] eqn:Hr; [|reflexivity]. cbn.
  apply find_row_id in Hr. subst b'.
  destruct (bk_id r =? b) eqn:E'; [lia|reflexivity].
Qed.

Lemma updated_ids b upd E tb :
  map bk_id (updated_table upd b E tb) = map bk_id tb.
Proof.
  unfold updated_table. destruct upd; [|reflexivity].
  now apply update_row_ids.
Qed.

Lemma updated_row_twice upd E r :
  updated_row upd E (updated_row upd E r) = updated_row upd E r.
Proof. unfold updated_row. now destruct upd. Qed.

Lemma updated_turn_events_ww n tb t n' t' w0 upd ST E b0 E0 b :
  updated_turn_events (world_with n' (updated_table upd b0 E0 tb) t' w0)
    upd ST E b
  = updated_turn_events (world_with n tb t w0) upd ST E b.
Proof.
  unfold updated_turn_events. f_equal. f_equal.
  rewrite !binding_for_ww, updated_find.
  destruct (find_row b tb) as [r|]; [|reflexivity]. cbn.
  unfold updated_row. now destruct (bk_id r =? b0), upd.
Qed.

Lemma updated_turn_events_w n' t' w upd ST E b0 E0 b :
  updated_turn_events
    (world_with n' (updated_table upd b0 E0 (amazon_backend w)) t' w)
    upd ST E b
  = updated_turn_events w upd ST E b.
Proof.
  unfold updated_turn_events. f_equal. f_equal.
  rewrite binding_for_ww, updated_find. unfold binding_for, browse.
  destruct (find_row b (amazon_backend w)) as [r|]; [|reflexivity]. cbn.
  unfold updated_row. now destruct (bk_id r =? b0), upd.
Qed.

(** Once both times are set, the turns differ in the backend only. *)
Lemma import_updated_sales_started_run (self : list Z) (upd : bool)
    (ST E : datetime) (w0 : world) :
  forall (n : nat) (tb : list backend_row) (t : list event),
    Forall (fun b => is_Some (find_row b tb)) self ->
    exists tb',
      _import_updated_sales self (Some ST) (Some E) upd (world_with n tb t w0)
      = Ok tt (world_with n tb'
                 (t ++ flat_map
                         (updated_turn_events (world_with n tb t w0) upd ST E)
                         self) w0)
      /\ map bk_id tb' = map bk_id tb
      /\ (forall b r, In b self -> find_row b tb = Some r ->
          find_row b tb' = Some (updated_row upd E r))
      /\ (forall b, ~ In b self -> find_row b tb' = find_row b tb).
Proof.
  induction self as [|b rest IH]; intros n tb t Hex.
  - exists tb. cbn. unfold ret. rewrite app_nil_r.
    split; [reflexivity|]. split; [reflexivity|].
    split; [intros b r []|reflexivity].
  - inversion Hex as [|? ? [r Hr] Hrest]; subst.
    cbn [_import_updated_sales].
    pose proof (import_updated_sales_body_ww b r (Some ST) (Some E) upd
                  n tb t w0 Hr) as Hbody.
    cbn [updated_start end_at] in Hbody.
    rewrite (bind_run _ _ _ _ _ Hbody). cbn [fst snd].
    set (tb1 := updated_table upd b E tb).
    assert (Forall (fun b0 => is_Some (find_row b0 tb1)) rest) as Hrest1.
    { eapply List.Forall_impl; [|exact Hrest]. intros b0 H0.
      now apply updated_is_Some. }
    match goal with
    | |- context [world_with n tb1 ?tt w0] =>
        destruct (IH n tb1 tt Hrest1) as (tb' & Hrun & Hids & Hin & Hout)
    end.
    exists tb'. split; [|split; [|split]].
    + rewrite Hrun. do 2 f_equal. rewrite <- app_assoc. f_equal.
      cbn [flat_map]. apply (f_equal2 (@app event)); [reflexivity|].
      apply flat_map_ext. intros b'. apply updated_turn_events_ww.
    + rewrite Hids. apply updated_ids.
    + intros b' r' Hb' Hr'.
      destruct (in_dec Z.eq_dec b' rest) as [Hi|Hi].
      * destruct (Z.eq_dec b' b) as [->|Hne].
        -- rewrite Hr in Hr'. injection Hr' as <-.
           rewrite (Hin b (updated_row upd E r) Hi)
             by now apply updated_find_same.
           now rewrite updated_row_twice.
        -- apply (Hin b' r' Hi). unfold tb1.
           now rewrite updated_find_other.
      * destruct Hb' as [<-|Hb']; [|easy]. rewrite (Hout b Hi).
        rewrite Hr in Hr'. injection Hr' as <-. now apply updated_find_same.
    + intros b' Hb'. rewrite Hout by (intros H'; apply Hb'; now right).
      apply updated_find_other. intros ->. apply Hb'. now left.
Qed.

(** The whole call. *)
Lemma import_updated_sales_run (b : Z) (rest : list Z) (r : backend_row)
    (st en : option datetime) (upd : bool) (w : world) :
  exist (b :: rest) w ->
  browse b w = Some r ->
  let E := effective_end en w in
  let n1 := match en with Some _ => reads w | None => S (reads w) end in
  match updated_start st r E with
  | Some ST =>
      exists tb',
        _import_updated_sales (b :: rest) st en upd w
        = Ok tt (world_with n1 tb'
                   (trace w
                    ++ flat_map (updated_turn_events w upd ST E) (b :: rest))
                   w)
        /\ map bk_id tb' = map bk_id (amazon_backend w)
        /\ (forall b' r', In b' (b :: rest) -> browse b' w = Some r' ->
            find_row b' tb' = Some (updated_row upd E r'))
        /\ (forall b', ~ In b' (b :: rest) -> find_row b' tb' = browse b' w)
  | None =>
      _import_updated_sales (b :: rest) st en upd w
      = Err TypeError (world_with n1 (amazon_backend w) (trace w) w)
  end.
Proof.
  intros Hex Hr E n1. inversion Hex as [|? ? _ Hrest]; subst.
  cbn [_import_updated_sales].
  pose proof (import_updated_sales_body_ww b r st en upd (reads w)
                (amazon_backend w) (trace w) w Hr) as Hbody.
  rewrite world_with_id in Hbody. cbn zeta in Hbody.
  change (end_at en (clock w (reads w))) with E in Hbody. fold n1 in Hbody.
  destruct (updated_start st r E) as [ST|];
    [|now rewrite (bind_err _ _ _ _ _ Hbody)].
  rewrite (bind_run _ _ _ _ _ Hbody). cbn [fst snd].
  set (tb1 := updated_table upd b E (amazon_backend w)).
  assert (Forall (fun b0 => is_Some (find_row b0 tb1)) rest) as Hrest1.
  { eapply List.Forall_impl; [|exact Hrest]. intros b0 H0.
    now apply updated_is_Some. }
  match goal with
  | |- context [world_with n1 tb1 ?tt w] =>
      destruct (import_updated_sales_started_run rest upd ST E w n1 tb1 tt
                  Hrest1) as (tb' & Hrun & Hids & Hin & Hout)
  end.
  exists tb'. split; [|split; [|split]].
  - rewrite Hrun. do 2 f_equal. rewrite <- app_assoc. f_equal.
    cbn [flat_map]. apply (f_equal2 (@app event)); [reflexivity|].
    apply flat_map_ext. intros b'. apply updated_turn_events_w.
  - rewrite Hids. apply updated_ids.
  - intros b' r' Hb' Hr'.
    destruct (in_dec Z.eq_dec b' rest) as [Hi|Hi].
    + destruct (Z.eq_dec b' b) as [->|Hne].
      * rewrite Hr in Hr'. injection Hr' as <-.
        rewrite (Hin b (updated_row upd E r) Hi)
          by now apply updated_find_same.
        now rewrite updated_row_twice.
      * apply (Hin b' r' Hi). unfold tb1. now rewrite updated_find_other.
    + destruct Hb' as [<-|Hb']; [|easy]. rewrite (Hout b Hi).
      rewrite Hr in Hr'. injection Hr' as <-. now apply updated_find_same.
  - intros b' Hb'. rewrite Hout by (intros H'; apply Hb'; now right).
    apply updated_find_other. intros ->. apply Hb'. now left.
Qed.


Lemma exist_In self w b : exist self w -> In b self -> is_Some (browse b w).
Proof.
  intros Hex Hb. exact (proj1 (List.Forall_forall _ _) Hex b Hb).
Qed.

(** X13: when the first turn of [_import_updated_sales] gets a start time
    [ST] -- the one given, or the parsed [import_updated_sales_from_date]
    of the first backend, or the end time -- the call runs to its end: it
    makes one import of ['amazon.sale.order'] per backend, in order, all
    with the window from [ST] to the end time, and with
    [update_import_date] every backend of the set ends with
    [import_updated_sales_from_date] at the end time. *)
Theorem import_updated_sales_one_window (b : Z) (rest : list Z)
    (r : backend_row) (st en : option datetime) (upd : bool) (ST : datetime)
    (w : world) :
  exist (b :: rest) w ->
  browse b w = Some r ->
  let E := effective_end en w in
  updated_start st r E = Some ST ->
  exists w',
    _import_updated_sales (b :: rest) st en upd w = Ok tt w'
    /\ added w w' = flat_map (updated_turn_events w upd ST E) (b :: rest)
    /\ (upd = true -> forall b', In b' (b :: rest) ->
        stored import_updated_sales_from_date w' b'
        = Some (Some (to_string E))).
Proof.
  intros Hex Hr E Hst.
  pose proof (import_updated_sales_run b rest r st en upd w Hex Hr) as H.
  cbv zeta in H. fold E in H. rewrite Hst in H.
  destruct H as (tb' & Hrun & _ & Hin & _).
  eexists. split; [exact Hrun|]. rewrite added_world_with.
  split; [reflexivity|]. intros -> b' Hb'.
  destruct (exist_In _ _ _ Hex Hb') as [r' Hr'].
  unfold stored. rewrite browse_world_with, (Hin b' r' Hb' Hr').
  reflexivity.
Qed.

(** X14: [_import_updated_sales] never touches [import_sales_from_date]:
    whether it returns or raises, every backend has the value it had, and
    no row comes or goes. *)
Theorem import_updated_sales_keeps_import_sales_from_date (self : list Z)
    (st en : option datetime) (upd : bool) (w : world) :
  exist self w ->
  let w' := world_of (_import_updated_sales self st en upd w) in
  map bk_id (amazon_backend w') = map bk_id (amazon_backend w)
  /\ forall b, stored import_sales_from_date w' b
               = stored import_sales_from_date w b.
Proof.
  intros Hex. destruct self as [|b rest]; [now split|].
  inversion Hex as [|? ? [r Hr] _]; subst.
  pose proof (import_updated_sales_run b rest r st en upd w Hex Hr) as H.
  cbv zeta in H. cbv zeta.
  destruct (updated_start st r (effective_end en w)) as [ST|].
  - destruct H as (tb' & Hrun & Hids & Hin & Hout). rewrite Hrun.
    cbn [world_of]. split; [exact Hids|]. intros b'. unfold stored.
    rewrite browse_world_with.
    destruct (in_dec Z.eq_dec b' (b :: rest)) as [Hb'|Hb'].
    + destruct (exist_In _ _ _ Hex Hb') as [r' Hr'].
      rewrite (Hin b' r' Hb' Hr'), Hr'. unfold updated_row.
      now destruct upd.
    + now rewrite (Hout b' Hb').
  - rewrite H. now split.
Qed.

(** ** The start time kept across the turns of [_import_updated_sales] *)

Lemma updated_turn_events_imports w upd ST E self m b' f :
  In (EvImportBatch m b' f) (flat_map (updated_turn_events w upd ST E) self) ->
  In b' self /\ f = updated_filters ST E.
Proof.
  intros H. apply in_flat_map in H as (b & Hb & H).
  unfold updated_turn_events, updated_events in H.
  destruct H as [H|H]; [injection H as _ -> <-; now split|].
  destruct upd; [destruct H as [H|[]]; discriminate|destruct H].
Qed.

(** C4, the defect: [import_start_time] is a local of the method, assigned
    in the first turn of the loop and kept for the later ones.  On a
    record set whose first backend has both dates, every later backend is
    imported with the window that starts at the first backend's
    [import_updated_sales_from_date], whatever its own two dates hold: a
    later backend with [import_sales_from_date] unset does not get a
    window that starts where it ends, and one with only
    [import_updated_sales_from_date] unset does not make the call raise. *)
Theorem import_updated_sales_start_carried_over (b : Z) (rest : list Z)
    (r : backend_row) (s u : Z) (en : option datetime) (upd : bool)
    (w : world) :
  exist (b :: rest) w ->
  browse b w = Some r ->
  import_sales_from_date r = Some s ->
  import_updated_sales_from_date r = Some u ->
  let E := effective_end en w in
  exists w',
    _import_updated_sales (b :: rest) None en upd w = Ok tt w'
    /\ forall b', In b' rest ->
       (exists m,
          In (EvImportBatch m b' (updated_filters (strptime_text u) E))
            (added w w'))
       /\ forall m f,
            In (EvImportBatch m b' f) (added w w') ->
            f !! "update_start" = Some (PIso (strptime_text u))
            /\ f !! "update_end" = Some (PIso E).
Proof.
  intros Hex Hr Hs Hu E.
  pose proof (import_updated_sales_run b rest r None en upd w Hex Hr) as H.
  cbv zeta in H. fold E in H. unfold updated_start in H.
  rewrite Hs, Hu in H. cbn [is_set option_map] in H.
  destruct H as (tb' & Hrun & _).
  eexists. split; [exact Hrun|]. rewrite added_world_with.
  intros b' Hb'. split.
  - exists (binding_for w "amazon.sale.order" b').
    apply in_flat_map. exists b'. split; [now right|now left].
  - intros m f Hin.
    apply updated_turn_events_imports in Hin as [_ ->]. now split.
Qed.

(** ** The import job on every backend *)

Lemma matched_all w : matched None w = map bk_id (amazon_backend w).
Proof.
  unfold matched. f_equal. induction (amazon_backend w) as [|r l IH];
    [reflexivity|]. cbn. f_equal. exact IH.
Qed.

Lemma find_row_head r rows : find_row (bk_id r) (r :: rows) = Some r.
Proof. unfold find_row. cbn. now rewrite Z.eqb_refl. Qed.

(** C5, the two steps in full, for the job with no domain on a table of
    backends with distinct ids.  The first step calls
    [_import_sale_orders] once on all backends, which imports every one of
    them and writes its dates.  The second step calls
    [_import_updated_sales] once on all backends.  When the first backend
    had one of its two dates, that call imports the updates of every
    backend and the job ends well.  When the first backend had neither --
    a backend that never imported -- the first step has set
    [import_sales_from_date] and left [import_updated_sales_from_date]
    unset, so the second step raises [TypeError] in its first turn: the
    job ends in that error with no updated-sales import made and nothing
    written after the first step. *)
Theorem scheduler_import_sale_orders_steps (w : world) (r0 : backend_row)
    (rows : list backend_row) :
  amazon_backend w = r0 :: rows ->
  NoDup (map bk_id (amazon_backend w)) ->
  let ids := map bk_id (r0 :: rows) in
  let E1 := strftime_strptime (clock w (reads w)) - timedelta_minutes 2 in
  let ST1 := match import_sales_from_date r0 with
             | Some s => strptime_text s
             | None => E1
             end in
  let E2 := strftime_strptime (clock w (S (reads w))) - timedelta_minutes 2 in
  let second_start :=
    match import_updated_sales_from_date r0 with
    | Some u => Some u
    | None => import_sales_from_date r0
    end in
  exists w1,
    _amazon_backend "_import_sale_orders" None w = Ok tt w1
    /\ added w w1
       = EvCall "_import_sale_orders" ids
         :: flat_map (sale_turn_events w true ST1 E1) ids
    /\ match second_start with
       | Some u =>
           exists w2,
             _scheduler_import_sale_orders None w = Ok tt w2
             /\ added w1 w2
                = EvCall "_import_updated_sales" ids
                  :: flat_map
                       (updated_turn_events w1 true (strptime_text u) E2) ids
       | None =>
           exists w2,
             _scheduler_import_sale_orders None w = Err TypeError w2
             /\ added w1 w2 = [EvCall "_import_updated_sales" ids]
             /\ amazon_backend w2 = amazon_backend w1
       end.
Proof.
  intros Htb Hnd ids E1 ST1 E2 second_start.
  unfold _scheduler_import_sale_orders.
  assert (map bk_id (amazon_backend w) = ids) as Hids0
    by (unfold ids; now rewrite Htb).
  rewrite Hids0 in Hnd.
  pose proof (search_matched None w) as Hs. rewrite matched_all, Hids0 in Hs.
  set (w0 := set_trace (trace w ++ [EvCall "_import_sale_orders" ids]) w).
  pose proof (search_exist _ _ _ Hs : exist ids w0) as Hex0.
  assert (browse (bk_id r0) w0 = Some r0) as Hr0.
  { unfold browse, w0. cbn [amazon_backend set_trace]. rewrite Htb.
    apply find_row_head. }
  destruct (import_sale_orders_sales_run ids None None true w0 Hnd Hex0)
    as (tb1 & Hrun1 & Hids1 & Hin1 & _).
  change (effective_end None w0) with E1 in Hrun1, Hin1.
  replace (window_start None ids w0 E1) with ST1 in Hrun1
    by (unfold window_start, ids; cbn [map]; now rewrite Hr0).
  change (match ids with
          | [] => reads w0
          | _ :: _ => S (reads w0)
          end) with (S (reads w)) in Hrun1.
  change (sale_turn_events w0 true ST1 E1)
    with (sale_turn_events w true ST1 E1) in Hrun1.
  match type of Hrun1 with _ = Ok true ?W => set (w1 := W) in * end.
  assert (_amazon_backend "_import_sale_orders" None w = Ok tt w1) as Hstep1.
  { rewrite (amazon_backend_call _ _ _ _ _ Hs ltac:(discriminate)
               (getattr_import_sale_orders w)).
    cbv beta. fold w0. now rewrite (bind_run _ _ _ _ _ Hrun1). }
  exists w1. split; [exact Hstep1|]. split.
  { apply added_app. unfold w1, w0.
    cbn [trace world_with set_reads set_amazon_backend set_trace].
    now rewrite <- app_assoc. }
  rewrite (bind_run _ _ _ _ _ Hstep1).
  assert (In (bk_id r0) ids) as Hin0 by now left.
  pose proof (Hin1 _ _ Hin0 Hr0) as Hr1.
  pose proof (search_matched None w1) as Hs1. rewrite matched_all in Hs1.
  replace (map bk_id (amazon_backend w1)) with ids in Hs1
    by (symmetry; rewrite <- Hids0; exact Hids1).
  set (w2 := set_trace (trace w1 ++ [EvCall "_import_updated_sales" ids]) w1).
  pose proof (search_exist _ _ _ Hs1 : exist ids w2) as Hex2.
  rewrite (amazon_backend_call _ _ _ _ _ Hs1 ltac:(discriminate)
             (getattr_import_updated_sales w1)).
  cbv beta. fold w2.
  assert (browse (bk_id r0) w2 = Some (finished true E1 r0)) as Hr2
    by exact Hr1.
  pose proof (import_updated_sales_run (bk_id r0) (map bk_id rows)
                (finished true E1 r0) None None true w2 Hex2 Hr2) as H.
  cbv zeta in H. change (effective_end None w2) with E2 in H.
  change (bk_id r0 :: map bk_id rows) with ids in H.
  rewrite finished_fields in H.
  cbn [updated_start import_sales_from_date import_updated_sales_from_date
       is_set] in H.
  replace (if is_set (import_updated_sales_from_date r0)
           then import_updated_sales_from_date r0
           else import_sales_from_date r0) with second_start in H
    by (unfold second_start; now destruct (import_updated_sales_from_date r0)).
  destruct second_start as [u|]; cbn [option_map] in H.
  - destruct H as (tb2 & Hrun2 & _). eexists. split; [exact Hrun2|].
    change (updated_turn_events w2 true (strptime_text u) E2)
      with (updated_turn_events w1 true (strptime_text u) E2).
    apply added_app.
    cbn [trace world_with set_reads set_amazon_backend set_trace].
    unfold w2 at 1. cbn [trace set_trace]. rewrite <- app_assoc.
    reflexivity.
  - eexists. split; [exact H|]. split; [|reflexivity].
    apply added_app. reflexivity.
Qed.

(** X15: the scheduled import job with no domain, on a table of backends
    with distinct ids.  It raises [TypeError] in its second step when the
    first backend of the table has neither [import_sales_from_date] nor
    [import_updated_sales_from_date] (the first step sets the former and
    leaves the latter unset), and it runs to its end when that backend has
    one of the two. *)
Theorem scheduler_import_sale_orders_outcome (w : world) (r0 : backend_row)
    (rows : list backend_row) :
  amazon_backend w = r0 :: rows ->
  NoDup (map bk_id (amazon_backend w)) ->
  (import_sales_from_date r0 = None
   /\ import_updated_sales_from_date r0 = None ->
   exists w', _scheduler_import_sale_orders None w = Err TypeError w')
  /\ (import_sales_from_date r0 <> None
      \/ import_updated_sales_from_date r0 <> None ->
      exists w', _scheduler_import_sale_orders None w = Ok tt w').
Proof.
  intros Htb Hnd. unfold _scheduler_import_sale_orders.
  set (ids := map bk_id (amazon_backend w)) in *.
  assert (ids = bk_id r0 :: map bk_id rows) as Hids0
    by (unfold ids; now rewrite Htb).
  pose proof (search_matched None w) as Hs. rewrite matched_all in Hs.
  fold ids in Hs.
  set (w0 := set_trace (trace w ++ [EvCall "_import_sale_orders" ids]) w).
  pose proof (search_exist _ _ _ Hs : exist ids w0) as Hex0.
  destruct (import_sale_orders_sales_run ids None None true w0 Hnd Hex0)
    as (tb1 & Hrun1 & Hids1 & Hin1 & _).
  match type of Hrun1 with _ = Ok true ?W => set (w1 := W) in * end.
  assert (_amazon_backend "_import_sale_orders" None w = Ok tt w1) as Hstep1.
  { rewrite (amazon_backend_call _ _ _ _ _ Hs
               ltac:(rewrite Hids0; discriminate)
               (getattr_import_sale_orders w)).
    cbv beta. fold w0. now rewrite (bind_run _ _ _ _ _ Hrun1). }
  rewrite (bind_run _ _ _ _ _ Hstep1).
  set (E := effective_end None w0) in *.
  assert (browse (bk_id r0) w0 = Some r0) as Hr0.
  { unfold browse, w0. cbn [amazon_backend set_trace]. rewrite Htb.
    apply find_row_head. }
  assert (In (bk_id r0) ids) as Hin0 by (rewrite Hids0; now left).
  pose proof (Hin1 _ _ Hin0 Hr0) as Hr1.
  pose proof (search_matched None w1) as Hs1. rewrite matched_all in Hs1.
  replace (map bk_id (amazon_backend w1)) with ids in Hs1 by (symmetry; exact Hids1).
  set (w2 := set_trace (trace w1 ++ [EvCall "_import_updated_sales" ids]) w1).
  pose proof (search_exist _ _ _ Hs1 : exist ids w2) as Hex2.
  rewrite (amazon_backend_call _ _ _ _ _ Hs1
             ltac:(rewrite Hids0; discriminate)
             (getattr_import_updated_sales w1)).
  cbv beta. fold w2.
  assert (browse (bk_id r0) w2 = Some (finished true E r0)) as Hr2
    by exact Hr1.
  rewrite Hids0 in Hex2 |- *.
  pose proof (import_updated_sales_run (bk_id r0) (map bk_id rows)
                (finished true E r0) None None true w2 Hex2 Hr2) as H.
  cbv zeta in H. rewrite finished_fields in H.
  cbn [updated_start import_sales_from_date import_updated_sales_from_date
       is_set] in H.
  split.
  - intros [Hf Hu]. rewrite Hf, Hu in H. cbn [is_set option_map] in H.
    eexists. exact H.
  - intros Hsome.
    assert (exists u,
               (if is_set (import_updated_sales_from_date r0)
                then import_updated_sales_from_date r0
                else import_sales_from_date r0) = Some u) as [u Hu].
    { destruct (import_updated_sales_from_date r0) as [u|]; cbn [is_set];
        [eauto|].
      destruct (import_sales_from_date r0) as [f|]; [eauto|].
      now destruct Hsome. }
    rewrite Hu in H. cbn [option_map] in H.
    destruct H as (tb2 & Hrun2 & _). eexists. exact Hrun2.
Qed.

(** ** The defaulted end time *)

(** X16: the end time the two import methods default is a whole second,
    not later than two minutes before the clock reading and less than a
    second earlier than that; taking it reads the clock once. *)
Theorem default_import_end_time_bounds (w : world) :
  exists E,
    default_import_end_time w = Ok E (set_reads (S (reads w)) w)
    /\ E mod MICRO = 0
    /\ clock w (reads w) - timedelta_minutes 2 - MICRO < E
       <= clock w (reads w) - timedelta_minutes 2.
Proof.
  eexists. split; [reflexivity|].
  unfold strftime_strptime, timedelta_minutes, MICRO.
  pose proof (Z.div_mod (clock w (reads w)) 1000000 ltac:(lia)) as Hdm.
  pose proof (Z.mod_pos_bound (clock w (reads w)) 1000000 ltac:(lia)) as Hb.
  split; [|lia].
  replace (clock w (reads w) / 1000000 * 1000000 - 2 * 60 * 1000000)
    with ((clock w (reads w) / 1000000 - 120) * 1000000) by lia.
  apply Z.mod_mul. lia.
Qed.


(** ** [_import_sale_orders] with a report *)

(** X17: with [generate_report], on one backend, the call asks
    ['amazon.report'] for the sales report of the window and, when that
    request is answered, queues the import of the report as a delayed job
    of priority 3, due five minutes after the next clock reading and
    described by the backend's name; when it is not answered nothing is
    queued.  Neither call goes through the technical user, and
    ['amazon.sale.order'] is not imported. *)
Theorem import_sale_orders_report (b : Z) (r : backend_row)
    (st en : option datetime) (upd : bool) (w : world) :
  browse b w = Some r ->
  let E := effective_end en w in
  let ST := effective_start st (import_sales_from_date r) E in
  let n1 := match en with Some _ => reads w | None => S (reads w) end in
  exists w',
    _import_sale_orders [b] st en true upd w = Ok true w'
    /\ List.filter is_import (added w w')
       = EvImportBatch (env_model "amazon.report") b (report_filters ST E)
         :: match report_import_batch w b (report_filters ST E) with
            | Some ids =>
                [EvImportBatch
                   {| model_name := "amazon.report"; su := None;
                      delay := Some (3, clock w n1 + timedelta_minutes 5);
                      description :=
                        Some (String.append "Generate sales report to: "
                                (bk_name r)) |}
                   b (<["report_id" := PList [ids]]>
                        {["method" := PStr "get_sales"]})]
            | None => []
            end.
Proof.
  intros Hr E ST n1. unfold _import_sale_orders.
  cbn [_import_sale_orders_loop].
  pose proof (import_sale_orders_body_ww b r st en true upd (reads w)
                (amazon_backend w) (trace w) w Hr) as Hbody.
  rewrite world_with_id in Hbody. cbv zeta in Hbody.
  change (end_at en (clock w (reads w))) with E in Hbody.
  fold ST in Hbody. fold n1 in Hbody.
  match type of Hbody with
  | _ = Ok _ ?W => rewrite (bind_run _ _ w tt W)
  end.
  2:{ rewrite (bind_run _ _ _ _ _ Hbody). reflexivity. }
  eexists. split; [reflexivity|]. rewrite added_world_with.
  rewrite !List.filter_app. unfold synced_events, update_events, import_events.
  destruct (is_set _), upd,
    (report_import_batch w b (report_filters ST E)); reflexivity.
Qed.

(** ** The user a job works as *)

(** X18: the lines every job starts a turn with give the binding of the
    model asked for, not delayed, and switched to the technical user of
    the backend's company exactly when that user is set and is not the
    user of the environment. *)
Theorem job_binding_user (b : Z) (r : backend_row) (name : string) (w : world) :
  browse b w = Some r ->
  exists m,
    (user <- tech_user b;; as_user user (env_model name)) w = Ok m w
    /\ model_name m = name
    /\ delay m = None
    /\ forall u, su m = Some u <-> user_tech_id r = Some u /\ u <> uid w.
Proof.
  intros Hr. exists (binding_for w name b).
  split; [now apply (binding_run b r)|].
  split; [apply binding_for_model|].
  unfold binding_for. rewrite Hr.
  destruct (user_tech_id r) as [x|].
  - destruct (x =? uid w) eqn:E.
    + apply Z.eqb_eq in E. split; [reflexivity|]. intros u. cbn. split.
      * discriminate.
      * intros [Hx Hne]. injection Hx as ->. now contradiction Hne.
    + apply Z.eqb_neq in E. split; [reflexivity|]. intros u. cbn. split.
      * intros Hx. injection Hx as ->. now split.
      * intros [Hx _]. exact Hx.
  - split; [reflexivity|]. intros u. cbn. split.
    + discriminate.
    + intros [Hx _]. discriminate.
Qed.

(** ** Dispatch with no domain *)

(** X19: with no domain, [_amazon_backend] calls the callback on every
    backend of the table, in table order, in one call. *)
Theorem amazon_backend_no_domain (cb : string) (m : method) (w : world)
    (r0 : backend_row) (rows : list backend_row) :
  amazon_backend w = r0 :: rows ->
  getattr cb w = Ok m w ->
  _amazon_backend cb None w
  = m (map bk_id (r0 :: rows))
      (set_trace (trace w ++ [EvCall cb (map bk_id (r0 :: rows))]) w).
Proof.
  intros Htb Hg. pose proof (search_matched None w) as Hs.
  rewrite matched_all, Htb in Hs.
  now apply (amazon_backend_call _ _ _ _ _ Hs).
Qed.

(** ** [_get_marketplace_default] *)

Lemma first_market_spec b r w markets :
  browse b w = Some r ->
  exists res,
    first_market b markets w = Ok res w
    /\ match res with
       | Some market =>
           exists before after,
             markets = before ++ market :: after
             /\ id_eq (country_id market) (region b) = true
             /\ Forall (fun x => id_eq (country_id x) (region b) = false)
                  before
       | None =>
           Forall (fun x => id_eq (country_id x) (region b) = false) markets
       end.
Proof.
  intros Hr. induction markets as [|x rest IH].
  - exists None. split; [reflexivity|constructor].
  - cbn [first_market]. unfold bind at 1.
    rewrite (field_run _ _ _ _ Hr).
    destruct (id_eq (country_id x) (region b)) eqn:E.
    + exists (Some x). split; [reflexivity|].
      exists [], rest. repeat split; [exact E|constructor].
    + destruct IH as (res & Hrun & Hres). exists res. split; [exact Hrun|].
      destruct res as [market|].
      * destruct Hres as (before & after & -> & Hm & Hb).
        exists (x :: before), after. repeat split; [exact Hm|].
        now constructor.
      * now constructor.
Qed.

(** X20: on one backend, [_get_marketplace_default] returns the first of
    the backend's marketplaces, in the order the field gives them, whose
    country is the backend's region; it returns [None] exactly when no
    marketplace has that country.  Nothing is written. *)
Theorem get_marketplace_default_first_match (b : Z) (r : backend_row)
    (w : world) :
  browse b w = Some r ->
  exists res,
    _get_marketplace_default [b] w = Ok res w
    /\ match res with
       | Some market =>
           exists before after,
             marketplace_ids b = before ++ market :: after
             /\ id_eq (country_id market) (region b) = true
             /\ Forall (fun x => id_eq (country_id x) (region b) = false)
                  before
       | None =>
           Forall (fun x => id_eq (country_id x) (region b) = false)
             (marketplace_ids b)
       end.
Proof.
  intros Hr. unfold _get_marketplace_default. cbn [ensure_one].
  unfold bind at 1. unfold ret at 1. unfold bind at 1.
  rewrite (field_run _ _ _ _ Hr). now apply (first_market_spec b r).
Qed.

(** ** Two runs of [_import_updated_sales] *)

(** X21: two runs in a row on one backend that has both dates, with the
    defaults: the first run imports the updates from the stored
    [import_updated_sales_from_date] to its end time and stores that end;
    the second run's window starts at that very time. *)
Theorem import_updated_sales_runs_contiguous (b : Z) (r : backend_row)
    (f u : Z) (w : world) :
  browse b w = Some r ->
  import_sales_from_date r = Some f ->
  import_updated_sales_from_date r = Some u ->
  let E1 := strftime_strptime (clock w (reads w)) - timedelta_minutes 2 in
  let E2 := strftime_strptime (clock w (S (reads w))) - timedelta_minutes 2 in
  let m := binding_for w "amazon.sale.order" b in
  exists w1 w2,
    _import_updated_sales [b] None None true w = Ok tt w1
    /\ _import_updated_sales [b] None None true w1 = Ok tt w2
    /\ List.filter is_import (added w w1)
       = [EvImportBatch m b (updated_filters (strptime_text u) E1)]
    /\ List.filter is_import (added w1 w2)
       = [EvImportBatch m b (updated_filters E1 E2)].
Proof.
  intros Hr Hf Hu E1 E2 m.
  assert (exist [b] w) as Hex by (constructor; [now exists r|constructor]).
  pose proof (import_updated_sales_run b [] r None None true w Hex Hr) as H1.
  cbv zeta in H1. unfold updated_start in H1. rewrite Hf, Hu in H1.
  cbn [is_set option_map effective_end] in H1. fold E1 in H1.
  destruct H1 as (tb1 & Hrun1 & _ & Hin1 & _).
  specialize (Hin1 b r (or_introl eq_refl) Hr).
  match type of Hrun1 with _ = Ok tt ?W => set (w1 := W) in * end.
  assert (browse b w1 = Some (updated_row true E1 r)) as Hr1 by exact Hin1.
  assert (exist [b] w1) as Hex1 by (constructor; [eauto|constructor]).
  pose proof (import_updated_sales_run b [] (updated_row true E1 r) None None
                true w1 Hex1 Hr1) as H2.
  cbv zeta in H2. unfold updated_start, updated_row in H2.
  cbn [import_sales_from_date import_updated_sales_from_date
       set_import_updated_sales_from_date] in H2.
  rewrite Hf in H2. cbn [is_set option_map] in H2.
  change (effective_end None w1) with E2 in H2.
  unfold E1 in H2 at 1. rewrite default_end_whole_second in H2. fold E1 in H2.
  destruct H2 as (tb2 & Hrun2 & _).
  exists w1. eexists. split; [exact Hrun1|]. split; [exact Hrun2|].
  rewrite added_world_with. unfold w1 at 1. rewrite added_world_with.
  cbn [flat_map updated_turn_events updated_events app List.filter is_import].
  split; [reflexivity|]. do 2 f_equal.
  unfold m, binding_for. rewrite Hr1, Hr. reflexivity.
Qed.

End AmazonBackend.

(** * The theorems at concrete inputs *)

(** C6, counterexample: a backend whose stored [import_sales_from_date]
    (second 2000) is later than the clock (second 1000) gets a window that
    starts after it ends (second 880). *)
Lemma default_window_not_ordered : ~ default_window_ordered 1 w_ahead.
Proof.
  intros H.
  specialize (H _ (env_model "amazon.sale.order")
                (sale_filters 2000000000 880000000) 2000000000 880000000
                eq_refl).
  assert (2000000000 <= 880000000) as Habs.
  { apply H; [|reflexivity..]. vm_compute. left. reflexivity. }
  lia.
Qed.

(** C4 at the failing input: in a set of two, the second backend has no
    [import_sales_from_date], yet its window starts at the second 50 the
    first backend stored and ends at second 880. *)
Lemma unset_start_not_end : ~ unset_start_is_end [1; 2] w_mixed.
Proof.
  intros H.
  specialize (H 2 row_new
                (world_of (_import_updated_sales [1; 2] None None true w_mixed))
                (env_model "amazon.sale.order")
                (updated_filters 50000000 880000000) 50000000 880000000).
  assert (50000000 = 880000000) as Habs.
  { apply H; try reflexivity; [right; now left|].
    vm_compute. do 2 right. left. reflexivity. }
  discriminate.
Qed.

(** The same carry-over in [_import_sale_orders]: the second backend, with
    no stored date, is imported from the first backend's second 100. *)
Example import_sale_orders_second_backend_start :
  nth_error
    (added w_two
       (world_of (_import_sale_orders [1; 2] None None false false w_two))) 3
  = Some (EvImportBatch (env_model "amazon.sale.order") 2
            (sale_filters 100000000 880000000)).
Proof. vm_compute. reflexivity. Qed.

(** A backend that never imported makes the scheduled job raise in its
    second step: the first step sets [import_sales_from_date] and leaves
    [import_updated_sales_from_date] unset. *)
Example scheduler_import_sale_orders_new_backend :
  match _scheduler_import_sale_orders 10 no_other_attr None w_new with
  | Err TypeError w' =>
      stored import_sales_from_date w' 2 = Some (Some 880)
      /\ stored import_updated_sales_from_date w' 2 = Some None
  | _ => False
  end.
Proof. vm_compute. split; reflexivity. Qed.

(** C7, counterexample: for the name the price-change job passes, which
    no method has, a matched backend gets no call at all. *)
Lemma missing_callback_not_called :
  ~ called_once_iff_matched 10 no_other_attr
      "_throw_delayed_jobs_for_price_changes" None w_two.
Proof.
  intros [_ H].
  assert (matched None w_two <> []) as Hm by (vm_compute; discriminate).
  apply H in Hm. vm_compute in Hm. discriminate.
Qed.

(** C1 at [w_two]: the price-change job matches both backends and ends in
    [AttributeError]. *)
Lemma scheduler_throw_jobs_for_price_changes_raises_witness :
  no_other_attr "_throw_delayed_jobs_for_price_changes" = None
  /\ search (default_domain None) w_two = Ok [1; 2] w_two
  /\ [1; 2] <> ([] : list Z)
  /\ _scheduler_throw_jobs_for_price_changes 10 no_other_attr None w_two
     = Err (AttributeError "_throw_delayed_jobs_for_price_changes") w_two.
Proof.
  split; [reflexivity|]. split; [reflexivity|]. split; [discriminate|].
  apply (scheduler_throw_jobs_for_price_changes_raises 10 no_other_attr None
           w_two [1; 2]); [reflexivity|reflexivity|discriminate].
Defined.

(** C2 at [w_two]: one [export_batch] for backend 1, under the technical
    user 7, then one for backend 2. *)
Lemma scheduler_update_product_prices_stock_qty_exports_each_witness :
  search (default_domain None) w_two = Ok [1; 2] w_two
  /\ [1; 2] <> ([] : list Z)
  /\ exists w',
       _scheduler_update_product_prices_stock_qty 10 no_other_attr None w_two
       = Ok tt w'
       /\ trace w'
          = [ EvCall "_update_product_stock_qty_prices" [1; 2];
              EvExportBatch (sudo 7 (env_model "amazon.product.product")) 1;
              EvExportBatch (env_model "amazon.product.product") 2 ].
Proof.
  split; [reflexivity|]. split; [discriminate|].
  destruct (scheduler_update_product_prices_stock_qty_exports_each 10
              no_other_attr None w_two [1; 2])
    as (w' & Hrun & Htrace & _); [reflexivity|discriminate|].
  exists w'. split; [exact Hrun|exact Htrace].
Defined.

(** C3 at [w_two]: both backends end with the end time, second 880. *)
Lemma import_sale_orders_update_import_date_witness :
  exist [1; 2] w_two
  /\ exists w',
       _import_sale_orders [1; 2] None None false true w_two = Ok true w'
       /\ stored import_sales_from_date w' 1 = Some (Some 880)
       /\ stored import_sales_from_date w' 2 = Some (Some 880).
Proof.
  assert (exist [1; 2] w_two) as Hex
    by (repeat constructor; eexists; reflexivity).
  split; [exact Hex|].
  destruct (import_sale_orders_update_import_date [1; 2] None None false true
              w_two Hex) as (w' & Hrun & Hupd & _).
  exists w'. split; [exact Hrun|]. split.
  - apply (Hupd eq_refl 1). now left.
  - apply (Hupd eq_refl 2). right. now left.
Defined.

(** The first turn at [w_two]: backend 1 has [import_sales_from_date] set and
    [import_updated_sales_from_date] unset, so the call raises. *)
Lemma import_updated_sales_start_time_witness :
  exist [1; 2] w_two
  /\ browse 1 w_two = Some row_started
  /\ exists w',
       _import_updated_sales [1; 2] None None true w_two = Err TypeError w'
       /\ amazon_backend w' = amazon_backend w_two
       /\ trace w' = trace w_two.
Proof.
  assert (exist [1; 2] w_two) as Hex
    by (repeat constructor; eexists; reflexivity).
  split; [exact Hex|]. split; [reflexivity|].
  exact (import_updated_sales_start_time 1 [2] row_started None true w_two
           Hex eq_refl).
Defined.

(** C6 at [w_two]: backend 1 gets the window from its stored second 100 to
    second 880, two minutes before the clock's second 1000. *)
Lemma import_sale_orders_default_window_witness :
  exist [1; 2] w_two
  /\ browse 1 w_two = Some row_started
  /\ exists w' l1 m f l2,
       _import_sale_orders [1; 2] None None false true w_two = Ok true w'
       /\ added w_two w' = l1 ++ EvImportBatch m 1 f :: l2
       /\ f !! "date_start" = Some (PIso 100000000)
       /\ f !! "date_end" = Some (PIso 880000000).
Proof.
  assert (exist [1; 2] w_two) as Hex
    by (repeat constructor; eexists; reflexivity).
  split; [exact Hex|]. split; [reflexivity|].
  destruct (import_sale_orders_default_window 1 [2] row_started None None
              false true w_two Hex eq_refl)
    as (w' & l1 & m & f & l2 & Hrun & Hadd & _ & Hs & He & _).
  exists w', l1, m, f, l2. repeat split; assumption.
Defined.

(** C7 at [w_two]: [_fix_amazon_data] is called once on the two matched
    backends. *)
Lemma amazon_backend_dispatch_witness :
  search (default_domain None) w_two = Ok [1; 2] w_two
  /\ (calls "_fix_amazon_data"
        (added w_two
           (world_of (_amazon_backend 10 no_other_attr "_fix_amazon_data"
                        None w_two))) = 1%nat
      <-> [1; 2] <> ([] : list Z)).
Proof.
  split; [reflexivity|].
  destruct (amazon_backend_dispatch 10 no_other_attr "_fix_amazon_data" None
              w_two [1; 2] eq_refl) as [_ H].
  apply (H (fun self => _fix_amazon_data self;; ret tt) eq_refl).
  intros self. apply quiet_bind; [apply quiet_fix_amazon_data|].
  intros b. apply quiet_ret.
Defined.

(** C8 at [w_two]: two backends, two [submit_feeds]. *)
Lemma throw_feeds_submits_once_per_backend_witness :
  exist [1; 2] w_two
  /\ exists w',
       _throw_feeds [1; 2] w_two = Ok tt w'
       /\ length (List.filter is_submit_feeds (added w_two w')) = 2%nat.
Proof.
  assert (exist [1; 2] w_two) as Hex
    by (repeat constructor; eexists; reflexivity).
  split; [exact Hex|].
  destruct (throw_feeds_submits_once_per_backend [1; 2] w_two Hex)
    as (w' & Hrun & _ & _ & Hlen).
  exists w'. split; [exact Hrun|exact Hlen].
Defined.

(** C10 at [w_two]: of the two backends only backend 1 is handed over. *)
Lemma fix_amazon_data_first_backend_only_witness :
  exist [1; 2] w_two
  /\ exists w',
       _fix_amazon_data [1; 2] w_two = Ok true w'
       /\ trace w' = [EvRunDelayedJobs (sudo 7 (env_model "amazon.fix.data")) 1].
Proof.
  assert (exist [1; 2] w_two) as Hex
    by (repeat constructor; eexists; reflexivity).
  split; [exact Hex|].
  destruct (fix_amazon_data_first_backend_only [1; 2] w_two Hex)
    as (w' & Hrun & Htrace & _).
  exists w'. split; [exact Hrun|exact Htrace].
Defined.

(** ** The further properties at concrete inputs *)

(** X1 at a set of two backends: [ValueError], the world as it was. *)
Lemma work_on_not_single_witness :
  length [1; 2] <> 1%nat
  /\ work_on (A:=unit) [1; 2] "amazon.product.product" (fun _ => ret tt) w_two
     = Err ValueError w_two.
Proof.
  split; [discriminate|].
  apply (work_on_not_single (A:=unit) [1; 2] "amazon.product.product"
           (fun _ => ret tt) w_two).
  discriminate.
Defined.

(** X2 with a block that raises: both contexts are left and the error
    comes out. *)
Example work_on_block_raises :
  work_on (A:=unit) [1] "amazon.product.product" (fun _ => raise TypeError)
    w_two
  = Err TypeError
      (set_trace
         [ EvAmazonAPIEnter 1; EvWorkOnEnter 1 "amazon.product.product";
           EvWorkOnExit 1 "amazon.product.product"; EvAmazonAPIExit 1 ]
         w_two).
Proof. reflexivity. Qed.

(** X3 at [w_two]: both backends are matched, only backend 1 is handed
    over. *)
Lemma scheduler_fix_data_first_matched_only_witness :
  search (default_domain None) w_two = Ok [1; 2] w_two
  /\ exists w',
       _scheduler_connector_amazon_fix_data 10 no_other_attr None w_two
       = Ok tt w'
       /\ trace w'
          = [ EvCall "_fix_amazon_data" [1; 2];
              EvRunDelayedJobs (sudo 7 (env_model "amazon.fix.data")) 1 ].
Proof.
  split; [reflexivity|].
  destruct (scheduler_fix_data_first_matched_only 10 no_other_attr None w_two
              1 [2] eq_refl) as (w' & Hrun & Htrace & _).
  exists w'. split; [exact Hrun|exact Htrace].
Defined.

(** X4 at [w_two]: two matched backends, two [submit_feeds]. *)
Lemma scheduler_throw_feeds_each_matched_witness :
  search (default_domain None) w_two = Ok [1; 2] w_two
  /\ [1; 2] <> ([] : list Z)
  /\ exists w',
       _scheduler_throw_feeds 10 no_other_attr None w_two = Ok tt w'
       /\ length (List.filter is_submit_feeds (added w_two w')) = 2%nat.
Proof.
  split; [reflexivity|]. split; [discriminate|].
  destruct (scheduler_throw_feeds_each_matched 10 no_other_attr None w_two
              [1; 2] eq_refl) as (w' & Hrun & _ & _ & Hlen);
    [discriminate|].
  exists w'. split; [exact Hrun|exact Hlen].
Defined.

(** X5 at [w_messages]: backend 1 alone has an SQS account; with two
    product details it gets jobs for its two oldest unprocessed messages,
    12 and 15, and none for 11. *)
Example throw_delayed_jobs_sample :
  thrown
    (added w_messages
       (world_of (_throw_delayed_jobs_for_price_changess 10 [1; 2] w_messages)))
  = [ {["message" := PInt 12]}; {["message" := PInt 15]} ].
Proof. vm_compute. reflexivity. Qed.

(** X10 at [w_two]: both backends are imported with the window backend 1
    fixed, from its stored second 100 to second 880. *)
Lemma import_sale_orders_one_window_witness :
  NoDup [1; 2]
  /\ exist [1; 2] w_two
  /\ exists w',
       _import_sale_orders [1; 2] None None false true w_two = Ok true w'
       /\ List.filter is_import (added w_two w')
          = [ EvImportBatch (sudo 7 (env_model "amazon.sale.order")) 1
                (sale_filters 100000000 880000000);
              EvImportBatch (env_model "amazon.sale.order") 2
                (sale_filters 100000000 880000000) ].
Proof.
  assert (NoDup [1; 2]) as Hnd
    by (apply (bool_decide_unpack (NoDup [1; 2])); vm_compute; exact I).
  assert (exist [1; 2] w_two) as Hex
    by (repeat constructor; eexists; reflexivity).
  split; [exact Hnd|]. split; [exact Hex|].
  destruct (import_sale_orders_one_window [1; 2] None None true w_two Hnd Hex)
    as (w' & Hrun & _ & Himp & _).
  exists w'. split; [exact Hrun|exact Himp].
Defined.

(** X11 at [w_two]: backend 1 ends with [import_sales_from_date] at the
    end time and [import_updated_sales_from_date] at the second 100 it had
    stored. *)
Lemma import_sale_orders_rows_witness :
  NoDup [1; 2]
  /\ exist [1; 2] w_two
  /\ exists w',
       _import_sale_orders [1; 2] None None false true w_two = Ok true w'
       /\ stored import_sales_from_date w' 1 = Some (Some 880)
       /\ stored import_updated_sales_from_date w' 1 = Some (Some 100).
Proof.
  assert (NoDup [1; 2]) as Hnd
    by (apply (bool_decide_unpack (NoDup [1; 2])); vm_compute; exact I).
  assert (exist [1; 2] w_two) as Hex
    by (repeat constructor; eexists; reflexivity).
  split; [exact Hnd|]. split; [exact Hex|].
  destruct (import_sale_orders_rows [1; 2] None None true w_two Hnd Hex)
    as (w' & Hrun & _ & Hin & _).
  exists w'. split; [exact Hrun|].
  pose proof (Hin 1 row_started (or_introl eq_refl) eq_refl) as H1.
  unfold stored. rewrite H1. split; reflexivity.
Defined.

(** X12 at [w_two], backend 1: the first run imports from second 100 to
    second 880, the second from second 880. *)
Lemma import_sale_orders_runs_contiguous_witness :
  browse 1 w_two = Some row_started
  /\ exists w1 w2,
       _import_sale_orders [1] None None false true w_two = Ok true w1
       /\ _import_sale_orders [1] None None false true w1 = Ok true w2
       /\ List.filter is_import (added w_two w1)
          = [ EvImportBatch (sudo 7 (env_model "amazon.sale.order")) 1
                (sale_filters 100000000 880000000) ]
       /\ List.filter is_import (added w1 w2)
          = [ EvImportBatch (sudo 7 (env_model "amazon.sale.order")) 1
                (sale_filters 880000000 880000000) ].
Proof.
  split; [reflexivity|].
  destruct (import_sale_orders_runs_contiguous 1 row_started w_two eq_refl)
    as (w1 & w2 & H1 & H2 & H3 & H4).
  exists w1, w2. repeat split; assumption.
Defined.

(** X13 at [w_mixed]: backend 1 stored second 50; both backends get the
    window from there and end with the end time, second 880. *)
Lemma import_updated_sales_one_window_witness :
  exist [1; 2] w_mixed
  /\ browse 1 w_mixed = Some row_both
  /\ updated_start None row_both (effective_end None w_mixed) = Some 50000000
  /\ exists w',
       _import_updated_sales [1; 2] None None true w_mixed = Ok tt w'
       /\ stored import_updated_sales_from_date w' 1 = Some (Some 880)
       /\ stored import_updated_sales_from_date w' 2 = Some (Some 880).
Proof.
  assert (exist [1; 2] w_mixed) as Hex
    by (repeat constructor; eexists; reflexivity).
  split; [exact Hex|]. split; [reflexivity|]. split; [reflexivity|].
  destruct (import_updated_sales_one_window 1 [2] row_both None None true
              50000000 w_mixed Hex eq_refl eq_refl)
    as (w' & Hrun & _ & Hupd).
  exists w'. split; [exact Hrun|]. split.
  - apply (Hupd eq_refl 1). now left.
  - apply (Hupd eq_refl 2). right. now left.
Defined.

(** X14 at [w_mixed]: backend 1 keeps its second 100. *)
Lemma import_updated_sales_keeps_import_sales_from_date_witness :
  exist [1; 2] w_mixed
  /\ stored import_sales_from_date
       (world_of (_import_updated_sales [1; 2] None None true w_mixed)) 1
     = Some (Some 100).
Proof.
  assert (exist [1; 2] w_mixed) as Hex
    by (repeat constructor; eexists; reflexivity).
  split; [exact Hex|].
  destruct (import_updated_sales_keeps_import_sales_from_date [1; 2] None None
              true w_mixed Hex) as [_ H].
  rewrite (H 1). reflexivity.
Defined.

(** X15 at [w_two]: the first backend has [import_sales_from_date], the
    job ends well. *)
Lemma scheduler_import_sale_orders_outcome_witness :
  amazon_backend w_two = [row_started; row_new]
  /\ NoDup (map bk_id (amazon_backend w_two))
  /\ exists w',
       _scheduler_import_sale_orders 10 no_other_attr None w_two = Ok tt w'.
Proof.
  assert (NoDup (map bk_id (amazon_backend w_two))) as Hnd
    by (apply (bool_decide_unpack (NoDup [1; 2])); vm_compute; exact I).
  split; [reflexivity|]. split; [exact Hnd|].
  destruct (scheduler_import_sale_orders_outcome 10 no_other_attr w_two
              row_started [row_new] eq_refl Hnd) as [_ H].
  apply H. left. discriminate.
Defined.

(** X17 at [w_report]: the request for the window from second 100 to
    second 880 is answered with the report ids 9, whose import is queued
    for five minutes after the second clock reading. *)
Lemma import_sale_orders_report_witness :
  browse 1 w_report = Some row_started
  /\ exists w',
       _import_sale_orders [1] None None true true w_report = Ok true w'
       /\ List.filter is_import (added w_report w')
          = [ EvImportBatch (env_model "amazon.report") 1
                (report_filters 100000000 880000000);
              EvImportBatch
                {| model_name := "amazon.report"; su := None;
                   delay := Some (3, 1300500001);
                   description := Some "Generate sales report to: eu" |}
                1 (<["report_id" := PList [PInt 9]]>
                     {["method" := PStr "get_sales"]}) ].
Proof.
  split; [reflexivity|].
  destruct (import_sale_orders_report 1 row_started None None true w_report
              eq_refl) as (w' & Hrun & Himp).
  exists w'. split; [exact Hrun|exact Himp].
Defined.

(** X18 at [w_two]: backend 1's company has the technical user 7, who is
    not the user 1 of the environment. *)
Lemma job_binding_user_witness :
  browse 1 w_two = Some row_started
  /\ exists m,
       (user <- tech_user 1;; as_user user (env_model "amazon.fix.data")) w_two
       = Ok m w_two
       /\ su m = Some 7.
Proof.
  split; [reflexivity|].
  destruct (job_binding_user 1 row_started "amazon.fix.data" w_two eq_refl)
    as (m & Hrun & _ & _ & Hsu).
  exists m. split; [exact Hrun|]. apply Hsu. split; [reflexivity|].
  discriminate.
Defined.

(** X19 at [w_two]: [_throw_feeds] is called on both backends. *)
Lemma amazon_backend_no_domain_witness :
  amazon_backend w_two = [row_started; row_new]
  /\ getattr 10 no_other_attr "_throw_feeds" w_two = Ok _throw_feeds w_two
  /\ _amazon_backend 10 no_other_attr "_throw_feeds" None w_two
     = _throw_feeds [1; 2]
         (set_trace (trace w_two ++ [EvCall "_throw_feeds" [1; 2]]) w_two).
Proof.
  split; [reflexivity|]. split; [reflexivity|].
  exact (amazon_backend_no_domain 10 no_other_attr "_throw_feeds" _throw_feeds
           w_two row_started [row_new] eq_refl eq_refl).
Defined.

(** X20 at backend 1 of [w_two], of region 3, with marketplaces of
    countries 5, 3 and 3: the first marketplace of country 3 is the
    default. *)
Lemma get_marketplace_default_first_match_witness :
  let markets :=
    [ {| mp_id := 1; id_mws := "A1"; country_id := Some 5 |};
      {| mp_id := 2; id_mws := "A2"; country_id := Some 3 |};
      {| mp_id := 3; id_mws := "A3"; country_id := Some 3 |} ] in
  browse 1 w_two = Some row_started
  /\ exists res,
       _get_marketplace_default (fun _ => markets) (fun _ => Some 3) [1] w_two
       = Ok res w_two
       /\ res = Some {| mp_id := 2; id_mws := "A2"; country_id := Some 3 |}.
Proof.
  intros markets. split; [reflexivity|].
  destruct (get_marketplace_default_first_match (fun _ => markets)
              (fun _ => Some 3) 1 row_started w_two eq_refl)
    as (res & Hrun & _).
  exists res. split; [exact Hrun|].
  change (Ok (Some {| mp_id := 2; id_mws := "A2"; country_id := Some 3 |})
            w_two = Ok res w_two) in Hrun.
  injection Hrun as <-. reflexivity.
Defined.

(** X21 at [w_mixed], backend 1: the first run imports the updates from
    the stored second 50 to second 880, the second from second 880. *)
Lemma import_updated_sales_runs_contiguous_witness :
  browse 1 w_mixed = Some row_both
  /\ exists w1 w2,
       _import_updated_sales [1] None None true w_mixed = Ok tt w1
       /\ _import_updated_sales [1] None None true w1 = Ok tt w2
       /\ List.filter is_import (added w_mixed w1)
          = [ EvImportBatch (env_model "amazon.sale.order") 1
                (updated_filters 50000000 880000000) ]
       /\ List.filter is_import (added w1 w2)
          = [ EvImportBatch (env_model "amazon.sale.order") 1
                (updated_filters 880000000 880000000) ].
Proof.
  split; [reflexivity|].
  destruct (import_updated_sales_runs_contiguous 1 row_both 100 50 w_mixed
              eq_refl eq_refl eq_refl)
    as (w1 & w2 & H1 & H2 & H3 & H4).
  exists w1, w2. repeat split; assumption.
Defined.

(** C6 with one time given: each default hangs on its own argument.  With
    the end given as second 500 the start is still the stored second 100;
    with the start given as second 300 the end is still second 880. *)
Example import_sale_orders_end_given :
  List.filter is_import
    (added w_two
       (world_of
          (_import_sale_orders [1] None (Some 500000000) false false w_two)))
  = [ EvImportBatch (sudo 7 (env_model "amazon.sale.order")) 1
        (sale_filters 100000000 500000000) ].
Proof. vm_compute. reflexivity. Qed.

Example import_sale_orders_start_given :
  List.filter is_import
    (added w_two
       (world_of
          (_import_sale_orders [1] (Some 300000000) None false false w_two)))
  = [ EvImportBatch (sudo 7 (env_model "amazon.sale.order")) 1
        (sale_filters 300000000 880000000) ].
Proof. vm_compute. reflexivity. Qed.

(** C4 at [w_mixed]: backend 1 has both dates, backend 2 has no
    [import_sales_from_date]; backend 2 is imported from backend 1's
    second 50 to second 880, not from second 880. *)
Lemma import_updated_sales_start_carried_over_witness :
  exist [1; 2] w_mixed
  /\ browse 1 w_mixed = Some row_both
  /\ import_sales_from_date row_both = Some 100
  /\ import_updated_sales_from_date row_both = Some 50
  /\ stored import_sales_from_date w_mixed 2 = Some None
  /\ exists w' m,
       _import_updated_sales [1; 2] None None true w_mixed = Ok tt w'
       /\ In (EvImportBatch m 2 (updated_filters 50000000 880000000))
            (added w_mixed w').
Proof.
  assert (exist [1; 2] w_mixed) as Hex
    by (repeat constructor; eexists; reflexivity).
  split; [exact Hex|]. do 4 (split; [reflexivity|]).
  destruct (import_updated_sales_start_carried_over 1 [2] row_both 100 50
              None true w_mixed Hex eq_refl eq_refl eq_refl)
    as (w' & Hrun & Hall).
  destruct (Hall 2 (or_introl eq_refl)) as [[m Hm] _].
  exists w', m. split; [exact Hrun|exact Hm].
Defined.

(** C5 at [w_new], a table of one backend that never imported: the first
    step copies the unset [import_sales_from_date] into
    [import_updated_sales_from_date], imports and only then sets
    [import_sales_from_date]; the second step is called and raises before
    it imports anything. *)
Lemma scheduler_import_sale_orders_steps_witness :
  amazon_backend w_new = [row_new]
  /\ NoDup (map bk_id (amazon_backend w_new))
  /\ exists w1 w2,
       _amazon_backend 10 no_other_attr "_import_sale_orders" None w_new
       = Ok tt w1
       /\ added w_new w1
          = [ EvCall "_import_sale_orders" [2];
              EvWrite 2 "import_updated_sales_from_date" None;
              EvImportBatch (env_model "amazon.sale.order") 2
                (sale_filters 880000000 880000000);
              EvWrite 2 "import_sales_from_date" (Some 880) ]
       /\ _scheduler_import_sale_orders 10 no_other_attr None w_new
          = Err TypeError w2
       /\ added w1 w2 = [EvCall "_import_updated_sales" [2]].
Proof.
  assert (NoDup (map bk_id (amazon_backend w_new))) as Hnd
    by (apply (bool_decide_unpack (NoDup [2])); vm_compute; exact I).
  split; [reflexivity|]. split; [exact Hnd|].
  destruct (scheduler_import_sale_orders_steps 10 no_other_attr w_new row_new
              [] eq_refl Hnd) as (w1 & Hstep1 & Hadd1 & w2 & Hrun & Hadd2 & _).
  exists w1, w2. split; [exact Hstep1|]. split; [exact Hadd1|].
  split; [exact Hrun|exact Hadd2].
Defined.

(** X7 at [w_messages] with the constant at 1: backend 1, the one backend
    with an SQS account, has two details and three unprocessed messages;
    one job is queued at most. *)
Lemma throw_delayed_jobs_at_most_cap_witness :
  (0 < 1)%nat
  /\ (forall r, In r (amazon_backend w_messages) ->
      sqs_account_id r <> None ->
      (0 < length (List.filter
                     (fun d => same_backend (det_backend_id d) (bk_id r))
                     (amazon_product_product_detail w_messages)))%nat)
  /\ exists w',
       _throw_delayed_jobs_for_price_changess 1 [1; 2] w_messages = Ok tt w'
       /\ (length (thrown (added w_messages w')) <= 1)%nat.
Proof.
  assert (0 < 1)%nat as Hcap by lia.
  assert (forall r, In r (amazon_backend w_messages) ->
          sqs_account_id r <> None ->
          (0 < length (List.filter
                         (fun d => same_backend (det_backend_id d) (bk_id r))
                         (amazon_product_product_detail w_messages)))%nat)
    as Hdet.
  { intros r [<-|[<-|[]]] Hs; [vm_compute; lia|now contradiction Hs]. }
  split; [exact Hcap|]. split; [exact Hdet|].
  destruct (throw_delayed_jobs_at_most_cap 1 [1; 2] w_messages Hcap Hdet)
    as (w' & Hrun & _ & Hlen).
  exists w'. split; [exact Hrun|exact Hlen].
Defined.

(** X8 at [w_no_details] with the constant at 1: backend 1 has no product
    detail, and its newest unprocessed message, 11, gets a job all the
    same. *)
Lemma throw_delayed_jobs_all_without_details_witness :
  let m := {| msg_id := 11; msg_backend_id := Some 1; processed := false;
              create_date := 30 |} in
  In row_sqs (amazon_backend w_no_details)
  /\ sqs_account_id row_sqs <> None
  /\ List.filter (fun d => same_backend (det_backend_id d) (bk_id row_sqs))
       (amazon_product_product_detail w_no_details) = []
  /\ In m (amazon_config_sqs_message w_no_details)
  /\ exists w',
       _throw_delayed_jobs_for_price_changess 1 [1; 2] w_no_details = Ok tt w'
       /\ In {["message" := PInt 11]} (thrown (added w_no_details w')).
Proof.
  intros m.
  assert (In row_sqs (amazon_backend w_no_details)) as Hr
    by (left; reflexivity).
  assert (sqs_account_id row_sqs <> None) as Hs by discriminate.
  assert (In m (amazon_config_sqs_message w_no_details)) as Hm
    by (left; reflexivity).
  split; [exact Hr|]. split; [exact Hs|]. split; [reflexivity|].
  split; [exact Hm|].
  exact (throw_delayed_jobs_all_without_details 1 [1; 2] w_no_details row_sqs
           m Hr Hs eq_refl Hm eq_refl eq_refl).
Defined.
